(** * textacy.datasets.reddit_comments: a shallow embedding

    The module streams Reddit comments from monthly files on disk and
    filters them by subreddit, date, score and length.  This file embeds
    [RedditComments] (src/textacy/datasets/reddit_comments.py) function by
    function and proves properties of the embedding.

    Conventions of the embedding (Python 3 semantics throughout):
    - a Python [str] is a [string]; its characters are read as the code
      points 0..255, compared by code point as Python does;
    - a Python [int] is a [Z];
    - a JSON record is a [gmap string scalar]: the field values considered
      are [None], booleans, integers and strings;
    - a raising computation returns [Raise e]; a [while] loop is run with
      fuel and returns [None] when the fuel does not suffice;
    - where Python leaves a result to the platform ([%Y] of [strftime], the
      range of [time_t]), the embedding follows CPython 3.11 on Linux with
      glibc. *)

From Stdlib Require Import ZArith Lia Ascii String List Bool.
From stdpp Require Import base option list gmap strings sorting.

Local Open Scope Z_scope.

(** ** Python values, exceptions and results *)

Inductive scalar : Type :=
| SNone
| SBool (b : bool)
| SInt (z : Z)
| SStr (s : string).

(** An argument as a caller passes it: a single value or a collection. *)
Inductive pyarg : Type :=
| AScalar (x : scalar)
| ATuple (l : list scalar)
| AList (l : list scalar)
| ASet (l : list scalar).

(** [IOError dir dr] stands for the error whose message is
    ['No files found at {} corresponding to date range {}'.format(dir, dr)]. *)
Inductive exn : Type :=
| ValueError
| TypeError
| KeyError (key : string)
| OverflowError
| OSError
| IOError (dir : string) (dr : pyarg).

Inductive result (A : Type) : Type :=
| Ok (a : A)
| Raise (e : exn).
Arguments Ok {A} a.
Arguments Raise {A} e.

Global Instance result_ret : MRet result := @Ok.
Global Instance result_bind : MBind result := λ A B f m,
  match m with
  | Ok a => f a
  | Raise e => Raise e
  end.

(** [try: m except ValueError: h] *)
Definition except_ValueError {A} (m h : result A) : result A :=
  match m with
  | Raise ValueError => h
  | r => r
  end.

Global Instance scalar_eq_dec : EqDecision scalar.
Proof. solve_decision. Defined.

(** Truth value testing ([bool(x)]). *)
Definition truthy_scalar (x : scalar) : bool :=
  match x with
  | SNone => false
  | SBool b => b
  | SInt z => negb (z =? 0)
  | SStr s => negb (String.eqb s "")
  end.

Definition truthy (a : pyarg) : bool :=
  match a with
  | AScalar x => truthy_scalar x
  | ATuple l | AList l | ASet l =>
      match l with [] => false | _ => true end
  end.

(** Booleans are integers in Python. *)
Definition as_num (x : scalar) : option Z :=
  match x with
  | SBool b => Some (if b then 1 else 0)
  | SInt z => Some z
  | _ => None
  end.

(** [x == y] *)
Definition py_eq (x y : scalar) : bool :=
  match as_num x, as_num y with
  | Some a, Some b => a =? b
  | _, _ =>
      match x, y with
      | SNone, SNone => true
      | SStr s, SStr t => String.eqb s t
      | _, _ => false
      end
  end.

(** [x < y] and [x <= y]: numbers with numbers, strings with strings (by code
    point, lexicographically); anything else is a [TypeError]. *)
Definition py_lt (x y : scalar) : result bool :=
  match as_num x, as_num y with
  | Some a, Some b => Ok (a <? b)
  | _, _ =>
      match x, y with
      | SStr s, SStr t => Ok (String.ltb s t)
      | _, _ => Raise TypeError
      end
  end.

Definition py_le (x y : scalar) : result bool :=
  match as_num x, as_num y with
  | Some a, Some b => Ok (a <=? b)
  | _, _ =>
      match x, y with
      | SStr s, SStr t => Ok (String.leb s t)
      | _, _ => Raise TypeError
      end
  end.

(** The chained comparison [lo <= x < hi]: the second test is evaluated only
    when the first holds. *)
Definition py_between (lo x hi : scalar) : result bool :=
  b ← py_le lo x;
  if b : bool then py_lt x hi else Ok false.

(** ** Module constants *)

Definition MIN_DATE : string := "2007-10-01".
Definition MAX_DATE : string := "2015-06-01".
Definition MIN_SCORE : Z := -2147483647.
Definition MAX_SCORE : Z := 2147483647.

(** ** Range normalisation *)

(** [_parse_date_range]: the returned 2-tuple is a pair. *)
Definition _parse_date_range (date_range : pyarg) : result (scalar * scalar) :=
  match date_range with
  | ATuple l | AList l =>
      match l with
      | [d0; d1] =>
          let '(d0, d1) :=
            if negb (truthy_scalar d0) then (SStr MIN_DATE, d1) else (d0, d1) in
          let '(d0, d1) :=
            if negb (truthy_scalar d1) then (d0, SStr MAX_DATE) else (d0, d1) in
          Ok (d0, d1)
      | _ => Raise ValueError
      end
  | _ => Raise ValueError
  end.

(** [_parse_score_range] *)
Definition _parse_score_range (score_range : pyarg) : result (scalar * scalar) :=
  match score_range with
  | ATuple l | AList l =>
      match l with
      | [s0; s1] =>
          let '(s0, s1) :=
            if negb (truthy_scalar s0) then (SInt MIN_SCORE, s1) else (s0, s1) in
          let '(s0, s1) :=
            if negb (truthy_scalar s1) then (s0, SInt MAX_SCORE) else (s0, s1) in
          Ok (s0, s1)
      | _ => Raise ValueError
      end
  | _ => Raise ValueError
  end.

(** The 2-tuple a normalised range stands for. *)
Definition tuple2 (p : scalar * scalar) : pyarg := ATuple [p.1; p.2].

(** ** Characters and decimal fields *)

Definition code (c : ascii) : Z := Z.of_N (N_of_ascii c).

Definition in_range (lo hi c : ascii) : bool :=
  (code lo <=? code c) && (code c <=? code hi).

Definition is_digit (c : ascii) : bool := in_range "0" "9" c.

Definition digit_val (c : ascii) : Z := code c - 48.

Definition digit_char (d : Z) : ascii := ascii_of_N (Z.to_N (48 + d)).

(** Unicode white space among the code points 0..255: what [str.strip] and
    the regular expression [\s] treat as blank. *)
Definition is_space (c : ascii) : bool :=
  let n := code c in
  ((9 <=? n) && (n <=? 13)) || ((28 <=? n) && (n <=? 32))
  || (n =? 133) || (n =? 160).

(** What [int] skips around a number.  CPython copies the code points below
    127 as they are, turns the Unicode blanks above them (133 and 160 here)
    into spaces, and then skips [Py_ISSPACE]: tab to carriage return, and
    the space.  The separators 28..31 are blank for [str.strip] but not
    here: [int('\x1c12')] is a [ValueError]. *)
Definition is_int_space (c : ascii) : bool :=
  let n := code c in
  ((9 <=? n) && (n <=? 13)) || (n =? 32) || (n =? 133) || (n =? 160).

(** Two and four digits, padded with zeros: [%m], [%d], [%H], [%M], [%S]
    write two; a year typed as [YYYY] has four. *)
Definition pad2 (n : Z) : string :=
  String (digit_char (n / 10 mod 10)) (String (digit_char (n mod 10)) "").

Definition pad4 (n : Z) : string :=
  String (digit_char (n / 1000 mod 10)) (String (digit_char (n / 100 mod 10))
    (pad2 n)).

(** [%Y] as [strftime] writes it for the years 1..9999 of [datetime]:
    CPython hands the directive to the C library, and glibc writes the year
    in decimal without padding, ['999'] for 999 and ['1'] for 1.  From the
    year 1000 on these are the four digits of [pad4]. *)
Definition fmt_Y (y : Z) : string :=
  if y <? 10 then String (digit_char (y mod 10)) ""
  else if y <? 100 then pad2 y
  else if y <? 1000 then String (digit_char (y / 100 mod 10)) (pad2 y)
  else pad4 y.

(** ** The part of [datetime] the module uses *)

Record datetime : Type := mk_datetime {
  year : Z; month : Z; day : Z; hour : Z; minute : Z; second : Z
}.

Definition is_leap (y : Z) : bool :=
  (y mod 4 =? 0) && (negb (y mod 100 =? 0) || (y mod 400 =? 0)).

Definition days_in_month (y m : Z) : Z :=
  if m =? 2 then (if is_leap y then 29 else 28)
  else if (m =? 4) || (m =? 6) || (m =? 9) || (m =? 11) then 30
  else 31.

(** [datetime(y, m, d, hh, mm, ss)]: a [ValueError] outside the calendar. *)
Definition new_datetime (y m d hh mm ss : Z) : result datetime :=
  if (1 <=? y) && (y <=? 9999) && (1 <=? m) && (m <=? 12)
     && (1 <=? d) && (d <=? days_in_month y m)
     && (0 <=? hh) && (hh <=? 23) && (0 <=? mm) && (mm <=? 59)
     && (0 <=? ss) && (ss <=? 59)
  then Ok (mk_datetime y m d hh mm ss)
  else Raise ValueError.

(** The directives of [strptime], each as the regular expression that
    [_strptime] compiles it to, alternatives tried from left to right:
    [%Y] is [\d\d\d\d], [%m] is [1[0-2]|0[1-9]|[1-9]] and
    [%d] is [3[01]|[12]\d|0[1-9]|[1-9]| [1-9]]. *)
Definition parse_Y (s : string) : option (Z * string) :=
  match s with
  | String a (String b (String c (String d rest))) =>
      if is_digit a && is_digit b && is_digit c && is_digit d
      then Some (1000 * digit_val a + 100 * digit_val b
                 + 10 * digit_val c + digit_val d, rest)
      else None
  | _ => None
  end.

Definition parse_m (s : string) : option (Z * string) :=
  match s with
  | String c0 rest0 =>
      let one := if in_range "1" "9" c0
                 then Some (digit_val c0, rest0) else None in
      match rest0 with
      | String c1 rest1 =>
          if Ascii.eqb c0 "1" && in_range "0" "2" c1
          then Some (10 + digit_val c1, rest1)
          else if Ascii.eqb c0 "0" && in_range "1" "9" c1
          then Some (digit_val c1, rest1)
          else one
      | EmptyString => one
      end
  | EmptyString => None
  end.

Definition parse_d (s : string) : option (Z * string) :=
  match s with
  | String c0 rest0 =>
      let one := if in_range "1" "9" c0
                 then Some (digit_val c0, rest0) else None in
      match rest0 with
      | String c1 rest1 =>
          if Ascii.eqb c0 "3" && in_range "0" "1" c1
          then Some (30 + digit_val c1, rest1)
          else if in_range "1" "2" c0 && is_digit c1
          then Some (10 * digit_val c0 + digit_val c1, rest1)
          else if Ascii.eqb c0 "0" && in_range "1" "9" c1
          then Some (digit_val c1, rest1)
          else if in_range "1" "9" c0
          then Some (digit_val c0, rest0)
          else if Ascii.eqb c0 " " && in_range "1" "9" c1
          then Some (digit_val c1, rest1)
          else None
      | EmptyString => one
      end
  | EmptyString => None
  end.

Definition parse_lit (c : ascii) (s : string) : option string :=
  match s with
  | String c' rest => if Ascii.eqb c c' then Some rest else None
  | EmptyString => None
  end.

(** The whole string has to be consumed ("unconverted data remains"). *)
Definition parse_end (s : string) : option unit :=
  match s with
  | EmptyString => Some tt
  | _ => None
  end.

(** [datetime.strptime(x, '%Y-%m')] *)
Definition strptime_Ym (x : scalar) : result datetime :=
  match x with
  | SStr s =>
      let found :=
        '(y, s) ← parse_Y s; s ← parse_lit "-" s;
        '(m, s) ← parse_m s; _ ← parse_end s; Some (y, m) in
      match found with
      | Some (y, m) => new_datetime y m 1 0 0 0
      | None => Raise ValueError
      end
  | _ => Raise TypeError
  end.

(** [datetime.strptime(x, '%Y-%m-%d')] *)
Definition strptime_Ymd (x : scalar) : result datetime :=
  match x with
  | SStr s =>
      let found :=
        '(y, s) ← parse_Y s; s ← parse_lit "-" s;
        '(m, s) ← parse_m s; s ← parse_lit "-" s;
        '(d, s) ← parse_d s; _ ← parse_end s; Some (y, m, d) in
      match found with
      | Some (y, m, d) => new_datetime y m d 0 0 0
      | None => Raise ValueError
      end
  | _ => Raise TypeError
  end.

(** [dt.strftime('%Y/RC_%Y-%m.bz2')], [dt.strftime('%Y-%m')] and
    [dt.strftime('%Y-%m-%dT%H:%M:%S')]. *)
Definition strftime_fname (dt : datetime) : string :=
  fmt_Y (year dt) +:+ "/RC_" +:+ fmt_Y (year dt) +:+ "-" +:+ pad2 (month dt)
  +:+ ".bz2".

Definition strftime_Ym (dt : datetime) : string :=
  fmt_Y (year dt) +:+ "-" +:+ pad2 (month dt).

Definition strftime_iso (dt : datetime) : string :=
  fmt_Y (year dt) +:+ "-" +:+ pad2 (month dt) +:+ "-" +:+ pad2 (day dt)
  +:+ "T" +:+ pad2 (hour dt) +:+ ":" +:+ pad2 (minute dt) +:+ ":"
  +:+ pad2 (second dt).

(** ** [_generate_filenames] *)

(** The body of the [while] loop: the list with the file name of [yrmo]
    appended, and the next [yrmo]. *)
Definition generate_step (yrmo : scalar) (fnames : list string)
  : result (list string * scalar) :=
  dt ← except_ValueError (strptime_Ym yrmo) (strptime_Ymd yrmo);
  let fnames := fnames ++ [strftime_fname dt] in
  let next_yr := year dt in
  let next_mo := month dt + 1 in
  let '(next_yr, next_mo) :=
    if next_mo >? 12 then (next_yr + 1, 1) else (next_yr, next_mo) in
  nxt ← new_datetime next_yr next_mo 1 0 0 0;
  Ok (fnames, SStr (strftime_Ym nxt)).

(** [while yrmo < end: ...]; one unit of fuel per test of the condition. *)
Fixpoint generate_loop (fuel : nat) (yrmo end_ : scalar) (fnames : list string)
  : option (result (list string)) :=
  match fuel with
  | O => None
  | S fuel =>
      match py_lt yrmo end_ with
      | Raise e => Some (Raise e)
      | Ok false => Some (Ok fnames)
      | Ok true =>
          match generate_step yrmo fnames with
          | Raise e => Some (Raise e)
          | Ok (fnames, yrmo) => generate_loop fuel yrmo end_ fnames
          end
      end
  end.

Definition _generate_filenames (fuel : nat) (date_range : scalar * scalar)
  : option (result (list string)) :=
  let '(yrmo, end_) := date_range in
  generate_loop fuel yrmo end_ [].

(** ** [_convert_timestamp] *)

Inductive int_state : Type := IntStart | IntDigit | IntUnderscore.

Definition all_int_space (s : string) : bool :=
  forallb is_int_space (list_ascii_of_string s).

(** The digits of an integer literal: single underscores may separate
    digits, and only blanks may follow the last digit. *)
Fixpoint int_digits (st : int_state) (acc : Z) (s : string) : option Z :=
  match s with
  | EmptyString =>
      match st with IntDigit => Some acc | _ => None end
  | String c rest =>
      if is_digit c then int_digits IntDigit (10 * acc + digit_val c) rest
      else match st with
           | IntDigit =>
               if Ascii.eqb c "_" then int_digits IntUnderscore acc rest
               else if is_int_space c && all_int_space rest then Some acc
               else None
           | _ => None
           end
  end.

Fixpoint skip_int_space (s : string) : string :=
  match s with
  | String c rest => if is_int_space c then skip_int_space rest else s
  | EmptyString => EmptyString
  end.

Fixpoint lstrip (s : string) : string :=
  match s with
  | String c rest => if is_space c then lstrip rest else s
  | EmptyString => EmptyString
  end.

(** [sys.get_int_max_str_digits()], as the interpreter starts: a literal
    with more digits is refused with a [ValueError]. *)
Definition int_max_str_digits : Z := 4300.

(** The digits of a text; in a well-formed literal, those of the number,
    leading zeros included. *)
Definition count_digits (s : string) : Z :=
  Z.of_nat (length (List.filter is_digit (list_ascii_of_string s))).

(** [int(s)] for a string: blanks, an optional sign, the digits, blanks;
    [None] stands for the [ValueError]. *)
Definition int_of_string (s : string) : option Z :=
  if int_max_str_digits <? count_digits s then None
  else
    match skip_int_space s with
    | String "-" rest => Z.opp <$> int_digits IntStart 0 rest
    | String "+" rest => int_digits IntStart 0 rest
    | t => int_digits IntStart 0 t
    end.

(** [int(x)] *)
Definition py_int (x : scalar) : result Z :=
  match x with
  | SNone => Raise TypeError
  | SBool b => Ok (if b then 1 else 0)
  | SInt z => Ok z
  | SStr s =>
      match int_of_string s with
      | Some z => Ok z
      | None => Raise ValueError
      end
  end.

(** The civil date of a day number counted from 1970-01-01. *)
Definition civil_from_days (days : Z) : Z * Z * Z :=
  let z := days + 719468 in
  let era := z / 146097 in
  let doe := z - era * 146097 in
  let yoe := (doe - doe / 1460 + doe / 36524 - doe / 146096) / 365 in
  let doy := doe - (365 * yoe + yoe / 4 - yoe / 100) in
  let mp := (5 * doy + 2) / 153 in
  let d := doy - (153 * mp + 2) / 5 + 1 in
  let m := if mp <? 10 then mp + 3 else mp - 9 in
  let y := yoe + era * 400 in
  (if m <=? 2 then y + 1 else y, m, d).

(** [datetime.utcfromtimestamp(ts)] for an integer, as CPython 3 computes it
    where [time_t] has 64 bits: an [OverflowError] outside [time_t], an
    [OSError] where the C library's [gmtime] overflows its year, and a
    [ValueError] for a year outside 1..9999. *)
Definition utcfromtimestamp (ts : Z) : result datetime :=
  if negb ((- 2 ^ 63 <=? ts) && (ts <? 2 ^ 63)) then Raise OverflowError
  else
    let '(y, m, d) := civil_from_days (ts / 86400) in
    let secs := ts mod 86400 in
    if negb ((- 2 ^ 31 <=? y - 1900) && (y - 1900 <? 2 ^ 31))
    then Raise OSError
    else new_datetime y m d (secs / 3600) (secs / 60 mod 60) (secs mod 60).

Definition _convert_timestamp (timestamp : scalar) : result string :=
  match (z ← py_int timestamp;
         dt ← utcfromtimestamp z;
         Ok (strftime_iso dt)) with
  | Raise ValueError | Raise TypeError => Ok EmptyString
  | r => r
  end.

(** ** [_clean_content] *)

(** The longest run of characters other than [stop], when [stop] follows it:
    the run and what comes after [stop]. *)
Fixpoint take_until (stop : ascii) (s : string) : option (string * string) :=
  match s with
  | EmptyString => None
  | String c rest =>
      if Ascii.eqb c stop then Some (EmptyString, rest)
      else '(run, after) ← take_until stop rest; Some (String c run, after)
  end.

Definition strip_prefix (p s : string) : option string :=
  if String.prefix p s
  then Some (String.substring (String.length p)
               (String.length s - String.length p) s)
  else None.

(** A match of [REDDIT_LINK_RE], [\[([^]]+)\]\(https?://[^\)]+\)], at the
    start of [s]: group 1 and the number of characters matched.  Each
    negated class is followed by the character it excludes, so the greedy
    match is the only one. *)
Definition match_link (s : string) : option (string * nat) :=
  s1 ← parse_lit "[" s;
  '(label, s2) ← take_until "]" s1;
  if String.eqb label "" then None else
  s3 ← parse_lit "(" s2;
  s4 ← strip_prefix "http" s3;
  let s5 := default s4 (parse_lit "s" s4) in
  s6 ← strip_prefix "://" s5;
  '(url, s7) ← take_until ")" s6;
  if String.eqb url "" then None else
  Some (label, (String.length s - String.length s7)%nat).

(** [REDDIT_LINK_RE.sub(r'\1', content)]: matches are replaced from left to
    right; [skip] counts the characters of the current match still to pass. *)
Fixpoint sub_link_from (skip : nat) (s : string) : string :=
  match s with
  | EmptyString => EmptyString
  | String c rest =>
      match skip with
      | S k => sub_link_from k rest
      | O =>
          match match_link s with
          | Some (label, n) => label +:+ sub_link_from (n - 1) rest
          | None => String c (sub_link_from 0 rest)
          end
      end
  end.

Definition sub_link (content : string) : string := sub_link_from 0 content.

(** [s.replace(old, new)] for a non-empty [old]. *)
Fixpoint replace_from (skip : nat) (old new s : string) : string :=
  match s with
  | EmptyString => EmptyString
  | String c rest =>
      match skip with
      | S k => replace_from k old new rest
      | O =>
          if String.prefix old s
          then new +:+ replace_from (String.length old - 1) old new rest
          else String c (replace_from 0 old new rest)
      end
  end.

Definition str_replace (old new s : string) : string := replace_from 0 old new s.

Fixpoint collapse_space (in_run : bool) (s : string) : string :=
  match s with
  | EmptyString => EmptyString
  | String c rest =>
      if is_space c
      then (if in_run then collapse_space true rest
            else String " " (collapse_space true rest))
      else String c (collapse_space false rest)
  end.

Fixpoint rstrip (s : string) : string :=
  match s with
  | EmptyString => EmptyString
  | String c rest =>
      match rstrip rest with
      | EmptyString => if is_space c then EmptyString else String c EmptyString
      | t => String c t
      end
  end.

(** Modelled from the spec: [textacy.preprocess.normalize_whitespace] is not
    among the sources.  The specification has it collapse all whitespace runs
    (including newlines) to single spaces and trim leading and trailing
    whitespace. *)
Definition normalize_whitespace (s : string) : string :=
  rstrip (lstrip (collapse_space false s)).

Definition _clean_content (content : string) : string :=
  let content := sub_link content in
  let content := str_replace "&lt;" "<" (str_replace "&gt;" ">" content) in
  let content :=
    str_replace "~" "" (str_replace "*" "" (str_replace "`" "" content)) in
  normalize_whitespace content.

(** ** The dataset on disk *)

(** What the module sees of the file system: the data directory, whether it
    exists, the paths [get_filenames] finds under it, and the records
    [read_json_lines] reads from each file. *)
Record dataset : Type := mk_dataset {
  data_dir : string;
  dir_exists : bool;
  get_filenames : list string;
  read_json_lines : string → list (gmap string scalar)
}.

Fixpoint insert_sorted (x : string) (l : list string) : list string :=
  match l with
  | [] => [x]
  | y :: l' => if String.leb x y then x :: l else y :: insert_sorted x l'
  end.

(** [sorted(l)] on strings. *)
Definition sorted (l : list string) : list string :=
  foldr insert_sorted [] l.

(** The [filenames] property. *)
Definition filenames (self : dataset) : list string :=
  if dir_exists self then sorted (get_filenames self) else [].

Definition ends_with (c : ascii) (s : string) : bool :=
  match last (list_ascii_of_string s) with
  | Some c' => Ascii.eqb c c'
  | None => false
  end.

(** [os.path.join(a, b)] *)
Definition path_join (a b : string) : string :=
  if String.prefix "/" b then b
  else if String.eqb a "" || ends_with "/" a then a +:+ b
  else a +:+ "/" +:+ b.

Definition str_in (x : string) (l : list string) : bool :=
  existsb (String.eqb x) l.

(** ** [_iterate] *)

Fixpoint is_substring (t s : string) : bool :=
  String.prefix t s
  || match s with
     | EmptyString => false
     | String _ rest => is_substring t rest
     end.

(** [x in c] *)
Definition py_in (x : scalar) (c : pyarg) : result bool :=
  match c with
  | ASet l | ATuple l | AList l => Ok (existsb (py_eq x) l)
  | AScalar (SStr s) =>
      match x with
      | SStr t => Ok (is_substring t s)
      | _ => Raise TypeError
      end
  | AScalar _ => Raise TypeError
  end.

(** What the generator yields: a text or a whole record. *)
Inductive item : Type :=
| IText (body : string)
| IRecord (line : gmap string scalar).

(** The filter at which a line is dropped by [continue]. *)
Inductive stage : Type := AtSubreddit | AtScore | AtDate | AtMinLen.

Inductive flow (A : Type) : Type :=
| Next (a : A)
| Continue (s : stage)
| Throw (e : exn).
Arguments Next {A} a.
Arguments Continue {A} s.
Arguments Throw {A} e.

(** One pass of the loop body runs over the record [line], which it updates
    in place. *)
Definition lineM (A : Type) : Type :=
  gmap string scalar → gmap string scalar * flow A.

Definition line_ret {A} (a : A) : lineM A := λ line, (line, Next a).

Definition line_bind {A B} (m : lineM A) (k : A → lineM B) : lineM B :=
  λ line,
    match m line with
    | (line', Next a) => k a line'
    | (line', Continue s) => (line', Continue s)
    | (line', Throw e) => (line', Throw e)
    end.

Notation "'let*' x := m 'in' k" := (line_bind m (λ x, k))
  (at level 10, x pattern, m at level 100, k at level 200).

Definition line_continue {A} (s : stage) : lineM A := λ line, (line, Continue s).

Definition line_lift {A} (r : result A) : lineM A := λ line,
  (line, match r with Ok a => Next a | Raise e => Throw e end).

(** [line[key]], [line.get(key, dflt)] and [line[key] = v] *)
Definition line_getitem (key : string) : lineM scalar := λ line,
  (line, match line !! key with
         | Some v => Next v
         | None => Throw (KeyError key)
         end).

Definition line_get (key : string) (dflt : scalar) : lineM scalar := λ line,
  (line, Next (default dflt (line !! key))).

Definition line_setitem (key : string) (v : scalar) : lineM unit := λ line,
  (<[key := v]> line, Next tt).

Definition line_self : lineM (gmap string scalar) := λ line, (line, Next line).

(** [_clean_content] on a field value: [REDDIT_LINK_RE.sub] wants a string. *)
Definition clean_value (v : scalar) : result string :=
  match v with
  | SStr s => Ok (_clean_content s)
  | _ => Raise TypeError
  end.

Definition py_len (s : string) : Z := Z.of_nat (String.length s).

(** [if <filter> and not <test>: continue], for each of the four filters. *)
Definition skip_unless (s : stage) (b : bool) : lineM unit :=
  if b then line_ret tt else line_continue s.

Definition check_subreddit (subreddit : pyarg) : lineM unit :=
  if truthy subreddit then
    let* v := line_getitem "subreddit" in
    let* b := line_lift (py_in v subreddit) in
    skip_unless AtSubreddit b
  else line_ret tt.

Definition check_range (s : stage) (key : string)
    (range : option (scalar * scalar)) : lineM unit :=
  match range with
  | Some (lo, hi) =>
      let* v := line_getitem key in
      let* b := line_lift (py_between lo v hi) in
      skip_unless s b
  | None => line_ret tt
  end.

Definition check_min_len (min_len : Z) (body : string) : lineM unit :=
  skip_unless AtMinLen (negb (negb (min_len =? 0) && (py_len body <? min_len))).

(** The body of the inner loop up to its [yield]. [subreddit] is the
    normalised argument; [score_range] and [date_range] are the normalised
    ranges, [None] when the argument was falsy. *)
Definition process_line (text_only : bool) (subreddit : pyarg)
    (date_range score_range : option (scalar * scalar)) (min_len : Z)
  : lineM item :=
  let* _ := check_subreddit subreddit in
  let* _ := check_range AtScore "score" score_range in
  let* ts := line_get "created_utc" (SStr "") in
  let* created := line_lift (_convert_timestamp ts) in
  let* _ := line_setitem "created_utc" (SStr created) in
  let* _ := check_range AtDate "created_utc" date_range in
  let* body := line_getitem "body" in
  let* body := line_lift (clean_value body) in
  let* _ := line_setitem "body" (SStr body) in
  let* _ := check_min_len min_len body in
  if text_only then line_ret (IText body)
  else
    let* ts := line_get "retrieved_on" (SStr "") in
    let* retrieved := line_lift (_convert_timestamp ts) in
    let* _ := line_setitem "retrieved_on" (SStr retrieved) in
    let* line := line_self in
    line_ret (IRecord line).

(** How a loop ends: its sequence is used up, a [break] leaves it, or an
    exception does. *)
Inductive loop_end : Type := Exhausted | Broke | Failed (e : exn).

(** The state of one iteration as it goes on: the items yielded so far, the
    number of lines read from the files, and the running count [n]. *)
Record progress : Type := mk_progress {
  yielded : list item;
  lines_read : nat;
  count : Z
}.

(** [for line in read_json_lines(filepath): ...] *)
Fixpoint iterate_lines (body : lineM item) (limit : Z)
    (lines : list (gmap string scalar)) (p : progress) : progress * loop_end :=
  match lines with
  | [] => (p, Exhausted)
  | line :: lines =>
      let read := S (lines_read p) in
      match (body line).2 with
      | Throw e => (mk_progress (yielded p) read (count p), Failed e)
      | Continue _ =>
          iterate_lines body limit lines (mk_progress (yielded p) read (count p))
      | Next it =>
          let n := count p + 1 in
          let p := mk_progress (yielded p ++ [it]) read n in
          if n =? limit then (p, Broke)
          else iterate_lines body limit lines p
      end
  end.

(** [for filepath in filepaths: ...] *)
Fixpoint iterate_files (self : dataset) (body : lineM item) (limit : Z)
    (filepaths : list string) (p : progress) : progress * loop_end :=
  match filepaths with
  | [] => (p, Exhausted)
  | filepath :: filepaths =>
      match iterate_lines body limit (read_json_lines self filepath) p with
      | (p, Failed e) => (p, Failed e)
      | (p, _) =>
          if count p =? limit then (p, Broke)
          else iterate_files self body limit filepaths p
      end
  end.

(** One run of the generator: what it yields, how many lines it reads, and
    the exception that ends it, if one does. *)
Record run : Type := mk_run {
  items : list item;
  consumed : nat;
  raised : option exn
}.

Definition failed_run (e : exn) : run := mk_run [] 0 (Some e).

(** The arguments of [_iterate] as the code normalises them. *)
Definition normalize_subreddit (subreddit : pyarg) : pyarg :=
  if truthy subreddit then
    match subreddit with
    | AScalar (SStr s) => ASet [SStr s]
    | AList l | ATuple l => ASet l
    | other => other
    end
  else subreddit.

Definition normalize_range (parse : pyarg → result (scalar * scalar))
    (range : pyarg) : result (option (scalar * scalar)) :=
  if truthy range then r ← parse range; Ok (Some r) else Ok None.

(** The files to read: all of them, or those of the months of the range. *)
Definition select_files (fuel : nat) (self : dataset)
    (date_range : option (scalar * scalar)) : option (result (list string)) :=
  match date_range with
  | Some dr =>
      fnames ← _generate_filenames fuel dr;
      Some (fnames ← fnames;
            let needed_filepaths := map (path_join (data_dir self)) fnames in
            Ok (filter (λ fname, str_in fname needed_filepaths = true)
                  (filenames self)))
  | None => Some (Ok (filenames self))
  end.

(** The value of the variable [date_range] after normalisation. *)
Definition date_range_value (date_range : pyarg)
    (parsed : option (scalar * scalar)) : pyarg :=
  match parsed with
  | Some dr => tuple2 dr
  | None => date_range
  end.

Definition _iterate (fuel : nat) (self : dataset) (text_only : bool)
    (subreddit date_range score_range : pyarg) (min_len limit : Z)
  : option run :=
  let subreddit := normalize_subreddit subreddit in
  match normalize_range _parse_score_range score_range with
  | Raise e => Some (failed_run e)
  | Ok score =>
      match normalize_range _parse_date_range date_range with
      | Raise e => Some (failed_run e)
      | Ok date =>
          selected ← select_files fuel self date;
          match selected with
          | Raise e => Some (failed_run e)
          | Ok [] =>
              Some (failed_run
                      (IOError (data_dir self) (date_range_value date_range date)))
          | Ok filepaths =>
              let body := process_line text_only subreddit date score min_len in
              let '(p, e) :=
                iterate_files self body limit filepaths (mk_progress [] 0 0) in
              Some (mk_run (yielded p) (lines_read p)
                      (match e with Failed ex => Some ex | _ => None end))
          end
      end
  end.

(** [texts] and [records] pass their arguments on. *)
Definition texts (fuel : nat) (self : dataset)
    (subreddit date_range score_range : pyarg) (min_len limit : Z) : option run :=
  _iterate fuel self true subreddit date_range score_range min_len limit.

Definition records (fuel : nat) (self : dataset)
    (subreddit date_range score_range : pyarg) (min_len limit : Z) : option run :=
  _iterate fuel self false subreddit date_range score_range min_len limit.

(** ** The filters, one by one

    The five tests of the loop body as the specification numbers them, each
    on its own; [process_line] is compared with them below. *)

Definition subreddit_test (subreddit : pyarg) (line : gmap string scalar)
  : result bool :=
  if truthy subreddit then
    match line !! "subreddit" with
    | Some v => py_in v subreddit
    | None => Raise (KeyError "subreddit")
    end
  else Ok true.

Definition score_test (score_range : option (scalar * scalar))
    (line : gmap string scalar) : result bool :=
  match score_range with
  | Some (lo, hi) =>
      match line !! "score" with
      | Some v => py_between lo v hi
      | None => Raise (KeyError "score")
      end
  | None => Ok true
  end.

Definition date_test (date_range : option (scalar * scalar)) (created : string)
  : result bool :=
  match date_range with
  | Some (lo, hi) => py_between lo (SStr created) hi
  | None => Ok true
  end.

Definition min_len_test (min_len : Z) (body : string) : bool :=
  negb (negb (min_len =? 0) && (py_len body <? min_len)).

(** What a filter does with the outcome of its test. *)
Definition flow_of (s : stage) (r : result bool) : flow unit :=
  match r with
  | Ok true => Next tt
  | Ok false => Continue s
  | Raise e => Throw e
  end.

(** The converted [created_utc] of a record. *)
Definition converted_created (line : gmap string scalar) : result string :=
  _convert_timestamp (default (SStr "") (line !! "created_utc")).

Definition converted_retrieved (line : gmap string scalar) : result string :=
  _convert_timestamp (default (SStr "") (line !! "retrieved_on")).

(** ** Calendar months by number

    The months of a range as the specification counts them: month [m] of year
    [y] has index [12 * y + (m - 1)], and a range holds the months whose
    index lies between those of its ends. *)

Definition month_index (y m : Z) : Z := 12 * y + (m - 1).

Definition month_of_index (i : Z) : Z * Z := (i / 12, i mod 12 + 1).

(** The months with index [from <= i < to], in order. *)
Definition months_between (from to : Z) : list (Z * Z) :=
  map (λ k, month_of_index (from + Z.of_nat k)) (seq 0 (Z.to_nat (to - from))).

(** ['YYYY/RC_YYYY-MM.bz2'] *)
Definition monthly_filename (ym : Z * Z) : string :=
  pad4 ym.1 +:+ "/RC_" +:+ pad4 ym.1 +:+ "-" +:+ pad2 ym.2 +:+ ".bz2".

(** The two forms of a date the functions take, [YYYY-MM] and [YYYY-MM-DD]. *)
Inductive date_form : Type :=
| YM (y m : Z)
| YMD (y m d : Z).

Definition date_str (f : date_form) : string :=
  match f with
  | YM y m => pad4 y +:+ "-" +:+ pad2 m
  | YMD y m d => pad4 y +:+ "-" +:+ pad2 m +:+ "-" +:+ pad2 d
  end.

Definition form_month (f : date_form) : Z :=
  match f with
  | YM y m | YMD y m _ => month_index y m
  end.

Definition form_day (f : date_form) : Z :=
  match f with
  | YM _ _ => 0
  | YMD _ _ d => d
  end.

Definition valid_form (f : date_form) : Prop :=
  match f with
  | YM y m => 1 <= y <= 9999 ∧ 1 <= m <= 12
  | YMD y m d => 1 <= y <= 9999 ∧ 1 <= m <= 12 ∧ 1 <= d <= days_in_month y m
  end.

(** The order of two dates as texts: by month, then by day, a date without
    a day counting as day 0. *)
Definition form_lt (s e : date_form) : Prop :=
  form_month s < form_month e
  ∨ (form_month s = form_month e ∧ form_day s < form_day e).

(** The index just above the months that sort below a date: the month of
    the date itself is among them when the date has a day. *)
Definition form_upper (e : date_form) : Z :=
  match e with
  | YM y m => month_index y m
  | YMD y m _ => month_index y m + 1
  end.

(** Month [i] as [YYYY-MM]. *)
Definition month_form (i : Z) : date_form :=
  YM (month_of_index i).1 (month_of_index i).2.

(** December 9999, the last month [datetime] has. *)
Definition last_month : Z := month_index 9999 12.

(** January 1000, the first month whose year [strftime] writes with four
    digits. *)
Definition first_month : Z := month_index 1000 1.

(** ** Shapes of a text *)

(** The character [c] occurs in [s]. *)
Definition has_char (c : ascii) (s : string) : Prop :=
  In c (list_ascii_of_string s).

Definition starts_blank (s : string) : bool :=
  match s with
  | String c _ => is_space c
  | EmptyString => false
  end.

(** Every blank is a space and no blank follows it. *)
Fixpoint spaced (s : string) : bool :=
  match s with
  | EmptyString => true
  | String c rest =>
      (negb (is_space c) || (Ascii.eqb c " " && negb (starts_blank rest)))
      && spaced rest
  end.

(** Every blank is a space between two characters that are not blank. *)
Fixpoint single_spaced (s : string) : bool :=
  match s with
  | EmptyString => true
  | String c rest =>
      (negb (is_space c)
       || (Ascii.eqb c " " && negb (starts_blank rest)
           && negb (String.eqb rest "")))
      && single_spaced rest
  end.

(** The records of a list of lines that pass all filters, when no line
    raises: what an unbounded iteration yields. *)
Definition passing (body : lineM item) (lines : list (gmap string scalar))
  : list item :=
  omap (λ line, match (body line).2 with Next it => Some it | _ => None end)
    lines.

Definition no_throw (body : lineM item) (lines : list (gmap string scalar))
  : Prop :=
  Forall (λ line, ∀ e, (body line).2 ≠ Throw e) lines.

(** All the lines of the files, in reading order. *)
Definition all_lines (self : dataset) (filepaths : list string)
  : list (gmap string scalar) :=
  concat (map (read_json_lines self) filepaths).

(** ** Sample data *)

Definition sample_record (subreddit : string) (score : Z) (created : scalar)
    (body : string) : gmap string scalar :=
  <["subreddit" := SStr subreddit]>
    (<["score" := SInt score]>
       (<["created_utc" := created]> (<["body" := SStr body]> ∅))).

(** A data directory with one monthly file of one record. *)
Definition one_file : dataset :=
  mk_dataset "/data" true ["/data/2007/RC_2007-11.bz2"]
    (λ _, [sample_record "politics" 5 (SInt 1195000000) "hello"]).

Definition no_arg : pyarg := AScalar SNone.

(** Two monthly files, listed out of order; the second record of the later
    file has no body. *)
Definition two_files : dataset :=
  mk_dataset "/data" true
    ["/data/2007/RC_2007-12.bz2"; "/data/2007/RC_2007-11.bz2"]
    (λ f, if String.eqb f "/data/2007/RC_2007-11.bz2"
          then [sample_record "politics" 5 (SInt 1195000000) "one";
                sample_record "news" 1 (SStr "x") "two"]
          else [sample_record "aww" 2 (SInt 1197000000) "three";
                {["subreddit" := SStr "aww"]};
                sample_record "aww" 3 (SInt 1197000001) "four"]).

(** [s <= t] on texts. *)
Definition str_le (s t : string) : Prop := String.leb s t = true.

(** A day as a number that orders days as the calendar does: the index of
    its month, then the day of the month. *)
Definition day_key (month day : Z) : Z := 32 * month + day.

(** ** [download] *)

Definition DOWNLOAD_ROOT : string :=
  "https://archive.org/download/2015_reddit_comments_corpus/reddit_data/".

(** [force is False] *)
Definition is_False (force : scalar) : bool :=
  match force with
  | SBool false => true
  | _ => false
  end.

(** The loop of [download] over the file names.  [disk] is the set of the
    paths at which [os.path.isfile] finds a file; a download that succeeds
    writes its file, and [fetched] lists the calls of
    [write_streaming_download_file] made so far, as (url, filepath).
    [urljoin] stands for [compat.urljoin], which is not among the sources. *)
Fixpoint download_loop (urljoin : string → string → string) (dir : string)
    (force : scalar) (fnames : list string) (disk : gset string)
    (fetched : list (string * string)) : gset string * list (string * string) :=
  match fnames with
  | [] => (disk, fetched)
  | fname :: fnames =>
      let url := urljoin DOWNLOAD_ROOT fname in
      let filepath := path_join dir fname in
      if bool_decide (filepath ∈ disk) && is_False force
      then download_loop urljoin dir force fnames disk fetched
      else download_loop urljoin dir force fnames ({[filepath]} ∪ disk)
             (fetched ++ [(url, filepath)])
  end.

Definition download (fuel : nat) (urljoin : string → string → string)
    (self : dataset) (date_range : pyarg) (force : scalar) (disk : gset string)
  : option (result (gset string * list (string * string))) :=
  match _parse_date_range date_range with
  | Raise e => Some (Raise e)
  | Ok date_range =>
      fnames ← _generate_filenames fuel date_range;
      Some (fnames ← fnames;
            Ok (download_loop urljoin (data_dir self) force fnames disk []))
  end.

(** ** Shapes of arguments and of runs *)

(** A list or tuple of exactly two items. *)
Definition is_pair (a : pyarg) : bool :=
  match a with
  | ATuple [_; _] | AList [_; _] => true
  | _ => false
  end.

(** The body of a yielded item. *)
Definition item_body (it : item) : option scalar :=
  match it with
  | IText b => Some (SStr b)
  | IRecord line => line !! "body"
  end.

(** * Properties *)

(** ** Range normalisation *)

Lemma parse_score_range_pair (a b : scalar) :
  _parse_score_range (ATuple [a; b])
  = Ok (if truthy_scalar a then a else SInt MIN_SCORE,
        if truthy_scalar b then b else SInt MAX_SCORE).
Proof.
  unfold _parse_score_range.
  destruct (truthy_scalar a) eqn:Ha; simpl; rewrite ?Ha;
    destruct (truthy_scalar b); reflexivity.
Qed.

Lemma parse_date_range_pair (a b : scalar) :
  _parse_date_range (ATuple [a; b])
  = Ok (if truthy_scalar a then a else SStr MIN_DATE,
        if truthy_scalar b then b else SStr MAX_DATE).
Proof.
  unfold _parse_date_range.
  destruct (truthy_scalar a) eqn:Ha; simpl; rewrite ?Ha;
    destruct (truthy_scalar b); reflexivity.
Qed.

(** C4, as stated: a falsy first element is not replaced by the least 32-bit
    signed integer, -2147483648. *)
Lemma parse_score_range_not_int32_min :
  truthy_scalar SNone = false
  ∧ _parse_score_range (ATuple [SNone; SInt 100])
    ≠ Ok (SInt (- 2 ^ 31), SInt 100).
Proof. split; [reflexivity | discriminate]. Qed.

(** C4, amended: [_parse_score_range] replaces a falsy first element with
    [MIN_SCORE] = -2147483647 = -(2^31 - 1), one above the least 32-bit signed
    integer, and a falsy second element with [MAX_SCORE] = 2147483647 =
    2^31 - 1, the greatest; truthy elements are kept; so
    [_parse_score_range((None, 100))] is [(-2147483647, 100)]. *)
Theorem parse_score_range_defaults :
  (∀ a b : scalar,
     _parse_score_range (ATuple [a; b])
     = Ok (if truthy_scalar a then a else SInt (-2147483647),
           if truthy_scalar b then b else SInt 2147483647))
  ∧ MIN_SCORE = - (2 ^ 31 - 1)
  ∧ MAX_SCORE = 2 ^ 31 - 1
  ∧ _parse_score_range (ATuple [SNone; SInt 100])
    = Ok (SInt (-2147483647), SInt 100).
Proof.
  split; [exact parse_score_range_pair |].
  repeat split; reflexivity.
Qed.

(** C10: truthiness decides the defaults.  [_parse_score_range((0, 100))] is
    [(-2147483647, 100)] and [_parse_score_range((-5, 0))] is
    [(-5, 2147483647)]; no argument pair gives a result with a bound 0; and
    [_parse_date_range] replaces an empty string in the same way. *)
Theorem zero_bound_is_unset :
  _parse_score_range (ATuple [SInt 0; SInt 100])
  = Ok (SInt (-2147483647), SInt 100)
  ∧ _parse_score_range (ATuple [SInt (-5); SInt 0])
    = Ok (SInt (-5), SInt 2147483647)
  ∧ (∀ a b : scalar, ∃ lo hi,
       _parse_score_range (ATuple [a; b]) = Ok (lo, hi)
       ∧ lo ≠ SInt 0 ∧ hi ≠ SInt 0)
  ∧ (∀ b : scalar, ∃ hi,
       _parse_date_range (ATuple [SStr ""; b]) = Ok (SStr MIN_DATE, hi))
  ∧ (∀ a : scalar, ∃ lo,
       _parse_date_range (ATuple [a; SStr ""]) = Ok (lo, SStr MAX_DATE))
  ∧ (∀ a b : scalar, ∃ lo hi,
       _parse_date_range (ATuple [a; b]) = Ok (lo, hi)
       ∧ lo ≠ SStr "" ∧ hi ≠ SStr "").
Proof.
  split; [reflexivity |]. split; [reflexivity |].
  split.
  { intros a b. rewrite parse_score_range_pair. eexists _, _.
    split; [reflexivity |].
    split.
    - destruct (truthy_scalar a) eqn:Ha; [| discriminate].
      intros ->. discriminate.
    - destruct (truthy_scalar b) eqn:Hb; [| discriminate].
      intros ->. discriminate. }
  split.
  { intros b. rewrite parse_date_range_pair. eexists. reflexivity. }
  split.
  { intros a. rewrite parse_date_range_pair. eexists. reflexivity. }
  intros a b. rewrite parse_date_range_pair. eexists _, _.
  split; [reflexivity |].
  split.
  - destruct (truthy_scalar a) eqn:Ha; [| discriminate].
    intros ->. discriminate.
  - destruct (truthy_scalar b) eqn:Hb; [| discriminate].
    intros ->. discriminate.
Qed.

(** ** The loop body *)

Lemma check_subreddit_eq subreddit line :
  check_subreddit subreddit line
  = (line, flow_of AtSubreddit (subreddit_test subreddit line)).
Proof.
  unfold check_subreddit, subreddit_test.
  destruct (truthy subreddit); [| reflexivity].
  unfold line_bind, line_getitem, line_lift.
  destruct (line !! "subreddit") as [v|]; [| reflexivity].
  destruct (py_in v subreddit) as [[]|]; reflexivity.
Qed.

Lemma check_score_eq sr line :
  check_range AtScore "score" sr line
  = (line, flow_of AtScore (score_test sr line)).
Proof.
  unfold check_range, score_test.
  destruct sr as [[lo hi]|]; [| reflexivity].
  unfold line_bind, line_getitem, line_lift.
  destruct (line !! "score") as [v|]; [| reflexivity].
  destruct (py_between lo v hi) as [[]|]; reflexivity.
Qed.

Lemma check_date_eq dr line c :
  line !! "created_utc" = Some (SStr c) →
  check_range AtDate "created_utc" dr line
  = (line, flow_of AtDate (date_test dr c)).
Proof.
  intros Hc. unfold check_range, date_test.
  destruct dr as [[lo hi]|]; [| reflexivity].
  unfold line_bind, line_getitem, line_lift. rewrite Hc.
  destruct (py_between lo (SStr c) hi) as [[]|]; reflexivity.
Qed.

(** Running the body up to the date filter. *)
Ltac line_step := unfold line_bind at 1.

Ltac through_date Hsub Hsc Hc :=
  unfold process_line;
  line_step; rewrite check_subreddit_eq, Hsub; simpl;
  line_step; rewrite check_score_eq, Hsc; simpl;
  line_step; unfold line_get at 1;
  line_step; match goal with
             | |- context [_convert_timestamp (default _ (?l !! _))] =>
                 fold (converted_created l)
             end; rewrite Hc; simpl;
  line_step; unfold line_setitem at 1;
  line_step; rewrite (check_date_eq _ _ _ (lookup_insert_eq _ _ _)).

Lemma process_line_subreddit text_only subreddit dr sr min_len line :
  subreddit_test subreddit line = Ok false →
  process_line text_only subreddit dr sr min_len line
  = (line, Continue AtSubreddit).
Proof.
  intros Hsub. unfold process_line.
  line_step. rewrite check_subreddit_eq, Hsub. reflexivity.
Qed.

Lemma process_line_score text_only subreddit dr sr min_len line :
  subreddit_test subreddit line = Ok true →
  score_test sr line = Ok false →
  process_line text_only subreddit dr sr min_len line
  = (line, Continue AtScore).
Proof.
  intros Hsub Hsc. unfold process_line.
  line_step. rewrite check_subreddit_eq, Hsub. simpl.
  line_step. rewrite check_score_eq, Hsc. reflexivity.
Qed.

Lemma process_line_date text_only subreddit dr sr min_len line c :
  subreddit_test subreddit line = Ok true →
  score_test sr line = Ok true →
  converted_created line = Ok c →
  date_test dr c = Ok false →
  process_line text_only subreddit dr sr min_len line
  = (<["created_utc" := SStr c]> line, Continue AtDate).
Proof.
  intros Hsub Hsc Hc Hd. through_date Hsub Hsc Hc.
  rewrite Hd. reflexivity.
Qed.

Lemma process_line_date_throw text_only subreddit dr sr min_len line c e :
  subreddit_test subreddit line = Ok true →
  score_test sr line = Ok true →
  converted_created line = Ok c →
  date_test dr c = Raise e →
  process_line text_only subreddit dr sr min_len line
  = (<["created_utc" := SStr c]> line, Throw e).
Proof.
  intros Hsub Hsc Hc Hd. through_date Hsub Hsc Hc.
  rewrite Hd. reflexivity.
Qed.

Lemma body_after_created (line : gmap string scalar) c :
  <["created_utc" := SStr c]> line !! "body" = line !! "body".
Proof. by apply lookup_insert_ne. Qed.

Lemma process_line_min_len text_only subreddit dr sr min_len line c b :
  subreddit_test subreddit line = Ok true →
  score_test sr line = Ok true →
  converted_created line = Ok c →
  date_test dr c = Ok true →
  line !! "body" = Some (SStr b) →
  min_len_test min_len (_clean_content b) = false →
  process_line text_only subreddit dr sr min_len line
  = (<["body" := SStr (_clean_content b)]> (<["created_utc" := SStr c]> line),
     Continue AtMinLen).
Proof.
  intros Hsub Hsc Hc Hd Hb Hm. through_date Hsub Hsc Hc.
  rewrite Hd. simpl.
  line_step. unfold line_getitem at 1. rewrite body_after_created, Hb.
  line_step. simpl.
  line_step. unfold line_setitem at 1.
  line_step. unfold check_min_len. fold (min_len_test min_len (_clean_content b)).
  rewrite Hm. reflexivity.
Qed.

Lemma process_line_text subreddit dr sr min_len line c b :
  subreddit_test subreddit line = Ok true →
  score_test sr line = Ok true →
  converted_created line = Ok c →
  date_test dr c = Ok true →
  line !! "body" = Some (SStr b) →
  min_len_test min_len (_clean_content b) = true →
  process_line true subreddit dr sr min_len line
  = (<["body" := SStr (_clean_content b)]> (<["created_utc" := SStr c]> line),
     Next (IText (_clean_content b))).
Proof.
  intros Hsub Hsc Hc Hd Hb Hm. through_date Hsub Hsc Hc.
  rewrite Hd. simpl.
  line_step. unfold line_getitem at 1. rewrite body_after_created, Hb.
  line_step. simpl.
  line_step. unfold line_setitem at 1.
  line_step. unfold check_min_len. fold (min_len_test min_len (_clean_content b)).
  rewrite Hm. reflexivity.
Qed.

Lemma process_line_record subreddit dr sr min_len line c b r :
  subreddit_test subreddit line = Ok true →
  score_test sr line = Ok true →
  converted_created line = Ok c →
  date_test dr c = Ok true →
  line !! "body" = Some (SStr b) →
  min_len_test min_len (_clean_content b) = true →
  converted_retrieved line = Ok r →
  let final :=
    <["retrieved_on" := SStr r]>
      (<["body" := SStr (_clean_content b)]>
         (<["created_utc" := SStr c]> line)) in
  process_line false subreddit dr sr min_len line = (final, Next (IRecord final)).
Proof.
  intros Hsub Hsc Hc Hd Hb Hm Hr final. through_date Hsub Hsc Hc.
  rewrite Hd. simpl.
  line_step. unfold line_getitem at 1. rewrite body_after_created, Hb.
  line_step. simpl.
  line_step. unfold line_setitem at 1.
  line_step. unfold check_min_len. fold (min_len_test min_len (_clean_content b)).
  rewrite Hm. simpl.
  line_step. unfold line_get at 1.
  rewrite lookup_insert_ne by done. rewrite lookup_insert_ne by done.
  line_step. fold (converted_retrieved line). rewrite Hr. simpl.
  reflexivity.
Qed.

(** C5: the loop body applies the filters in the order subreddit, score,
    timestamp conversion and date, body cleaning, minimum length, and stops at
    the first that fails.  A record that fails the subreddit test is dropped
    unchanged whatever its other fields hold; one that passes it and fails the
    score test is dropped unchanged; one that fails the date test has only
    [created_utc] converted, its body as it was; one that fails the length
    test has the converted timestamp and the cleaned body. *)
Theorem filters_apply_in_order (text_only : bool) (subreddit : pyarg)
    (dr sr : option (scalar * scalar)) (min_len : Z)
    (line : gmap string scalar) :
  (subreddit_test subreddit line = Ok false →
   process_line text_only subreddit dr sr min_len line
   = (line, Continue AtSubreddit))
  ∧ (subreddit_test subreddit line = Ok true →
     score_test sr line = Ok false →
     process_line text_only subreddit dr sr min_len line
     = (line, Continue AtScore))
  ∧ (∀ c,
       subreddit_test subreddit line = Ok true →
       score_test sr line = Ok true →
       converted_created line = Ok c →
       date_test dr c = Ok false →
       process_line text_only subreddit dr sr min_len line
       = (<["created_utc" := SStr c]> line, Continue AtDate)
       ∧ <["created_utc" := SStr c]> line !! "body" = line !! "body")
  ∧ (∀ c b,
       subreddit_test subreddit line = Ok true →
       score_test sr line = Ok true →
       converted_created line = Ok c →
       date_test dr c = Ok true →
       line !! "body" = Some (SStr b) →
       min_len_test min_len (_clean_content b) = false →
       process_line text_only subreddit dr sr min_len line
       = (<["body" := SStr (_clean_content b)]>
            (<["created_utc" := SStr c]> line),
          Continue AtMinLen)).
Proof.
  split; [apply process_line_subreddit |].
  split; [apply process_line_score |].
  split.
  - intros c Hsub Hsc Hc Hd. split.
    + by apply process_line_date.
    + apply body_after_created.
  - intros c b. apply process_line_min_len.
Qed.

Lemma filters_apply_in_order_witness :
  let line := sample_record "news" 5 (SStr "soon") "a  *b*" in
  subreddit_test (ASet [SStr "politics"]) line = Ok false
  ∧ process_line false (ASet [SStr "politics"])
      (Some (SStr "2007-10", SStr "2008-01")) (Some (SInt 9, SInt 10)) 3 line
    = (line, Continue AtSubreddit).
Proof.
  intros line.
  assert (H : subreddit_test (ASet [SStr "politics"]) line = Ok false)
    by reflexivity.
  split; [exact H |].
  exact (proj1 (filters_apply_in_order false (ASet [SStr "politics"])
                  (Some (SStr "2007-10", SStr "2008-01"))
                  (Some (SInt 9, SInt 10)) 3 line) H).
Defined.

(** ** Timestamps that are not integers *)

Lemma py_int_raise_kind (x : scalar) (e : exn) :
  py_int x = Raise e → e = ValueError ∨ e = TypeError.
Proof.
  destruct x as [| b | z | s]; simpl.
  - intros [= <-]. by right.
  - discriminate.
  - discriminate.
  - destruct (int_of_string s); [discriminate |]. intros [= <-]. by left.
Qed.

Lemma convert_timestamp_unparsable (x : scalar) (e : exn) :
  py_int x = Raise e → _convert_timestamp x = Ok "".
Proof.
  intros H. unfold _convert_timestamp. rewrite H.
  destruct (py_int_raise_kind _ _ H) as [-> | ->]; reflexivity.
Qed.

Lemma leb_empty_r (s : string) : String.leb s "" = true → s = "".
Proof. destruct s; [done | discriminate]. Qed.

Lemma parse_date_range_truthy (dr : pyarg) (p : scalar * scalar) :
  _parse_date_range dr = Ok p →
  truthy_scalar p.1 = true ∧ truthy_scalar p.2 = true.
Proof.
  assert (Hpair : ∀ a b, _parse_date_range (ATuple [a; b]) = Ok p →
                         truthy_scalar p.1 = true ∧ truthy_scalar p.2 = true).
  { intros a b. rewrite parse_date_range_pair. intros [= <-]. simpl.
    destruct (truthy_scalar a) eqn:Ha, (truthy_scalar b) eqn:Hb; done. }
  destruct dr as [x | l | l | l]; try discriminate;
    destruct l as [| a [| b [| c l]]]; try discriminate; apply Hpair.
Qed.

(** A parsed date range never lets the empty string through. *)
Lemma date_test_empty (dr : pyarg) (p : scalar * scalar) :
  _parse_date_range dr = Ok p → date_test (Some p) "" ≠ Ok true.
Proof.
  intros Hp. apply parse_date_range_truthy in Hp as [Hlo _].
  destruct p as [lo hi]. simpl in *. unfold py_between.
  destruct lo as [| b | z | s]; try discriminate.
  simpl. destruct (String.leb s "") eqn:Hs; [| discriminate].
  apply leb_empty_r in Hs. subst s. discriminate.
Qed.

Lemma date_test_empty_str (dr : pyarg) (lo : string) (hi : scalar) :
  _parse_date_range dr = Ok (SStr lo, hi) →
  date_test (Some (SStr lo, hi)) "" = Ok false.
Proof.
  intros Hp. apply parse_date_range_truthy in Hp as [Hlo _].
  simpl in Hlo. unfold date_test, py_between. simpl.
  destruct (String.leb lo "") eqn:Hs; [| reflexivity].
  apply leb_empty_r in Hs. subst lo. discriminate.
Qed.

Lemma process_line_date_blocks text_only subreddit dr sr min_len line c it :
  converted_created line = Ok c →
  date_test dr c ≠ Ok true →
  (process_line text_only subreddit dr sr min_len line).2 ≠ Next it.
Proof.
  intros Hc Hd. unfold process_line.
  line_step. rewrite check_subreddit_eq.
  destruct (subreddit_test subreddit line) as [[]|]; simpl; try done.
  line_step. rewrite check_score_eq.
  destruct (score_test sr line) as [[]|]; simpl; try done.
  line_step. unfold line_get at 1.
  line_step. fold (converted_created line). rewrite Hc. simpl.
  line_step. unfold line_setitem at 1.
  line_step. rewrite (check_date_eq _ _ _ (lookup_insert_eq _ _ _)).
  destruct (date_test dr c) as [[]|]; simpl; done.
Qed.

(** C6: when the [created_utc] of a record (the empty string if the field is
    missing) is not an integer, [_convert_timestamp] returns the empty string
    and raises nothing.  With a date range the record is never yielded, and
    where the range starts with a string and the subreddit and score tests
    pass it is dropped at the date test; with no date range, the other tests
    passing, it is yielded, as a text or as a record whose [created_utc] is
    the empty string. *)
Theorem unparsable_timestamp (line : gmap string scalar) (e : exn) :
  py_int (default (SStr "") (line !! "created_utc")) = Raise e →
  _convert_timestamp (default (SStr "") (line !! "created_utc")) = Ok ""
  ∧ (∀ text_only subreddit date_range p sr min_len it,
       _parse_date_range date_range = Ok p →
       (process_line text_only subreddit (Some p) sr min_len line).2 ≠ Next it)
  ∧ (∀ text_only subreddit date_range lo hi sr min_len,
       _parse_date_range date_range = Ok (SStr lo, hi) →
       subreddit_test subreddit line = Ok true →
       score_test sr line = Ok true →
       process_line text_only subreddit (Some (SStr lo, hi)) sr min_len line
       = (<["created_utc" := SStr ""]> line, Continue AtDate))
  ∧ (∀ subreddit sr min_len b,
       subreddit_test subreddit line = Ok true →
       score_test sr line = Ok true →
       line !! "body" = Some (SStr b) →
       min_len_test min_len (_clean_content b) = true →
       (process_line true subreddit None sr min_len line).2
       = Next (IText (_clean_content b))
       ∧ ∀ r, converted_retrieved line = Ok r →
           ∃ final,
             process_line false subreddit None sr min_len line
             = (final, Next (IRecord final))
             ∧ final !! "created_utc" = Some (SStr "")).
Proof.
  intros Hint.
  pose proof (convert_timestamp_unparsable _ _ Hint) as Hc.
  split; [exact Hc |].
  split.
  { intros text_only subreddit date_range p sr min_len it Hp.
    apply (process_line_date_blocks _ _ _ _ _ _ "" _ Hc).
    by eapply date_test_empty. }
  split.
  { intros text_only subreddit date_range lo hi sr min_len Hp Hsub Hsc.
    apply process_line_date; try done.
    by eapply date_test_empty_str. }
  intros subreddit sr min_len b Hsub Hsc Hb Hm. split.
  - by rewrite (process_line_text _ _ _ _ _ "" b).
  - intros r Hr. eexists. split.
    + by apply (process_line_record _ _ _ _ _ "" b r).
    + rewrite lookup_insert_ne by done. rewrite lookup_insert_ne by done.
      apply lookup_insert_eq.
Qed.

Lemma unparsable_timestamp_witness :
  let line := sample_record "politics" 5 (SStr "soon") "a  *b*" in
  py_int (default (SStr "") (line !! "created_utc")) = Raise ValueError
  ∧ _convert_timestamp (default (SStr "") (line !! "created_utc")) = Ok "".
Proof.
  intros line.
  assert (H : py_int (default (SStr "") (line !! "created_utc"))
              = Raise ValueError) by reflexivity.
  split; [exact H |].
  exact (proj1 (unparsable_timestamp line ValueError H)).
Defined.

(** A record without the field is treated alike. *)
Lemma missing_timestamp (line : gmap string scalar) :
  line !! "created_utc" = None →
  py_int (default (SStr "") (line !! "created_utc")) = Raise ValueError.
Proof. intros ->. reflexivity. Qed.

(** ** One subreddit or a collection of them *)

Lemma py_eq_str_refl (s : string) : py_eq (SStr s) (SStr s) = true.
Proof. simpl. apply String.eqb_refl. Qed.

Lemma subreddit_test_member (l : list scalar) (s : string)
    (line : gmap string scalar) :
  In (SStr s) l →
  line !! "subreddit" = Some (SStr s) →
  subreddit_test (ASet l) line = Ok true.
Proof.
  intros Hin Hline. unfold subreddit_test.
  destruct l as [| x l']; [destruct Hin |]. simpl truthy. cbv iota.
  rewrite Hline. unfold py_in. f_equal.
  apply existsb_exists. exists (SStr s). split; [exact Hin |].
  apply py_eq_str_refl.
Qed.

(** C9: for a record whose subreddit is [s], passing [s] alone and passing a
    collection that holds [s] (a set, a list or a tuple) make the loop body
    behave alike: the same decision and the same changes to the record.  So
    it is for ["politics"] and [{"politics", "news"}]. *)
Theorem single_subreddit_as_collection (s : string) (l : list scalar)
    (text_only : bool) (dr sr : option (scalar * scalar)) (min_len : Z)
    (line : gmap string scalar) :
  s ≠ "" →
  In (SStr s) l →
  line !! "subreddit" = Some (SStr s) →
  let single :=
    process_line text_only (normalize_subreddit (AScalar (SStr s)))
      dr sr min_len line in
  single = process_line text_only (normalize_subreddit (ASet l)) dr sr min_len line
  ∧ single
    = process_line text_only (normalize_subreddit (AList l)) dr sr min_len line
  ∧ single
    = process_line text_only (normalize_subreddit (ATuple l)) dr sr min_len line.
Proof.
  intros Hs Hin Hline single. subst single.
  assert (Hone : normalize_subreddit (AScalar (SStr s)) = ASet [SStr s]).
  { unfold normalize_subreddit. simpl.
    destruct (String.eqb_spec s ""); [done | reflexivity]. }
  assert (Hcol : normalize_subreddit (ASet l) = ASet l
                 ∧ normalize_subreddit (AList l) = ASet l
                 ∧ normalize_subreddit (ATuple l) = ASet l).
  { destruct l as [| x l']; [destruct Hin |]. done. }
  destruct Hcol as (-> & -> & ->). rewrite Hone.
  assert (Heq : process_line text_only (ASet [SStr s]) dr sr min_len line
                = process_line text_only (ASet l) dr sr min_len line).
  { unfold process_line.
    line_step. rewrite check_subreddit_eq.
    rewrite (subreddit_test_member [SStr s] s) by (done || by left).
    symmetry. line_step. rewrite check_subreddit_eq.
    rewrite (subreddit_test_member l s) by done.
    reflexivity. }
  done.
Qed.

Lemma single_subreddit_as_collection_witness :
  let line := sample_record "politics" 5 (SInt 1195000000) "a  *b*" in
  ("politics" : string) ≠ ""
  ∧ In (SStr "politics") [SStr "politics"; SStr "news"]
  ∧ line !! "subreddit" = Some (SStr "politics")
  ∧ process_line false (normalize_subreddit (AScalar (SStr "politics")))
      None None 0 line
    = process_line false
        (normalize_subreddit (ASet [SStr "politics"; SStr "news"]))
        None None 0 line.
Proof.
  intros line.
  assert (H1 : ("politics" : string) ≠ "") by discriminate.
  assert (H2 : In (SStr "politics") [SStr "politics"; SStr "news"])
    by (simpl; auto).
  assert (H3 : line !! "subreddit" = Some (SStr "politics")) by reflexivity.
  split; [exact H1 |]. split; [exact H2 |]. split; [exact H3 |].
  exact (proj1 (single_subreddit_as_collection "politics"
                  [SStr "politics"; SStr "news"] false None None 0 line
                  H1 H2 H3)).
Defined.

(** ** The two loops and the limit *)

Lemma passing_cons body line lines :
  passing body (line :: lines)
  = match (body line).2 with
    | Next it => it :: passing body lines
    | _ => passing body lines
    end.
Proof. unfold passing. simpl. by destruct (body line).2. Qed.

Lemma passing_app body l1 l2 :
  passing body (l1 ++ l2) = passing body l1 ++ passing body l2.
Proof. apply omap_app. Qed.

(** A limit the count has passed is never met again: the inner loop reads
    all its lines and yields every record that passes. *)
Lemma iterate_lines_unbounded body limit lines p :
  no_throw body lines →
  limit <= count p →
  let r := iterate_lines body limit lines p in
  yielded r.1 = yielded p ++ passing body lines
  ∧ lines_read r.1 = (lines_read p + length lines)%nat
  ∧ count r.1 = count p + Z.of_nat (length (passing body lines))
  ∧ r.2 = Exhausted.
Proof.
  revert p. induction lines as [| line lines IH]; intros p Hno Hlim.
  - simpl. rewrite app_nil_r. repeat split; lia.
  - apply Forall_cons in Hno as [Hline Hno].
    rewrite passing_cons. simpl.
    destruct (body line).2 as [it | s | e] eqn:Hb.
    + destruct (Z.eqb_spec (count p + 1) limit) as [Heq | _]; [lia |].
      destruct (IH (mk_progress (yielded p ++ [it]) (S (lines_read p))
                      (count p + 1)) Hno) as (Hy & Hr & Hc & He);
        [simpl; lia |].
      simpl in *. rewrite Hy, Hr, Hc, He, <- app_assoc. simpl.
      repeat split; lia.
    + destruct (IH (mk_progress (yielded p) (S (lines_read p)) (count p)) Hno)
        as (Hy & Hr & Hc & He); [simpl; lia |].
      simpl in *. rewrite Hy, Hr, Hc, He. repeat split; lia.
    + by destruct (Hline e).
Qed.

(** Below the limit, the inner loop yields the passing records up to the
    limit, and leaves by [break] exactly when the count has reached it. *)
Lemma iterate_lines_bounded body limit lines p :
  no_throw body lines →
  count p < limit →
  let r := iterate_lines body limit lines p in
  let k := Z.to_nat (limit - count p) in
  yielded r.1 = yielded p ++ take k (passing body lines)
  ∧ count r.1 = count p + Z.of_nat (length (take k (passing body lines)))
  ∧ ((r.2 = Broke ∧ count r.1 = limit)
     ∨ (r.2 = Exhausted ∧ count r.1 < limit)).
Proof.
  revert p. induction lines as [| line lines IH]; intros p Hno Hlim.
  - simpl. rewrite take_nil, app_nil_r. simpl.
    split; [done |]. split; [lia |]. right. split; [done | lia].
  - apply Forall_cons in Hno as [Hline Hno].
    rewrite passing_cons. simpl.
    destruct (body line).2 as [it | s | e] eqn:Hb.
    + destruct (Z.to_nat (limit - count p)) as [| k'] eqn:Hk; [lia |].
      rewrite firstn_cons.
      destruct (Z.eqb_spec (count p + 1) limit) as [Heq | Hne].
      * assert (k' = 0%nat) as -> by lia. simpl.
        split; [done |]. split; [lia |]. left. split; [done | lia].
      * destruct (IH (mk_progress (yielded p ++ [it]) (S (lines_read p))
                        (count p + 1)) Hno) as (Hy & Hc & He);
          [simpl; lia |].
        simpl in *.
        replace (Z.to_nat (limit - (count p + 1))) with k' in * by lia.
        rewrite Hy, Hc, <- app_assoc. simpl.
        split; [done |]. split; [lia |].
        destruct He as [[-> He] | [-> He]]; [left | right];
          (split; [done | lia]).
    + destruct (IH (mk_progress (yielded p) (S (lines_read p)) (count p)) Hno)
        as (Hy & Hc & He); [simpl; lia |].
      simpl in *. split; [exact Hy |]. split; [exact Hc |]. exact He.
    + by destruct (Hline e).
Qed.

Lemma no_throw_app body l1 l2 :
  no_throw body (l1 ++ l2) ↔ no_throw body l1 ∧ no_throw body l2.
Proof. apply Forall_app. Qed.

Lemma iterate_files_unbounded self body limit filepaths p :
  no_throw body (all_lines self filepaths) →
  limit < count p →
  let r := iterate_files self body limit filepaths p in
  yielded r.1 = yielded p ++ passing body (all_lines self filepaths)
  ∧ lines_read r.1 = (lines_read p + length (all_lines self filepaths))%nat
  ∧ r.2 = Exhausted.
Proof.
  revert p. induction filepaths as [| f fs IH]; intros p Hno Hlim.
  - simpl. rewrite app_nil_r. repeat split; lia.
  - unfold all_lines in *. simpl in *.
    apply no_throw_app in Hno as [Hf Hfs].
    destruct (iterate_lines_unbounded body limit (read_json_lines self f) p Hf)
      as (Hy & Hr & Hc & He); [lia |].
    destruct (iterate_lines body limit (read_json_lines self f) p)
      as [p' e']. simpl in *. subst e'.
    destruct (Z.eqb_spec (count p') limit) as [Heq | _]; [lia |].
    destruct (IH p' Hfs) as (Hy' & Hr' & He'); [lia |].
    rewrite Hy', Hr', He', Hy, Hr, passing_app, length_app, <- app_assoc.
    repeat split; lia.
Qed.

Lemma iterate_files_bounded self body limit filepaths p :
  no_throw body (all_lines self filepaths) →
  count p < limit →
  let r := iterate_files self body limit filepaths p in
  let k := Z.to_nat (limit - count p) in
  yielded r.1 = yielded p ++ take k (passing body (all_lines self filepaths))
  ∧ (∀ e, r.2 ≠ Failed e).
Proof.
  revert p. induction filepaths as [| f fs IH]; intros p Hno Hlim.
  - simpl. rewrite take_nil, app_nil_r. done.
  - unfold all_lines in *. simpl in *.
    apply no_throw_app in Hno as [Hf Hfs].
    destruct (iterate_lines_bounded body limit (read_json_lines self f) p Hf)
      as (Hy & Hc & He); [lia |].
    destruct (iterate_lines body limit (read_json_lines self f) p)
      as [p' e']. simpl in *.
    rewrite passing_app.
    set (k := Z.to_nat (limit - count p)) in *.
    set (here := passing body (read_json_lines self f)) in *.
    rewrite length_take in Hc.
    destruct He as [[-> He] | [-> He]].
    + destruct (Z.eqb_spec (count p') limit) as [_ | Hne]; [| lia].
      simpl. rewrite take_app_le by lia. done.
    + destruct (Z.eqb_spec (count p') limit) as [Heq | _]; [lia |].
      destruct (IH p' Hfs) as (Hy' & He'); [lia |].
      split; [| exact He'].
      rewrite Hy', Hy.
      assert (Hall : take k here = here) by (apply take_ge; lia).
      rewrite Hall, <- app_assoc. f_equal.
      rewrite take_app_ge by lia. f_equal. f_equal. lia.
Qed.

(** ** [_iterate] as a whole *)

(** Once the arguments are normalised and some file is selected, the run is
    that of the two loops. *)
Lemma iterate_run fuel self text_only subreddit date_range score_range
    min_len limit sr dr filepaths :
  normalize_range _parse_score_range score_range = Ok sr →
  normalize_range _parse_date_range date_range = Ok dr →
  select_files fuel self dr = Some (Ok filepaths) →
  filepaths ≠ [] →
  let body :=
    process_line text_only (normalize_subreddit subreddit) dr sr min_len in
  let r := iterate_files self body limit filepaths (mk_progress [] 0 0) in
  _iterate fuel self text_only subreddit date_range score_range min_len limit
  = Some (mk_run (yielded r.1) (lines_read r.1)
            (match r.2 with Failed ex => Some ex | _ => None end)).
Proof.
  intros Hsr Hdr Hsel Hne body r. unfold _iterate.
  rewrite Hsr, Hdr, Hsel. simpl.
  destruct filepaths as [| f fs]; [done |].
  subst r body. by destruct (iterate_files _ _ _ _ _).
Qed.

(** X10: with [limit = -1], or any negative limit, every record that passes
    the filters is yielded and every line is read. *)
Lemma iterate_negative_limit fuel self text_only subreddit date_range
    score_range min_len limit sr dr filepaths :
  normalize_range _parse_score_range score_range = Ok sr →
  normalize_range _parse_date_range date_range = Ok dr →
  select_files fuel self dr = Some (Ok filepaths) →
  filepaths ≠ [] →
  let body :=
    process_line text_only (normalize_subreddit subreddit) dr sr min_len in
  no_throw body (all_lines self filepaths) →
  limit < 0 →
  _iterate fuel self text_only subreddit date_range score_range min_len limit
  = Some (mk_run (passing body (all_lines self filepaths))
            (length (all_lines self filepaths)) None).
Proof.
  intros Hsr Hdr Hsel Hne body Hno Hlim.
  rewrite (iterate_run _ _ _ _ _ _ _ _ _ _ _ Hsr Hdr Hsel Hne).
  destruct (iterate_files_unbounded self body limit filepaths
              (mk_progress [] 0 0) Hno) as (Hy & Hr & He); [simpl; lia |].
  fold body. rewrite Hy, Hr, He. reflexivity.
Qed.

(** X11: with a positive limit, the items yielded are the first [limit] of
    the records that pass the filters, over all the files: never more than
    [limit]. *)
Lemma iterate_positive_limit fuel self text_only subreddit date_range
    score_range min_len limit sr dr filepaths :
  normalize_range _parse_score_range score_range = Ok sr →
  normalize_range _parse_date_range date_range = Ok dr →
  select_files fuel self dr = Some (Ok filepaths) →
  filepaths ≠ [] →
  let body :=
    process_line text_only (normalize_subreddit subreddit) dr sr min_len in
  no_throw body (all_lines self filepaths) →
  0 < limit →
  ∃ r,
    _iterate fuel self text_only subreddit date_range score_range min_len limit
    = Some r
    ∧ items r = take (Z.to_nat limit) (passing body (all_lines self filepaths))
    ∧ raised r = None
    ∧ Z.of_nat (length (items r)) <= limit.
Proof.
  intros Hsr Hdr Hsel Hne body Hno Hlim.
  rewrite (iterate_run _ _ _ _ _ _ _ _ _ _ _ Hsr Hdr Hsel Hne).
  destruct (iterate_files_bounded self body limit filepaths
              (mk_progress [] 0 0) Hno) as (Hy & He); [simpl; lia |].
  fold body. simpl in Hy. rewrite Z.sub_0_r in Hy.
  eexists. split; [reflexivity |]. simpl. rewrite Hy.
  split; [done |]. split.
  - destruct (iterate_files _ _ _ _ _).2 as [| | ex] eqn:E; try done.
    by destruct (He ex).
  - rewrite length_take. lia.
Qed.

(** C1, at the input where the code departs from the claim: with [limit = 0]
    and one file holding one record that passes, [texts] yields that record;
    the count is compared with the limit only after it has been incremented,
    so a limit of 0 is not met and caps nothing. *)
Theorem limit_zero_yields :
  texts 0 one_file no_arg no_arg no_arg 0 0
  = Some (mk_run [IText "hello"] 1 None)
  ∧ records 0 one_file no_arg no_arg no_arg 0 0
    = records 0 one_file no_arg no_arg no_arg 0 (-1).
Proof. split; vm_compute; reflexivity. Qed.

(** ** No file to read *)

Lemma str_in_spec (x : string) (l : list string) : str_in x l = true ↔ x ∈ l.
Proof.
  unfold str_in. rewrite existsb_exists, list_elem_of_In. split.
  - intros (y & Hy & Heq). apply String.eqb_eq in Heq. by subst.
  - intros Hx. exists x. split; [done | apply String.eqb_refl].
Qed.

Lemma filter_none {A} (P : A → Prop) `{∀ x, Decision (P x)} (l : list A) :
  (∀ x, x ∈ l → ¬ P x) → filter P l = [].
Proof.
  induction l as [| x l IH]; intros Hl; [done |].
  rewrite filter_cons_False by (apply Hl; left).
  apply IH. intros y Hy. apply Hl. by right.
Qed.

(** C7: when the set of files to read is empty, because no file exists at all
    or because none of the monthly files of the date range is on disk,
    [_iterate] raises the error that names the data directory and the date
    range, and yields nothing. *)
Theorem no_files_not_found (fuel : nat) (self : dataset) (text_only : bool)
    (subreddit date_range score_range : pyarg) (min_len limit : Z)
    (sr dr : option (scalar * scalar)) :
  normalize_range _parse_score_range score_range = Ok sr →
  normalize_range _parse_date_range date_range = Ok dr →
  match dr with
  | None => filenames self = []
  | Some r =>
      ∃ fnames,
        _generate_filenames fuel r = Some (Ok fnames)
        ∧ ∀ f, f ∈ fnames → path_join (data_dir self) f ∉ filenames self
  end →
  _iterate fuel self text_only subreddit date_range score_range min_len limit
  = Some (mk_run [] 0
            (Some (IOError (data_dir self) (date_range_value date_range dr)))).
Proof.
  intros Hsr Hdr Hfiles. unfold _iterate. rewrite Hsr, Hdr.
  assert (Hsel : select_files fuel self dr = Some (Ok [])).
  { unfold select_files. destruct dr as [r |].
    - destruct Hfiles as (fnames & -> & Hnone). simpl. do 2 f_equal.
      apply filter_none. intros x Hx Hin.
      apply str_in_spec, list_elem_of_fmap in Hin as (f & -> & Hf).
      by apply (Hnone f Hf).
    - by rewrite Hfiles. }
  rewrite Hsel. reflexivity.
Qed.

Lemma no_files_not_found_witness :
  let date_range := ATuple [SStr "2009-11"; SStr "2009-12"] in
  let dr := Some (SStr "2009-11", SStr "2009-12") in
  normalize_range _parse_score_range no_arg = Ok None
  ∧ normalize_range _parse_date_range date_range = Ok dr
  ∧ _iterate 2 one_file true no_arg date_range no_arg 0 (-1)
    = Some (mk_run [] 0 (Some (IOError "/data" date_range))).
Proof.
  intros date_range dr.
  assert (H1 : normalize_range _parse_score_range no_arg = Ok None)
    by reflexivity.
  assert (H2 : normalize_range _parse_date_range date_range = Ok dr)
    by reflexivity.
  split; [exact H1 |]. split; [exact H2 |].
  apply (no_files_not_found 2 one_file true no_arg date_range no_arg 0 (-1)
           None dr H1 H2).
  exists ["2009/RC_2009-11.bz2"]. split; [reflexivity |].
  intros f Hf. apply list_elem_of_singleton in Hf. subst f.
  apply (bool_decide_unpack _). vm_compute. exact I.
Defined.

(** ** Monthly file names *)

Lemma digit_cases (d : Z) :
  0 <= d <= 9 →
  d = 0 ∨ d = 1 ∨ d = 2 ∨ d = 3 ∨ d = 4 ∨ d = 5 ∨ d = 6 ∨ d = 7 ∨ d = 8 ∨ d = 9.
Proof. lia. Qed.

Ltac each_digit H :=
  apply digit_cases in H;
  repeat (destruct H as [H | H]); subst.

Lemma code_digit_char (d : Z) : 0 <= d <= 9 → code (digit_char d) = 48 + d.
Proof. intros H. each_digit H; reflexivity. Qed.

Lemma is_digit_digit_char (d : Z) : 0 <= d <= 9 → is_digit (digit_char d) = true.
Proof. intros H. each_digit H; reflexivity. Qed.

Lemma digit_val_digit_char (d : Z) : 0 <= d <= 9 → digit_val (digit_char d) = d.
Proof. intros H. unfold digit_val. rewrite code_digit_char by done. lia. Qed.

Lemma compare_digit_char (a b : Z) :
  0 <= a <= 9 → 0 <= b <= 9 →
  Ascii.compare (digit_char a) (digit_char b) = (a ?= b).
Proof. intros Ha Hb. each_digit Ha; each_digit Hb; reflexivity. Qed.

Lemma decimal4 (y : Z) :
  0 <= y <= 9999 →
  1000 * (y / 1000 mod 10) + 100 * (y / 100 mod 10) + 10 * (y / 10 mod 10)
  + y mod 10 = y.
Proof. intros H. Z.to_euclidean_division_equations. lia. Qed.

Lemma decimal2 (m : Z) :
  0 <= m <= 99 → 10 * (m / 10 mod 10) + m mod 10 = m.
Proof. intros H. Z.to_euclidean_division_equations. lia. Qed.

Lemma digit_bound (n k : Z) : 0 <= n / k mod 10 <= 9.
Proof. pose proof (Z.mod_pos_bound (n / k) 10). lia. Qed.

Lemma digit_bound0 (n : Z) : 0 <= n mod 10 <= 9.
Proof. pose proof (Z.mod_pos_bound n 10). lia. Qed.

Lemma str_app_cons (c : ascii) (s t : string) :
  String c s +:+ t = String c (s +:+ t).
Proof. reflexivity. Qed.

Lemma str_app_nil (t : string) : "" +:+ t = t.
Proof. reflexivity. Qed.

Lemma compare_cons_digit (a b : Z) (s t : string) :
  0 <= a <= 9 → 0 <= b <= 9 →
  String.compare (String (digit_char a) s) (String (digit_char b) t)
  = match a ?= b with Eq => String.compare s t | c => c end.
Proof. intros Ha Hb. simpl. by rewrite compare_digit_char. Qed.

Lemma compare_pad2 (m n : Z) (s t : string) :
  0 <= m <= 99 → 0 <= n <= 99 →
  String.compare (pad2 m +:+ s) (pad2 n +:+ t)
  = match m ?= n with Eq => String.compare s t | c => c end.
Proof.
  intros Hm Hn. unfold pad2. rewrite ?str_app_cons, ?str_app_nil.
  rewrite !compare_cons_digit by (apply digit_bound || apply digit_bound0).
  pose proof (decimal2 m Hm). pose proof (decimal2 n Hn).
  pose proof (digit_bound m 10). pose proof (digit_bound n 10).
  pose proof (digit_bound0 m). pose proof (digit_bound0 n).
  destruct (Z.compare_spec (m / 10 mod 10) (n / 10 mod 10));
    [destruct (Z.compare_spec (m mod 10) (n mod 10)) |..];
    destruct (Z.compare_spec m n); try reflexivity; lia.
Qed.

Lemma compare_pad4 (m n : Z) (s t : string) :
  0 <= m <= 9999 → 0 <= n <= 9999 →
  String.compare (pad4 m +:+ s) (pad4 n +:+ t)
  = match m ?= n with Eq => String.compare s t | c => c end.
Proof.
  intros Hm Hn. unfold pad4, pad2. rewrite ?str_app_cons, ?str_app_nil.
  rewrite !compare_cons_digit by (apply digit_bound || apply digit_bound0).
  pose proof (decimal4 m Hm). pose proof (decimal4 n Hn).
  pose proof (digit_bound m 10). pose proof (digit_bound n 10).
  pose proof (digit_bound m 100). pose proof (digit_bound n 100).
  pose proof (digit_bound m 1000). pose proof (digit_bound n 1000).
  pose proof (digit_bound0 m). pose proof (digit_bound0 n).
  destruct (Z.compare_spec (m / 1000 mod 10) (n / 1000 mod 10));
    [destruct (Z.compare_spec (m / 100 mod 10) (n / 100 mod 10));
     [destruct (Z.compare_spec (m / 10 mod 10) (n / 10 mod 10));
      [destruct (Z.compare_spec (m mod 10) (n mod 10)) |..] |..] |..];
    destruct (Z.compare_spec m n); try reflexivity; lia.
Qed.

Lemma month_cases (m : Z) :
  1 <= m <= 12 →
  m = 1 ∨ m = 2 ∨ m = 3 ∨ m = 4 ∨ m = 5 ∨ m = 6 ∨ m = 7 ∨ m = 8 ∨ m = 9
  ∨ m = 10 ∨ m = 11 ∨ m = 12.
Proof. lia. Qed.

Lemma parse_Y_pad4 (y : Z) (rest : string) :
  0 <= y <= 9999 → parse_Y (pad4 y +:+ rest) = Some (y, rest).
Proof.
  intros Hy. unfold pad4, pad2. rewrite ?str_app_cons, ?str_app_nil.
  unfold parse_Y.
  rewrite !is_digit_digit_char by (apply digit_bound || apply digit_bound0).
  rewrite !digit_val_digit_char by (apply digit_bound || apply digit_bound0).
  simpl. by rewrite decimal4.
Qed.

Lemma parse_m_pad2 (m : Z) (rest : string) :
  1 <= m <= 12 → parse_m (pad2 m +:+ rest) = Some (m, rest).
Proof.
  intros Hm. apply month_cases in Hm.
  repeat (destruct Hm as [Hm | Hm]); subst; reflexivity.
Qed.

Lemma days_in_month_bounds (y m : Z) : 28 <= days_in_month y m <= 31.
Proof.
  unfold days_in_month.
  destruct (m =? 2); [destruct (is_leap y); lia |].
  destruct ((m =? 4) || (m =? 6) || (m =? 9) || (m =? 11)); lia.
Qed.

Lemma parse_d_pad2 (d : Z) :
  1 <= d <= 31 → parse_d (pad2 d) = Some (d, "").
Proof.
  intros Hd.
  assert (H : ∃ n : nat, (n < 31)%nat ∧ d = 1 + Z.of_nat n)
    by (exists (Z.to_nat (d - 1)); lia).
  destruct H as (n & Hn & ->).
  do 31 (destruct n as [| n]; [reflexivity |]). lia.
Qed.

Lemma new_datetime_date (y m d : Z) :
  1 <= y <= 9999 → 1 <= m <= 12 → 1 <= d <= days_in_month y m →
  new_datetime y m d 0 0 0 = Ok (mk_datetime y m d 0 0 0).
Proof.
  intros Hy Hm Hd. unfold new_datetime.
  replace (_ && _) with true; [reflexivity |].
  symmetry. repeat (apply andb_true_intro; split); apply Z.leb_le; lia.
Qed.

Lemma pad2_app_nil (n : Z) : pad2 n +:+ "" = pad2 n.
Proof. reflexivity. Qed.

Lemma date_str_YM (y m : Z) :
  date_str (YM y m) = pad4 y +:+ String "-" (pad2 m +:+ "").
Proof. reflexivity. Qed.

Lemma date_str_YMD (y m d : Z) :
  date_str (YMD y m d)
  = pad4 y +:+ String "-" (pad2 m +:+ String "-" (pad2 d +:+ "")).
Proof. reflexivity. Qed.

Ltac parse_step := cbn -[pad2 pad4 parse_m parse_d new_datetime].

Lemma strptime_Ym_YM (y m : Z) :
  1 <= y <= 9999 → 1 <= m <= 12 →
  strptime_Ym (SStr (date_str (YM y m))) = Ok (mk_datetime y m 1 0 0 0).
Proof.
  intros Hy Hm. unfold strptime_Ym. rewrite date_str_YM.
  rewrite parse_Y_pad4 by lia. parse_step.
  rewrite parse_m_pad2 by lia. parse_step.
  apply new_datetime_date; try lia.
  pose proof (days_in_month_bounds y m). lia.
Qed.

Lemma strptime_Ym_YMD (y m d : Z) :
  1 <= y <= 9999 → 1 <= m <= 12 →
  strptime_Ym (SStr (date_str (YMD y m d))) = Raise ValueError.
Proof.
  intros Hy Hm. unfold strptime_Ym. rewrite date_str_YMD.
  rewrite parse_Y_pad4 by lia. parse_step.
  rewrite parse_m_pad2 by lia. reflexivity.
Qed.

Lemma strptime_Ymd_YMD (y m d : Z) :
  1 <= y <= 9999 → 1 <= m <= 12 → 1 <= d <= days_in_month y m →
  strptime_Ymd (SStr (date_str (YMD y m d))) = Ok (mk_datetime y m d 0 0 0).
Proof.
  intros Hy Hm Hd. unfold strptime_Ymd. rewrite date_str_YMD.
  rewrite parse_Y_pad4 by lia. parse_step.
  rewrite parse_m_pad2 by lia. parse_step.
  pose proof (days_in_month_bounds y m).
  rewrite pad2_app_nil, parse_d_pad2 by lia. parse_step.
  by apply new_datetime_date.
Qed.

(** The order of two date strings is that of their months, then of their
    days, a date without a day coming first. *)
Lemma compare_date_str (s e : date_form) :
  valid_form s → valid_form e →
  String.compare (date_str s) (date_str e)
  = match form_month s ?= form_month e with
    | Eq => form_day s ?= form_day e
    | c => c
    end.
Proof.
  intros Hs He.
  assert (Hcmp : ∀ y m y' m' (t t' : string),
    1 <= y <= 9999 → 1 <= m <= 12 → 1 <= y' <= 9999 → 1 <= m' <= 12 →
    String.compare (pad4 y +:+ String "-" (pad2 m +:+ t))
      (pad4 y' +:+ String "-" (pad2 m' +:+ t'))
    = match month_index y m ?= month_index y' m' with
      | Eq => String.compare t t'
      | c => c
      end).
  { intros y m y' m' t t' Hy Hm Hy' Hm'.
    rewrite compare_pad4 by lia.
    change (String.compare (String "-" ?a) (String "-" ?b))
      with (String.compare a b).
    rewrite compare_pad2 by lia.
    unfold month_index.
    destruct (Z.compare_spec y y'); [destruct (Z.compare_spec m m') |..];
      destruct (Z.compare_spec (12 * y + (m - 1)) (12 * y' + (m' - 1)));
      try reflexivity; lia. }
  destruct s as [y m | y m d], e as [y' m' | y' m' d']; simpl in Hs, He;
    rewrite ?date_str_YM, ?date_str_YMD, Hcmp by lia; simpl form_month;
    simpl form_day; destruct (month_index y m ?= month_index y' m');
    try reflexivity.
  - symmetry. apply Z.compare_lt_iff. lia.
  - symmetry. apply Z.compare_gt_iff. lia.
  - change (String.compare (String "-" ?a) (String "-" ?b))
      with (String.compare a b).
    pose proof (days_in_month_bounds y m).
    pose proof (days_in_month_bounds y' m').
    rewrite compare_pad2 by lia. by destruct (d ?= d').
Qed.

Lemma ltb_date_str (s e : date_form) :
  valid_form s → valid_form e →
  String.ltb (date_str s) (date_str e) = true ↔ form_lt s e.
Proof.
  intros Hs He. unfold String.ltb, form_lt.
  rewrite compare_date_str by done.
  destruct (Z.compare_spec (form_month s) (form_month e));
    [destruct (Z.compare_spec (form_day s) (form_day e)) |..];
    split; try done; try lia; auto.
Qed.

Lemma month_of_index_bounds (i : Z) :
  12 <= i <= last_month →
  1 <= (month_of_index i).1 <= 9999 ∧ 1 <= (month_of_index i).2 <= 12.
Proof.
  unfold last_month, month_index, month_of_index. simpl. intros H.
  Z.to_euclidean_division_equations. lia.
Qed.

Lemma month_index_of_index (i : Z) :
  month_index (month_of_index i).1 (month_of_index i).2 = i.
Proof.
  unfold month_index, month_of_index. simpl.
  Z.to_euclidean_division_equations. lia.
Qed.

Lemma month_of_index_index (y m : Z) :
  1 <= m <= 12 → month_of_index (month_index y m) = (y, m).
Proof.
  intros Hm. unfold month_index, month_of_index. f_equal.
  - Z.to_euclidean_division_equations. lia.
  - Z.to_euclidean_division_equations. lia.
Qed.

Lemma form_month_month_form (i : Z) : form_month (month_form i) = i.
Proof. apply month_index_of_index. Qed.

Lemma fmt_Y_pad4 (y : Z) : 1000 <= y → fmt_Y y = pad4 y.
Proof.
  intros H. unfold fmt_Y.
  destruct (Z.ltb_spec y 10); [lia |].
  destruct (Z.ltb_spec y 100); [lia |].
  by destruct (Z.ltb_spec y 1000); [lia |].
Qed.

Lemma first_month_year (y m : Z) :
  1 <= m <= 12 → first_month <= month_index y m ↔ 1000 <= y.
Proof. unfold first_month, month_index. lia. Qed.

Lemma valid_month_form (i : Z) : 12 <= i <= last_month → valid_form (month_form i).
Proof. intros H. by apply month_of_index_bounds. Qed.

Lemma form_month_bounds (f : date_form) :
  valid_form f → 12 <= form_month f <= last_month.
Proof.
  unfold last_month. destruct f; simpl; unfold month_index; lia.
Qed.

(** One turn of the loop: the file name of the month of [yrmo], and the
    next month as [YYYY-MM]. *)
Lemma generate_step_form (f : date_form) (fnames : list string) :
  valid_form f → first_month <= form_month f < last_month →
  generate_step (SStr (date_str f)) fnames
  = Ok (fnames ++ [monthly_filename (month_of_index (form_month f))],
        SStr (date_str (month_form (form_month f + 1)))).
Proof.
  intros Hf [Hfirst Hlast]. unfold generate_step.
  assert (Hdt : ∃ y m d,
    except_ValueError (strptime_Ym (SStr (date_str f)))
      (strptime_Ymd (SStr (date_str f))) = Ok (mk_datetime y m d 0 0 0)
    ∧ form_month f = month_index y m ∧ 1 <= y <= 9999 ∧ 1 <= m <= 12).
  { destruct f as [y m | y m d]; simpl in Hf.
    - exists y, m, 1. rewrite strptime_Ym_YM by lia.
      simpl. repeat split; lia.
    - exists y, m, d. rewrite strptime_Ym_YMD, strptime_Ymd_YMD by lia.
      simpl. repeat split; lia. }
  destruct Hdt as (y & m & d & -> & Hidx & Hy & Hm).
  rewrite Hidx in *. rewrite month_of_index_index by done.
  apply first_month_year in Hfirst; [| done].
  unfold last_month, month_index in Hlast.
  cbn -[pad2 pad4 fmt_Y new_datetime month_of_index].
  unfold strftime_fname. cbn [year month]. rewrite !fmt_Y_pad4 by done.
  assert (Hnext : month_of_index (month_index y m + 1)
                  = if m + 1 >? 12 then (y + 1, 1) else (y, m + 1)).
  { destruct (Z.gtb_spec (m + 1) 12).
    - replace m with 12 by lia.
      replace (month_index y 12 + 1) with (month_index (y + 1) 1)
        by (unfold month_index; lia).
      by rewrite month_of_index_index.
    - replace (month_index y m + 1) with (month_index y (m + 1))
        by (unfold month_index; lia).
      by rewrite month_of_index_index by lia. }
  unfold month_form. rewrite Hnext.
  destruct (Z.gtb_spec (m + 1) 12).
  - rewrite new_datetime_date;
      [| lia | lia | pose proof (days_in_month_bounds (y + 1) 1); lia].
    cbn -[pad2 pad4 fmt_Y]. unfold strftime_Ym. cbn [year month].
    by rewrite fmt_Y_pad4 by lia.
  - rewrite new_datetime_date;
      [| lia | lia | pose proof (days_in_month_bounds y (m + 1)); lia].
    cbn -[pad2 pad4 fmt_Y]. unfold strftime_Ym. cbn [year month].
    by rewrite fmt_Y_pad4 by lia.
Qed.

Lemma months_between_nil (i u : Z) : u <= i → months_between i u = [].
Proof.
  intros H. unfold months_between. by replace (Z.to_nat (u - i)) with 0%nat by lia.
Qed.

Lemma months_between_cons (i u : Z) :
  i < u → months_between i u = month_of_index i :: months_between (i + 1) u.
Proof.
  intros H. unfold months_between.
  replace (Z.to_nat (u - i)) with (S (Z.to_nat (u - (i + 1)))) by lia.
  simpl. f_equal; [f_equal; lia |].
  rewrite <- seq_shift, map_map. apply map_ext. intros k. f_equal. lia.
Qed.

Lemma ltb_month_form (i : Z) (e : date_form) :
  12 <= i <= last_month → valid_form e →
  String.ltb (date_str (month_form i)) (date_str e) = (i <? form_upper e).
Proof.
  intros Hi He.
  pose proof (ltb_date_str (month_form i) e (valid_month_form i Hi) He) as Hlt.
  unfold form_lt, month_form in Hlt. cbn [form_month form_day] in Hlt.
  rewrite month_index_of_index in Hlt.
  assert (Hup : i < form_upper e
                ↔ i < form_month e ∨ (i = form_month e ∧ 0 < form_day e)).
  { destruct e as [y m | y m d]; simpl in *; lia. }
  destruct (Z.ltb_spec i (form_upper e)).
  - apply Hlt. by apply Hup.
  - apply not_true_is_false. intros E.
    apply Hlt in E. apply Hup in E. lia.
Qed.

(** From [YYYY-MM] on, the loop lists the months below the end. *)
Lemma generate_loop_months (n : nat) :
  ∀ (fuel : nat) (i : Z) (e : date_form) (fnames : list string),
    valid_form e →
    first_month <= i <= form_upper e →
    form_upper e <= last_month →
    n = Z.to_nat (form_upper e - i) →
    (n < fuel)%nat →
    generate_loop fuel (SStr (date_str (month_form i))) (SStr (date_str e)) fnames
    = Some (Ok (fnames
                ++ map monthly_filename (months_between i (form_upper e)))).
Proof.
  induction n as [| n IH]; intros fuel i e fnames He Hi Hup Hn Hfuel;
    (destruct fuel as [| fuel]; [lia |]);
    (assert (12 <= i) by (unfold first_month, month_index in Hi; lia));
    cbn [generate_loop py_lt as_num];
    rewrite ltb_month_form by (done || lia);
    destruct (Z.ltb_spec i (form_upper e)); try lia.
  - by rewrite months_between_nil, app_nil_r.
  - rewrite generate_step_form;
      [| apply valid_month_form; lia | rewrite form_month_month_form; lia].
    rewrite form_month_month_form.
    rewrite (IH fuel (i + 1) e) by first [done | lia].
    rewrite (months_between_cons i) by done. simpl. by rewrite <- app_assoc.
Qed.

Lemma form_lt_upper (s e : date_form) :
  valid_form s → valid_form e → form_lt s e → form_month s < form_upper e.
Proof.
  unfold form_lt. destruct s, e; simpl; lia.
Qed.

(** [_generate_filenames] on two dates in either form: the months from that
    of the start up to the end, the month of the end included when the end
    has a day. *)
Lemma generate_filenames_forms (s e : date_form) (fuel : nat) :
  valid_form s → valid_form e →
  first_month <= form_month s →
  form_lt s e →
  form_upper e <= last_month →
  (Z.to_nat (form_upper e - form_month s) < fuel)%nat →
  _generate_filenames fuel (SStr (date_str s), SStr (date_str e))
  = Some (Ok (map monthly_filename
                (months_between (form_month s) (form_upper e)))).
Proof.
  intros Hs He Hfirst Hlt Hup Hfuel.
  pose proof (form_lt_upper s e Hs He Hlt) as Hsu.
  pose proof (form_month_bounds s Hs) as Hsb.
  destruct fuel as [| fuel]; [lia |].
  unfold _generate_filenames. cbn [generate_loop py_lt as_num].
  rewrite (proj2 (ltb_date_str s e Hs He) Hlt).
  rewrite generate_step_form by (done || lia).
  rewrite (generate_loop_months (Z.to_nat (form_upper e - (form_month s + 1))))
    by (done || lia).
  by rewrite (months_between_cons (form_month s)) by done.
Qed.

Lemma months_between_length (a b : Z) :
  length (months_between a b) = Z.to_nat (b - a).
Proof. unfold months_between. by rewrite length_map, length_seq. Qed.

Lemma months_between_lookup (a b : Z) (k : nat) :
  (k < Z.to_nat (b - a))%nat →
  months_between a b !! k = Some (month_of_index (a + Z.of_nat k)).
Proof.
  intros Hk. unfold months_between.
  rewrite list_lookup_fmap, lookup_seq_lt by done. reflexivity.
Qed.

(** C2: for a start and an end in the form YYYY-MM, the start before the end,
    [_generate_filenames] returns, given fuel for its turns, the file names
    ['YYYY/RC_YYYY-MM.bz2'] of the months from the start up to, not including,
    the end, in order: the [k]-th name is that of the month [k] months after
    the start, so that month 12 is followed by month 1 of the next year.
    The years are those that [strftime] writes as YYYY, 1000 to 9999. *)
Theorem generate_filenames_months (y1 m1 y2 m2 : Z) (fuel : nat) :
  1000 <= y1 <= 9999 → 1 <= m1 <= 12 →
  1 <= y2 <= 9999 → 1 <= m2 <= 12 →
  month_index y1 m1 < month_index y2 m2 →
  (Z.to_nat (month_index y2 m2 - month_index y1 m1) < fuel)%nat →
  let months := months_between (month_index y1 m1) (month_index y2 m2) in
  _generate_filenames fuel
    (SStr (date_str (YM y1 m1)), SStr (date_str (YM y2 m2)))
  = Some (Ok (map monthly_filename months))
  ∧ length months = Z.to_nat (month_index y2 m2 - month_index y1 m1)
  ∧ ∀ k : nat,
      (k < length months)%nat →
      months !! k = Some (month_of_index (month_index y1 m1 + Z.of_nat k)).
Proof.
  intros Hy1 Hm1 Hy2 Hm2 Hlt Hfuel months. split; [| split].
  - apply (generate_filenames_forms (YM y1 m1) (YM y2 m2)); simpl; try done.
    + lia.
    + apply first_month_year; [done | lia].
    + left. done.
    + unfold last_month, month_index. lia.
  - apply months_between_length.
  - intros k Hk. apply months_between_lookup.
    by rewrite <- months_between_length.
Qed.

Lemma generate_filenames_months_witness :
  1000 <= 2007 <= 9999 ∧ 1 <= 11 <= 12 ∧ 1 <= 2008 <= 9999 ∧ 1 <= 2 <= 12
  ∧ month_index 2007 11 < month_index 2008 2
  ∧ (Z.to_nat (month_index 2008 2 - month_index 2007 11) < 4)%nat
  ∧ _generate_filenames 4 (SStr "2007-11", SStr "2008-02")
    = Some (Ok ["2007/RC_2007-11.bz2"; "2007/RC_2007-12.bz2";
                "2008/RC_2008-01.bz2"]).
Proof.
  assert (H1 : 1000 <= 2007 <= 9999) by lia.
  assert (H2 : 1 <= 11 <= 12) by lia.
  assert (H3 : 1 <= 2008 <= 9999) by lia.
  assert (H4 : 1 <= 2 <= 12) by lia.
  assert (H5 : month_index 2007 11 < month_index 2008 2) by (vm_compute; reflexivity).
  assert (H6 : (Z.to_nat (month_index 2008 2 - month_index 2007 11) < 4)%nat)
    by (vm_compute; lia).
  do 6 (split; [assumption |]).
  exact (proj1 (generate_filenames_months 2007 11 2008 2 4 H1 H2 H3 H4 H5 H6)).
Defined.

(** C3, as stated: with the end ["2015-01-15"] the month 2015-01 is in the
    output, though it is not below the month of the end. *)
Lemma end_with_day_keeps_its_month :
  _generate_filenames 3 (SStr "2014-12", SStr "2015-01-15")
  = Some (Ok ["2014/RC_2014-12.bz2"; "2015/RC_2015-01.bz2"])
  ∧ monthly_filename (2015, 1) = "2015/RC_2015-01.bz2"
  ∧ ¬ month_index 2015 1 < month_index 2015 1.
Proof. split; [vm_compute; reflexivity |]. split; [reflexivity | lia]. Qed.

(** C3, amended: [_generate_filenames] takes the start in either form and
    reads a start YYYY-MM-DD as its month; the end is not parsed but compared
    as text with each YYYY-MM.  So for an end YYYY-MM-DD that falls after the
    first day of its month, and a start before it, the output is the file
    names of the months from that of the start up to and including that of
    the end.  The years are those that [strftime] writes as YYYY, from 1000
    on. *)
Theorem generate_filenames_end_day (s : date_form) (y m d : Z) (fuel : nat) :
  valid_form s →
  first_month <= form_month s →
  valid_form (YMD y m d) →
  2 <= d →
  form_lt s (YMD y m d) →
  month_index y m < last_month →
  (Z.to_nat (month_index y m + 1 - form_month s) < fuel)%nat →
  let months := months_between (form_month s) (month_index y m + 1) in
  _generate_filenames fuel (SStr (date_str s), SStr (date_str (YMD y m d)))
  = Some (Ok (map monthly_filename months))
  ∧ last months = Some (y, m)
  ∧ (∀ k : nat,
       (Z.of_nat k <= month_index y m - form_month s) →
       months !! k = Some (month_of_index (form_month s + Z.of_nat k))).
Proof.
  intros Hs Hfirst He Hd Hlt Hlast Hfuel months.
  pose proof (form_lt_upper s _ Hs He Hlt) as Hup. simpl in Hup.
  split; [| split].
  - apply (generate_filenames_forms s (YMD y m d)); simpl; try done. lia.
  - rewrite last_lookup. subst months.
    rewrite months_between_length, months_between_lookup by lia.
    f_equal. simpl in He.
    rewrite <- (month_of_index_index y m) by lia. f_equal. lia.
  - intros k Hk. apply months_between_lookup. lia.
Qed.

Lemma generate_filenames_end_day_witness :
  valid_form (YMD 2007 11 15)
  ∧ first_month <= form_month (YMD 2007 11 15)
  ∧ valid_form (YMD 2008 1 20)
  ∧ 2 <= 20
  ∧ form_lt (YMD 2007 11 15) (YMD 2008 1 20)
  ∧ month_index 2008 1 < last_month
  ∧ (Z.to_nat (month_index 2008 1 + 1 - form_month (YMD 2007 11 15)) < 4)%nat
  ∧ _generate_filenames 4 (SStr "2007-11-15", SStr "2008-01-20")
    = Some (Ok ["2007/RC_2007-11.bz2"; "2007/RC_2007-12.bz2";
                "2008/RC_2008-01.bz2"]).
Proof.
  assert (H1 : valid_form (YMD 2007 11 15)) by (vm_compute; intuition discriminate).
  assert (H0 : first_month <= form_month (YMD 2007 11 15))
    by (vm_compute; discriminate).
  assert (H2 : valid_form (YMD 2008 1 20)) by (vm_compute; intuition discriminate).
  assert (H3 : 2 <= 20) by lia.
  assert (H4 : form_lt (YMD 2007 11 15) (YMD 2008 1 20))
    by (left; vm_compute; reflexivity).
  assert (H5 : month_index 2008 1 < last_month) by (vm_compute; reflexivity).
  assert (H6 : (Z.to_nat (month_index 2008 1 + 1 - form_month (YMD 2007 11 15))
                < 4)%nat) by (vm_compute; lia).
  do 7 (split; [assumption |]).
  exact (proj1 (generate_filenames_end_day (YMD 2007 11 15) 2008 1 20 4
                  H1 H0 H2 H3 H4 H5 H6)).
Defined.

(** ** Cleaning the body *)

Lemma str_length_app (s t : string) :
  String.length (s +:+ t) = (String.length s + String.length t)%nat.
Proof.
  induction s as [| c s IH]; rewrite ?str_app_nil, ?str_app_cons; simpl;
    [done | by rewrite IH].
Qed.





























(** * Further properties *)

(** ** Range arguments *)

(** X1: [_parse_date_range] and [_parse_score_range] raise [ValueError]
    exactly for an argument that is not a list or tuple of two items; for
    any other they return a pair. *)
Theorem parse_range_shape (a : pyarg) :
  (_parse_date_range a = Raise ValueError ↔ is_pair a = false)
  ∧ (_parse_score_range a = Raise ValueError ↔ is_pair a = false)
  ∧ (is_pair a = true →
     ∃ d s, _parse_date_range a = Ok d ∧ _parse_score_range a = Ok s).
Proof.
  assert (Hd : ∀ x y l, _parse_date_range l = _parse_date_range (ATuple [x; y]) →
                        _parse_date_range l ≠ Raise ValueError).
  { intros x y l ->. by rewrite parse_date_range_pair. }
  assert (Hs : ∀ x y l, _parse_score_range l = _parse_score_range (ATuple [x; y]) →
                        _parse_score_range l ≠ Raise ValueError).
  { intros x y l ->. by rewrite parse_score_range_pair. }
  destruct a as [x | l | l | l]; try (split; [| split]; done);
    destruct l as [| x [| y [| z l]]]; try (split; [| split]; done).
  - split; [| split].
    + split; [| done]. intros H. by destruct (Hd x y _ eq_refl).
    + split; [| done]. intros H. by destruct (Hs x y _ eq_refl).
    + intros _. rewrite parse_date_range_pair, parse_score_range_pair. eauto.
  - split; [| split].
    + split; [| done]. intros H. by destruct (Hd x y (AList [x; y]) eq_refl).
    + split; [| done]. intros H. by destruct (Hs x y (AList [x; y]) eq_refl).
    + intros _.
      change (_parse_date_range (AList [x; y]))
        with (_parse_date_range (ATuple [x; y])).
      change (_parse_score_range (AList [x; y]))
        with (_parse_score_range (ATuple [x; y])).
      rewrite parse_date_range_pair, parse_score_range_pair. eauto.
Qed.

Lemma parse_score_range_truthy (a : pyarg) (p : scalar * scalar) :
  _parse_score_range a = Ok p →
  truthy_scalar p.1 = true ∧ truthy_scalar p.2 = true.
Proof.
  assert (Hpair : ∀ x y, _parse_score_range (ATuple [x; y]) = Ok p →
                         truthy_scalar p.1 = true ∧ truthy_scalar p.2 = true).
  { intros x y. rewrite parse_score_range_pair. intros [= <-]. simpl.
    destruct (truthy_scalar x) eqn:Hx, (truthy_scalar y) eqn:Hy; done. }
  destruct a as [x | l | l | l]; try discriminate;
    destruct l as [| x [| y [| z l]]]; try discriminate; apply Hpair.
Qed.

(** X2: normalising a range twice is normalising it once: the pair that
    [_parse_date_range] or [_parse_score_range] returns is returned
    unchanged when passed back, as a tuple or as a list. *)
Theorem parse_range_idempotent (a : pyarg) (p : scalar * scalar) :
  (_parse_date_range a = Ok p →
   _parse_date_range (tuple2 p) = Ok p
   ∧ _parse_date_range (AList [p.1; p.2]) = Ok p)
  ∧ (_parse_score_range a = Ok p →
     _parse_score_range (tuple2 p) = Ok p
     ∧ _parse_score_range (AList [p.1; p.2]) = Ok p).
Proof.
  split; intros H.
  - apply parse_date_range_truthy in H as [H1 H2]. destruct p as [lo hi].
    change (_parse_date_range (AList [(lo, hi).1; (lo, hi).2]))
      with (_parse_date_range (tuple2 (lo, hi))).
    unfold tuple2. rewrite parse_date_range_pair. simpl in *.
    by rewrite H1, H2.
  - apply parse_score_range_truthy in H as [H1 H2]. destruct p as [lo hi].
    change (_parse_score_range (AList [(lo, hi).1; (lo, hi).2]))
      with (_parse_score_range (tuple2 (lo, hi))).
    unfold tuple2. rewrite parse_score_range_pair. simpl in *.
    by rewrite H1, H2.
Qed.

Lemma parse_range_idempotent_witness :
  _parse_date_range (ATuple [SStr ""; SStr "2010-01"])
  = Ok (SStr MIN_DATE, SStr "2010-01")
  ∧ _parse_date_range (tuple2 (SStr MIN_DATE, SStr "2010-01"))
    = Ok (SStr MIN_DATE, SStr "2010-01").
Proof.
  assert (H : _parse_date_range (ATuple [SStr ""; SStr "2010-01"])
              = Ok (SStr MIN_DATE, SStr "2010-01")) by reflexivity.
  split; [exact H |].
  exact (proj1 (proj1 (parse_range_idempotent _ _) H)).
Defined.

Lemma parse_range_shape_witness :
  is_pair (ATuple [SNone; SInt 3]) = true
  ∧ ∃ d s, _parse_date_range (ATuple [SNone; SInt 3]) = Ok d
           ∧ _parse_score_range (ATuple [SNone; SInt 3]) = Ok s.
Proof.
  assert (H : is_pair (ATuple [SNone; SInt 3]) = true) by reflexivity.
  split; [exact H |].
  exact (proj2 (proj2 (parse_range_shape (ATuple [SNone; SInt 3]))) H).
Defined.

(** ** What the loop body yields *)

Lemma process_line_yield_inv text_only subreddit dr sr min_len line line' it :
  process_line text_only subreddit dr sr min_len line = (line', Next it) →
  subreddit_test subreddit line = Ok true
  ∧ score_test sr line = Ok true
  ∧ ∃ c b,
      converted_created line = Ok c
      ∧ date_test dr c = Ok true
      ∧ line !! "body" = Some (SStr b)
      ∧ min_len_test min_len (_clean_content b) = true
      ∧ (if text_only
         then it = IText (_clean_content b)
              ∧ line' = <["body" := SStr (_clean_content b)]>
                          (<["created_utc" := SStr c]> line)
         else ∃ r, converted_retrieved line = Ok r
                   ∧ it = IRecord line'
                   ∧ line' = <["retrieved_on" := SStr r]>
                               (<["body" := SStr (_clean_content b)]>
                                  (<["created_utc" := SStr c]> line))).
Proof.
  unfold process_line.
  line_step. rewrite check_subreddit_eq.
  destruct (subreddit_test subreddit line) as [[] |] eqn:Hsub; simpl; try done.
  line_step. rewrite check_score_eq.
  destruct (score_test sr line) as [[] |] eqn:Hsc; simpl; try done.
  line_step. unfold line_get at 1.
  line_step. fold (converted_created line).
  destruct (converted_created line) as [c |] eqn:Hc; simpl; try done.
  line_step. unfold line_setitem at 1.
  line_step. rewrite (check_date_eq _ _ _ (lookup_insert_eq _ _ _)).
  destruct (date_test dr c) as [[] |] eqn:Hd; simpl; try done.
  line_step. unfold line_getitem at 1. rewrite body_after_created.
  destruct (line !! "body") as [v |] eqn:Hb; try done.
  line_step. destruct v as [| ? | ? | b]; simpl; try done.
  line_step. unfold line_setitem at 1.
  line_step. unfold check_min_len.
  fold (min_len_test min_len (_clean_content b)).
  destruct (min_len_test min_len (_clean_content b)) eqn:Hm; simpl; try done.
  intros H. split; [done |]. split; [done |]. exists c, b.
  do 4 (split; [done |]).
  destruct text_only.
  - by injection H as <- <-.
  - revert H. line_step. unfold line_get at 1.
    rewrite lookup_insert_ne by done. rewrite lookup_insert_ne by done.
    line_step. fold (converted_retrieved line).
    destruct (converted_retrieved line) as [r |] eqn:Hr; simpl; try done.
    intros H. exists r. by injection H as <- <-.
Qed.

(** X3: the loop body yields a record only if the record passes every
    filter: the subreddit, score and date tests hold, its body is a string
    and the cleaned body is long enough; what is yielded is the cleaned body,
    or the record itself after its three fields are rewritten. *)
Theorem yield_passes_filters (text_only : bool) (subreddit : pyarg)
    (dr sr : option (scalar * scalar)) (min_len : Z)
    (line line' : gmap string scalar) (it : item) :
  process_line text_only subreddit dr sr min_len line = (line', Next it) →
  subreddit_test subreddit line = Ok true
  ∧ score_test sr line = Ok true
  ∧ ∃ c b,
      converted_created line = Ok c
      ∧ date_test dr c = Ok true
      ∧ line !! "body" = Some (SStr b)
      ∧ min_len_test min_len (_clean_content b) = true
      ∧ item_body it = Some (SStr (_clean_content b))
      ∧ line' !! "body" = Some (SStr (_clean_content b))
      ∧ line' !! "created_utc" = Some (SStr c).
Proof.
  intros H. apply process_line_yield_inv in H
    as (Hsub & Hsc & c & b & Hc & Hd & Hb & Hm & Hit).
  split; [done |]. split; [done |]. exists c, b.
  do 4 (split; [done |]).
  destruct text_only.
  - destruct Hit as [-> ->]. simpl.
    rewrite lookup_insert_eq, lookup_insert_ne, lookup_insert_eq by done. done.
  - destruct Hit as (r & Hr & -> & ->). simpl.
    rewrite !(lookup_insert_ne _ "retrieved_on") by done.
    rewrite lookup_insert_eq, lookup_insert_ne, lookup_insert_eq by done. done.
Qed.

Lemma yield_passes_filters_witness :
  let line := sample_record "politics" 5 (SInt 1195000000) "a  *b*" in
  let line' := <["body" := SStr "a b"]>
                 (<["created_utc" := SStr "2007-11-14T00:26:40"]> line) in
  process_line true (ASet [SStr "politics"]) None (Some (SInt 0, SInt 9)) 3 line
  = (line', Next (IText "a b"))
  ∧ score_test (Some (SInt 0, SInt 9)) line = Ok true.
Proof.
  intros line line'.
  assert (H : process_line true (ASet [SStr "politics"]) None
                (Some (SInt 0, SInt 9)) 3 line = (line', Next (IText "a b")))
    by (vm_compute; reflexivity).
  split; [exact H |].
  exact (proj1 (proj2 (yield_passes_filters _ _ _ _ _ _ _ _ H))).
Defined.

(** X4: in a record that [records] yields, [created_utc], [body] and
    [retrieved_on] are strings, [retrieved_on] being set even where the record
    had none, and every other field is as it was read. *)
Theorem yielded_record_frame (subreddit : pyarg)
    (dr sr : option (scalar * scalar)) (min_len : Z)
    (line line' : gmap string scalar) (it : item) :
  process_line false subreddit dr sr min_len line = (line', Next it) →
  it = IRecord line'
  ∧ (∃ c b r, line' !! "created_utc" = Some (SStr c)
              ∧ line' !! "body" = Some (SStr b)
              ∧ line' !! "retrieved_on" = Some (SStr r))
  ∧ ∀ key : string,
      key ≠ "created_utc" → key ≠ "body" → key ≠ "retrieved_on" →
      line' !! key = line !! key.
Proof.
  intros H. apply process_line_yield_inv in H
    as (_ & _ & c & b & _ & _ & _ & _ & r & _ & -> & ->).
  split; [done |]. split.
  - exists c, (_clean_content b), r.
    rewrite lookup_insert_eq.
    rewrite !(lookup_insert_ne _ "retrieved_on") by done.
    rewrite lookup_insert_eq, lookup_insert_ne, lookup_insert_eq by done. done.
  - intros key H1 H2 H3. by rewrite !lookup_insert_ne by done.
Qed.

Lemma yielded_record_frame_witness :
  let line := sample_record "politics" 5 (SInt 1195000000) "a  *b*" in
  let line' := <["retrieved_on" := SStr ""]>
                 (<["body" := SStr "a b"]>
                    (<["created_utc" := SStr "2007-11-14T00:26:40"]> line)) in
  process_line false no_arg None None 0 line = (line', Next (IRecord line'))
  ∧ line' !! "score" = line !! "score".
Proof.
  intros line line'.
  assert (H : process_line false no_arg None None 0 line
              = (line', Next (IRecord line'))) by (vm_compute; reflexivity).
  split; [exact H |].
  apply (proj2 (proj2 (yielded_record_frame _ _ _ _ _ _ _ H))); discriminate.
Defined.

(** X5: [texts] and [records] decide alike record by record: the loop body
    yields a text exactly when, as long as converting [retrieved_on] raises
    nothing, it yields the record, and the text is the body of that record. *)
Theorem texts_are_bodies_of_records (subreddit : pyarg)
    (dr sr : option (scalar * scalar)) (min_len : Z)
    (line : gmap string scalar) (r : string) :
  converted_retrieved line = Ok r →
  ∀ b : string,
    (process_line true subreddit dr sr min_len line).2 = Next (IText b)
    ↔ ∃ line', process_line false subreddit dr sr min_len line
               = (line', Next (IRecord line'))
               ∧ line' !! "body" = Some (SStr b).
Proof.
  intros Hr b. split.
  - destruct (process_line true subreddit dr sr min_len line) as [l' f] eqn:E.
    simpl. intros ->.
    apply process_line_yield_inv in E
      as (Hsub & Hsc & c & b' & Hc & Hd & Hb & Hm & [= ->] & _).
    eexists. split.
    + by apply (process_line_record _ _ _ _ _ c b' r).
    + rewrite lookup_insert_ne by done. apply lookup_insert_eq.
  - intros (line' & E & Hbody).
    apply process_line_yield_inv in E
      as (Hsub & Hsc & c & b' & Hc & Hd & Hb & Hm & r' & _ & _ & ->).
    rewrite lookup_insert_ne, lookup_insert_eq in Hbody by done.
    injection Hbody as <-.
    by rewrite (process_line_text _ _ _ _ _ c b').
Qed.

Lemma texts_are_bodies_of_records_witness :
  let line := sample_record "politics" 5 (SInt 1195000000) "a  *b*" in
  converted_retrieved line = Ok ""
  ∧ ((process_line true no_arg None None 0 line).2 = Next (IText "a b")
     ↔ ∃ line', process_line false no_arg None None 0 line
                = (line', Next (IRecord line'))
                ∧ line' !! "body" = Some (SStr "a b")).
Proof.
  intros line.
  assert (H : converted_retrieved line = Ok "") by reflexivity.
  split; [exact H |].
  exact (texts_are_bodies_of_records no_arg None None 0 line "" H "a b").
Defined.

(** X6: a field is asked for only when its turn comes.  Without the
    [subreddit] field a record raises [KeyError] if a subreddit filter is
    set; without [score], if it passes the subreddit test and a score range is
    set; without [body], or with a body that is not a string, once it has
    passed the subreddit, score and date tests, [KeyError] or [TypeError]
    with [created_utc] already converted.  With no subreddit filter and no
    score range, neither field is needed. *)
Theorem missing_fields (text_only : bool) (subreddit : pyarg)
    (dr sr : option (scalar * scalar)) (min_len : Z)
    (line : gmap string scalar) :
  (truthy subreddit = true → line !! "subreddit" = None →
   process_line text_only subreddit dr sr min_len line
   = (line, Throw (KeyError "subreddit")))
  ∧ (subreddit_test subreddit line = Ok true →
     is_Some sr → line !! "score" = None →
     process_line text_only subreddit dr sr min_len line
     = (line, Throw (KeyError "score")))
  ∧ (∀ c,
       subreddit_test subreddit line = Ok true →
       score_test sr line = Ok true →
       converted_created line = Ok c →
       date_test dr c = Ok true →
       match line !! "body" with
       | None =>
           process_line text_only subreddit dr sr min_len line
           = (<["created_utc" := SStr c]> line, Throw (KeyError "body"))
       | Some (SStr _) => True
       | Some _ =>
           process_line text_only subreddit dr sr min_len line
           = (<["created_utc" := SStr c]> line, Throw TypeError)
       end)
  ∧ (truthy subreddit = false →
     subreddit_test subreddit line = Ok true ∧ score_test None line = Ok true).
Proof.
  split; [| split; [| split]].
  - intros Ht Hnone. unfold process_line.
    line_step. rewrite check_subreddit_eq. unfold subreddit_test.
    by rewrite Ht, Hnone.
  - intros Hsub Hsome Hnone. unfold process_line.
    line_step. rewrite check_subreddit_eq, Hsub. simpl.
    line_step. rewrite check_score_eq. unfold score_test.
    destruct Hsome as [[lo hi] ->]. by rewrite Hnone.
  - intros c Hsub Hsc Hc Hd.
    destruct (line !! "body") as [v |] eqn:Hb.
    + destruct v as [| ? | ? | b]; [| | | done];
        through_date Hsub Hsc Hc; rewrite Hd; simpl;
        line_step; unfold line_getitem at 1;
        rewrite body_after_created, Hb; reflexivity.
    + through_date Hsub Hsc Hc. rewrite Hd. simpl.
      line_step. unfold line_getitem at 1.
      by rewrite body_after_created, Hb.
  - intros Ht. unfold subreddit_test. by rewrite Ht.
Qed.

Lemma missing_fields_witness :
  let line : gmap string scalar := {["score" := SInt 1]} in
  truthy (ASet [SStr "politics"]) = true
  ∧ line !! "subreddit" = None
  ∧ process_line true (ASet [SStr "politics"]) None None 0 line
    = (line, Throw (KeyError "subreddit")).
Proof.
  intros line.
  assert (H1 : truthy (ASet [SStr "politics"]) = true) by reflexivity.
  assert (H2 : line !! "subreddit" = None) by reflexivity.
  split; [exact H1 |]. split; [exact H2 |].
  exact (proj1 (missing_fields true (ASet [SStr "politics"]) None None 0 line)
           H1 H2).
Defined.

(** ** Files, lines and the limit *)

Lemma iterate_lines_app body limit l1 l2 p :
  iterate_lines body limit (l1 ++ l2) p
  = match iterate_lines body limit l1 p with
    | (p', Exhausted) => iterate_lines body limit l2 p'
    | r => r
    end.
Proof.
  revert p. induction l1 as [| line l1 IH]; intros p; [done |].
  simpl. destruct (body line).2 as [it | s | e]; [| apply IH | done].
  destruct (count p + 1 =? limit); [done | apply IH].
Qed.

Lemma iterate_lines_end body limit lines p :
  count p ≠ limit →
  let r := iterate_lines body limit lines p in
  match r.2 with
  | Broke => count r.1 = limit
  | Exhausted => count r.1 ≠ limit
  | Failed _ => True
  end.
Proof.
  revert p. induction lines as [| line lines IH]; intros p Hp; [done |].
  simpl. destruct (body line).2 as [it | s | e]; [| by apply IH | done].
  destruct (Z.eqb_spec (count p + 1) limit) as [Heq | Hne]; [done |].
  by apply IH.
Qed.

Lemma iterate_files_flat self body limit filepaths p :
  count p ≠ limit →
  iterate_files self body limit filepaths p
  = iterate_lines body limit (all_lines self filepaths) p.
Proof.
  revert p. induction filepaths as [| f fs IH]; intros p Hp; [done |].
  unfold all_lines in *. simpl. rewrite iterate_lines_app.
  pose proof (iterate_lines_end body limit (read_json_lines self f) p Hp) as He.
  destruct (iterate_lines body limit (read_json_lines self f) p) as [p' e].
  simpl in He. destruct e as [| | ex]; [| | done].
  - destruct (Z.eqb_spec (count p') limit); [done |]. by apply IH.
  - destruct (Z.eqb_spec (count p') limit); done.
Qed.

(** A stretch of lines in which the limit is not met is read to its end. *)
Lemma iterate_lines_prefix body limit lines p :
  no_throw body lines →
  limit <= count p
  ∨ count p + Z.of_nat (length (passing body lines)) < limit →
  iterate_lines body limit lines p
  = (mk_progress (yielded p ++ passing body lines)
       (lines_read p + length lines)
       (count p + Z.of_nat (length (passing body lines))),
     Exhausted).
Proof.
  revert p. induction lines as [| line lines IH]; intros p Hno Hlim.
  - destruct p. simpl. by rewrite app_nil_r, Nat.add_0_r, Z.add_0_r.
  - apply Forall_cons in Hno as [Hline Hno].
    rewrite passing_cons in *. simpl.
    destruct (body line).2 as [it | s | e] eqn:Hb.
    + simpl in Hlim.
      destruct (Z.eqb_spec (count p + 1) limit) as [Heq | _]; [lia |].
      rewrite IH by (done || (simpl; lia)). simpl.
      rewrite <- app_assoc. do 2 f_equal; lia.
    + rewrite IH by (done || (simpl; lia)). simpl. do 2 f_equal; lia.
    + by destruct (Hline e).
Qed.

(** X7: unless [limit] is 0, the ends of the files play no part: [_iterate]
    over the selected files runs as the inner loop does over all their lines
    put end to end. *)
Theorem files_read_as_one (fuel : nat) (self : dataset) (text_only : bool)
    (subreddit date_range score_range : pyarg) (min_len limit : Z)
    (sr dr : option (scalar * scalar)) (filepaths : list string) :
  normalize_range _parse_score_range score_range = Ok sr →
  normalize_range _parse_date_range date_range = Ok dr →
  select_files fuel self dr = Some (Ok filepaths) →
  filepaths ≠ [] →
  limit ≠ 0 →
  let body :=
    process_line text_only (normalize_subreddit subreddit) dr sr min_len in
  let r :=
    iterate_lines body limit (all_lines self filepaths) (mk_progress [] 0 0) in
  _iterate fuel self text_only subreddit date_range score_range min_len limit
  = Some (mk_run (yielded r.1) (lines_read r.1)
            (match r.2 with Failed ex => Some ex | _ => None end)).
Proof.
  intros Hsr Hdr Hsel Hne Hlim body r.
  rewrite (iterate_run _ _ _ _ _ _ _ _ _ _ _ Hsr Hdr Hsel Hne).
  fold body. by rewrite iterate_files_flat by (simpl; lia).
Qed.

(** X8: a line at which the loop body raises ends the run with that
    exception, after the records that passed before it have been yielded;
    the lines and files after it are not read. *)
Theorem raising_line_ends_run (fuel : nat) (self : dataset) (text_only : bool)
    (subreddit date_range score_range : pyarg) (min_len limit : Z)
    (sr dr : option (scalar * scalar)) (filepaths : list string)
    (before after : list (gmap string scalar)) (bad : gmap string scalar)
    (e : exn) :
  normalize_range _parse_score_range score_range = Ok sr →
  normalize_range _parse_date_range date_range = Ok dr →
  select_files fuel self dr = Some (Ok filepaths) →
  let body :=
    process_line text_only (normalize_subreddit subreddit) dr sr min_len in
  all_lines self filepaths = before ++ bad :: after →
  no_throw body before →
  (body bad).2 = Throw e →
  limit < 0 ∨ Z.of_nat (length (passing body before)) < limit →
  _iterate fuel self text_only subreddit date_range score_range min_len limit
  = Some (mk_run (passing body before) (length before + 1) (Some e)).
Proof.
  intros Hsr Hdr Hsel body Hall Hno Hbad Hlim.
  assert (Hne : filepaths ≠ []).
  { intros ->. by destruct before. }
  rewrite (iterate_run _ _ _ _ _ _ _ _ _ _ _ Hsr Hdr Hsel Hne).
  fold body. rewrite iterate_files_flat by (simpl; lia).
  rewrite Hall, iterate_lines_app.
  rewrite iterate_lines_prefix by (done || (simpl; lia)).
  simpl. rewrite Hbad. simpl. do 2 f_equal. lia.
Qed.

(** X9: the run stops at the record that brings the count to a positive
    [limit]: that record is the last one yielded and the last line read,
    whatever lines and files follow. *)
Theorem limit_stops_at_once (fuel : nat) (self : dataset) (text_only : bool)
    (subreddit date_range score_range : pyarg) (min_len limit : Z)
    (sr dr : option (scalar * scalar)) (filepaths : list string)
    (before after : list (gmap string scalar)) (line : gmap string scalar)
    (it : item) :
  normalize_range _parse_score_range score_range = Ok sr →
  normalize_range _parse_date_range date_range = Ok dr →
  select_files fuel self dr = Some (Ok filepaths) →
  let body :=
    process_line text_only (normalize_subreddit subreddit) dr sr min_len in
  all_lines self filepaths = before ++ line :: after →
  no_throw body before →
  (body line).2 = Next it →
  Z.of_nat (length (passing body before)) + 1 = limit →
  _iterate fuel self text_only subreddit date_range score_range min_len limit
  = Some (mk_run (passing body before ++ [it]) (length before + 1) None).
Proof.
  intros Hsr Hdr Hsel body Hall Hno Hline Hlim.
  assert (Hne : filepaths ≠ []).
  { intros ->. by destruct before. }
  rewrite (iterate_run _ _ _ _ _ _ _ _ _ _ _ Hsr Hdr Hsel Hne).
  fold body. rewrite iterate_files_flat by (simpl; lia).
  rewrite Hall, iterate_lines_app.
  rewrite iterate_lines_prefix by (done || (simpl; lia)).
  cbn [iterate_lines count yielded lines_read]. rewrite Hline.
  cbn [count yielded lines_read].
  replace (0 + Z.of_nat (length (passing body before)) + 1 =? limit)
    with true by (symmetry; apply Z.eqb_eq; lia).
  simpl. do 2 f_equal. lia.
Qed.

Ltac sample_no_throw :=
  repeat (apply Forall_cons; split; [intros ?; vm_compute; discriminate |]);
  apply Forall_nil_2.

Lemma files_read_as_one_witness :
  let files := ["/data/2007/RC_2007-11.bz2"; "/data/2007/RC_2007-12.bz2"] in
  normalize_range _parse_score_range no_arg = Ok None
  ∧ normalize_range _parse_date_range no_arg = Ok None
  ∧ select_files 0 two_files None = Some (Ok files)
  ∧ files ≠ []
  ∧ 2 ≠ 0
  ∧ texts 0 two_files no_arg no_arg no_arg 0 2
    = Some (mk_run [IText "one"; IText "two"] 2 None).
Proof.
  intros files.
  assert (H1 : normalize_range _parse_score_range no_arg = Ok None)
    by reflexivity.
  assert (H2 : normalize_range _parse_date_range no_arg = Ok None)
    by reflexivity.
  assert (H3 : select_files 0 two_files None = Some (Ok files))
    by (vm_compute; reflexivity).
  assert (H4 : files ≠ []) by discriminate.
  assert (H5 : 2 ≠ 0) by lia.
  do 5 (split; [assumption |]).
  unfold texts.
  rewrite (files_read_as_one 0 two_files true no_arg no_arg no_arg 0 2
             None None files H1 H2 H3 H4 H5).
  vm_compute. reflexivity.
Defined.

Lemma raising_line_ends_run_witness :
  let files := ["/data/2007/RC_2007-11.bz2"; "/data/2007/RC_2007-12.bz2"] in
  let body := process_line true (normalize_subreddit no_arg) None None 0 in
  let before := [sample_record "politics" 5 (SInt 1195000000) "one";
                 sample_record "news" 1 (SStr "x") "two";
                 sample_record "aww" 2 (SInt 1197000000) "three"] in
  let bad : gmap string scalar := {["subreddit" := SStr "aww"]} in
  let after := [sample_record "aww" 3 (SInt 1197000001) "four"] in
  all_lines two_files files = before ++ bad :: after
  ∧ no_throw body before
  ∧ (body bad).2 = Throw (KeyError "body")
  ∧ texts 0 two_files no_arg no_arg no_arg 0 (-1)
    = Some (mk_run [IText "one"; IText "two"; IText "three"] 4
              (Some (KeyError "body"))).
Proof.
  intros files body before bad after.
  assert (H1 : normalize_range _parse_score_range no_arg = Ok None)
    by reflexivity.
  assert (H2 : normalize_range _parse_date_range no_arg = Ok None)
    by reflexivity.
  assert (H3 : select_files 0 two_files None = Some (Ok files))
    by (vm_compute; reflexivity).
  assert (H4 : all_lines two_files files = before ++ bad :: after)
    by reflexivity.
  assert (H5 : no_throw body before) by sample_no_throw.
  assert (H6 : (body bad).2 = Throw (KeyError "body"))
    by (vm_compute; reflexivity).
  assert (H7 : -1 < 0 ∨ Z.of_nat (length (passing body before)) < -1)
    by (left; lia).
  do 3 (split; [assumption |]).
  unfold texts.
  rewrite (raising_line_ends_run 0 two_files true no_arg no_arg no_arg 0 (-1)
             None None files before after bad (KeyError "body")
             H1 H2 H3 H4 H5 H6 H7).
  vm_compute. reflexivity.
Defined.

Lemma limit_stops_at_once_witness :
  let files := ["/data/2007/RC_2007-11.bz2"; "/data/2007/RC_2007-12.bz2"] in
  let body := process_line true (normalize_subreddit no_arg) None None 0 in
  let before := [sample_record "politics" 5 (SInt 1195000000) "one";
                 sample_record "news" 1 (SStr "x") "two"] in
  let line := sample_record "aww" 2 (SInt 1197000000) "three" in
  let after : list (gmap string scalar) :=
    [{["subreddit" := SStr "aww"]};
     sample_record "aww" 3 (SInt 1197000001) "four"] in
  all_lines two_files files = before ++ line :: after
  ∧ no_throw body before
  ∧ (body line).2 = Next (IText "three")
  ∧ Z.of_nat (length (passing body before)) + 1 = 3
  ∧ texts 0 two_files no_arg no_arg no_arg 0 3
    = Some (mk_run [IText "one"; IText "two"; IText "three"] 3 None).
Proof.
  intros files body before line after.
  assert (H1 : normalize_range _parse_score_range no_arg = Ok None)
    by reflexivity.
  assert (H2 : normalize_range _parse_date_range no_arg = Ok None)
    by reflexivity.
  assert (H3 : select_files 0 two_files None = Some (Ok files))
    by (vm_compute; reflexivity).
  assert (H4 : all_lines two_files files = before ++ line :: after)
    by reflexivity.
  assert (H5 : no_throw body before) by sample_no_throw.
  assert (H6 : (body line).2 = Next (IText "three"))
    by (vm_compute; reflexivity).
  assert (H7 : Z.of_nat (length (passing body before)) + 1 = 3)
    by (vm_compute; reflexivity).
  do 4 (split; [assumption |]).
  unfold texts.
  rewrite (limit_stops_at_once 0 two_files true no_arg no_arg no_arg 0 3
             None None files before after line (IText "three")
             H1 H2 H3 H4 H5 H6 H7).
  vm_compute. reflexivity.
Defined.

Lemma iterate_negative_limit_witness :
  let files := ["/data/2007/RC_2007-11.bz2"] in
  let body := process_line true (normalize_subreddit no_arg) None None 0 in
  select_files 0 one_file None = Some (Ok files)
  ∧ no_throw body (all_lines one_file files)
  ∧ -1 < 0
  ∧ texts 0 one_file no_arg no_arg no_arg 0 (-1)
    = Some (mk_run [IText "hello"] 1 None).
Proof.
  intros files body.
  assert (H1 : normalize_range _parse_score_range no_arg = Ok None)
    by reflexivity.
  assert (H2 : normalize_range _parse_date_range no_arg = Ok None)
    by reflexivity.
  assert (H3 : select_files 0 one_file None = Some (Ok files))
    by (vm_compute; reflexivity).
  assert (H4 : files ≠ []) by discriminate.
  assert (H5 : no_throw body (all_lines one_file files)) by sample_no_throw.
  assert (H6 : -1 < 0) by lia.
  do 3 (split; [assumption |]).
  unfold texts.
  rewrite (iterate_negative_limit 0 one_file true no_arg no_arg no_arg 0 (-1)
             None None files H1 H2 H3 H4 H5 H6).
  vm_compute. reflexivity.
Defined.

Lemma iterate_positive_limit_witness :
  let files := ["/data/2007/RC_2007-11.bz2"; "/data/2007/RC_2007-12.bz2"] in
  let subreddit := ASet [SStr "politics"; SStr "news"] in
  let body := process_line true (normalize_subreddit subreddit) None None 0 in
  select_files 0 two_files None = Some (Ok files)
  ∧ no_throw body (all_lines two_files files)
  ∧ passing body (all_lines two_files files) = [IText "one"; IText "two"]
  ∧ 0 < 1
  ∧ texts 0 two_files subreddit no_arg no_arg 0 1
    = Some (mk_run [IText "one"] 1 None).
Proof.
  intros files subreddit body.
  assert (H1 : normalize_range _parse_score_range no_arg = Ok None)
    by reflexivity.
  assert (H2 : normalize_range _parse_date_range no_arg = Ok None)
    by reflexivity.
  assert (H3 : select_files 0 two_files None = Some (Ok files))
    by (vm_compute; reflexivity).
  assert (H4 : files ≠ []) by discriminate.
  assert (H5 : no_throw body (all_lines two_files files)) by sample_no_throw.
  assert (H6 : 0 < 1) by lia.
  split; [assumption |]. split; [assumption |].
  split; [vm_compute; reflexivity |]. split; [assumption |].
  destruct (iterate_positive_limit 0 two_files true subreddit no_arg no_arg 0 1
              None None files H1 H2 H3 H4 H5 H6) as (r & Hr & Hitems & Hraised & _).
  unfold texts. rewrite Hr. f_equal.
  destruct r as [its n ex]. simpl in Hitems, Hraised. subst its ex.
  f_equal. unfold _iterate in Hr. vm_compute in Hr. by injection Hr as <-.
Defined.

(** ** The files on disk *)

Lemma ascii_compare_spec (a b : ascii) :
  CompareSpec (a = b) (N_of_ascii a < N_of_ascii b)%N
    (N_of_ascii b < N_of_ascii a)%N (Ascii.compare a b).
Proof.
  unfold Ascii.compare.
  destruct (N.compare_spec (N_of_ascii a) (N_of_ascii b)) as [H | H | H];
    constructor; try done.
  by rewrite <- (ascii_N_embedding a), <- (ascii_N_embedding b), H.
Qed.

Lemma str_compare_trans (s t u : string) :
  String.compare s t ≠ Gt → String.compare t u ≠ Gt → String.compare s u ≠ Gt.
Proof.
  revert t u. induction s as [| a s IH]; intros [| b t] [| c u]; simpl;
    try done.
  destruct (ascii_compare_spec a b), (ascii_compare_spec b c),
    (ascii_compare_spec a c); subst; try done; try lia.
  apply IH.
Qed.

Lemma str_le_spec (s t : string) : str_le s t ↔ String.compare s t ≠ Gt.
Proof. unfold str_le, String.leb. by destruct (String.compare s t). Qed.

Global Instance str_le_trans : Transitive str_le.
Proof.
  intros s t u. rewrite !str_le_spec. apply str_compare_trans.
Qed.

Lemma str_le_total (s t : string) : str_le s t ∨ str_le t s.
Proof. apply String.leb_total. Qed.

Lemma insert_sorted_perm (x : string) (l : list string) :
  insert_sorted x l ≡ₚ x :: l.
Proof.
  induction l as [| y l IH]; simpl; [done |].
  destruct (String.leb x y); [done |]. by rewrite IH, Permutation_swap.
Qed.

Lemma insert_sorted_sorted (x : string) (l : list string) :
  StronglySorted str_le l → StronglySorted str_le (insert_sorted x l).
Proof.
  induction l as [| y l IH]; intros Hl; simpl.
  - by repeat constructor.
  - destruct (String.leb x y) eqn:Hxy.
    + apply StronglySorted_cons. split; [| done].
      apply StronglySorted_cons in Hl as [Hy _].
      apply Forall_cons. split; [done |].
      eapply Forall_impl; [exact Hy |]. intros z Hz. by transitivity y.
    + apply StronglySorted_cons in Hl as [Hy Hl].
      apply StronglySorted_cons. split; [| by apply IH].
      rewrite insert_sorted_perm. apply Forall_cons. split; [| done].
      destruct (str_le_total x y) as [H | H]; [| done].
      unfold str_le in H. congruence.
Qed.

Lemma sorted_sorted (l : list string) :
  StronglySorted str_le (sorted l) ∧ sorted l ≡ₚ l.
Proof.
  induction l as [| x l [IH1 IH2]]; simpl; [split; [constructor | done] |].
  split; [by apply insert_sorted_sorted |].
  by rewrite insert_sorted_perm, IH2.
Qed.

Lemma filenames_strongly_sorted (self : dataset) :
  StronglySorted str_le (filenames self).
Proof.
  unfold filenames. destruct (dir_exists self); [| constructor].
  apply sorted_sorted.
Qed.

(** X12: [filenames] is the listing of the data directory in ascending
    order of the paths as texts, each path as often as it is listed; it is
    empty when the directory does not exist. *)
Theorem filenames_sorted (self : dataset) :
  StronglySorted str_le (filenames self)
  ∧ (dir_exists self = true → filenames self ≡ₚ get_filenames self)
  ∧ (dir_exists self = false → filenames self = []).
Proof.
  unfold filenames. destruct (dir_exists self).
  - destruct (sorted_sorted (get_filenames self)) as [H1 H2]. done.
  - split; [constructor | done].
Qed.

Lemma filter_strongly_sorted {A} (R : relation A) (P : A → Prop)
    `{∀ x, Decision (P x)} (l : list A) :
  StronglySorted R l → StronglySorted R (filter P l).
Proof.
  induction 1 as [| x l Hl IH Hx]; [constructor |].
  rewrite filter_cons. destruct (decide (P x)); [| done].
  constructor; [done |].
  apply Forall_forall. intros y Hy. apply list_elem_of_filter in Hy as [_ Hy].
  by eapply Forall_forall in Hx.
Qed.

(** X13: the files [_iterate] reads are, in the order of [filenames], all of
    them when no date range is given, and with a date range exactly those
    whose path is the data directory joined with a file name of the range;
    file names of the range that are not on disk are passed over. *)
Theorem selected_files (fuel : nat) (self : dataset)
    (dr : option (scalar * scalar)) (filepaths : list string) :
  select_files fuel self dr = Some (Ok filepaths) →
  filepaths `sublist_of` filenames self
  ∧ StronglySorted str_le filepaths
  ∧ match dr with
    | None => filepaths = filenames self
    | Some r =>
        ∃ fnames,
          _generate_filenames fuel r = Some (Ok fnames)
          ∧ ∀ f, f ∈ filepaths
                 ↔ f ∈ filenames self
                   ∧ ∃ n, n ∈ fnames ∧ f = path_join (data_dir self) n
    end.
Proof.
  unfold select_files. destruct dr as [r |].
  - destruct (_generate_filenames fuel r) as [[fnames | e] |]; simpl;
      try done.
    intros [= <-]. split; [apply sublist_filter |].
    split; [apply filter_strongly_sorted, filenames_strongly_sorted |].
    exists fnames. split; [done |]. intros f.
    rewrite list_elem_of_filter, str_in_spec, list_elem_of_fmap.
    split.
    + intros [(n & -> & Hn) Hf]. eauto.
    + intros [Hf (n & Hn & ->)]. eauto.
  - intros [= <-]. split; [done |].
    split; [apply filenames_strongly_sorted | done].
Qed.

Lemma selected_files_witness :
  let dr := Some (SStr "2007-12", SStr "2008-03") in
  select_files 4 two_files dr = Some (Ok ["/data/2007/RC_2007-12.bz2"])
  ∧ ["/data/2007/RC_2007-12.bz2"] `sublist_of` filenames two_files.
Proof.
  intros dr.
  assert (H : select_files 4 two_files dr
              = Some (Ok ["/data/2007/RC_2007-12.bz2"]))
    by (vm_compute; reflexivity).
  split; [exact H |].
  exact (proj1 (selected_files 4 two_files dr _ H)).
Defined.

(** ** Downloading *)

Local Set Warnings "-clear-no-such-hyp".

Lemma download_loop_keep urljoin dir fnames (disk : gset string) fetched :
  (∀ f, f ∈ fnames → path_join dir f ∈ disk) →
  download_loop urljoin dir (SBool false) fnames disk fetched = (disk, fetched).
Proof.
  induction fnames as [| f fnames IH]; intros Hall; [done |].
  simpl. rewrite bool_decide_eq_true_2 by (apply Hall; left). simpl.
  apply IH. intros g Hg. apply Hall. by right.
Qed.

Lemma download_loop_fresh urljoin dir fnames :
  ∀ (disk : gset string) fetched,
    let r := download_loop urljoin dir (SBool false) fnames disk fetched in
    ∃ new,
      r.2 = fetched ++ new
      ∧ r.1 = list_to_set (path_join dir <$> fnames) ∪ disk
      ∧ ∀ url path, In (url, path) new →
          (path ∉ disk)
          ∧ ∃ f, f ∈ fnames ∧ url = urljoin DOWNLOAD_ROOT f
                 ∧ path = path_join dir f.
Proof.
  induction fnames as [| f fnames IH]; intros disk fetched; simpl.
  - exists []. rewrite app_nil_r. split; [done |]. split; [set_solver |].
    intros url path [].
  - case_bool_decide as Hin; simpl.
    + destruct (IH disk fetched) as (new & H2 & H1 & Hnew).
      exists new. split; [done |]. split; [rewrite H1; set_solver |].
      intros url path H. destruct (Hnew url path H) as (Hp & g & Hg & -> & ->).
      split; [done |]. exists g. split; [by right | done].
    + destruct (IH ({[path_join dir f]} ∪ disk)
                  (fetched ++ [(urljoin DOWNLOAD_ROOT f, path_join dir f)]))
        as (new & H2 & H1 & Hnew).
      exists ((urljoin DOWNLOAD_ROOT f, path_join dir f) :: new).
      split; [by rewrite H2, <- app_assoc |].
      split; [rewrite H1; set_solver |].
      intros url path [[= <- <-] | H].
      * split; [done |]. exists f. split; [by left | done].
      * destruct (Hnew url path H) as (Hp & g & Hg & -> & ->).
        split; [set_solver |]. exists g. split; [by right | done].
Qed.

(** X14: [download] without [force] fetches no file that is on disk.  Each
    file it fetches is one of the monthly files of the range, missing before
    and present afterwards; what was on disk stays; every monthly file of the
    range is on disk in the end; and a second call fetches nothing. *)
Theorem download_skips_existing (fuel : nat)
    (urljoin : string → string → string) (self : dataset)
    (date_range : pyarg) (disk disk' : gset string)
    (fetched : list (string * string)) :
  download fuel urljoin self date_range (SBool false) disk
  = Some (Ok (disk', fetched)) →
  ∃ dr fnames,
    _parse_date_range date_range = Ok dr
    ∧ _generate_filenames fuel dr = Some (Ok fnames)
    ∧ disk ⊆ disk'
    ∧ (∀ f, f ∈ fnames → path_join (data_dir self) f ∈ disk')
    ∧ (∀ url path, In (url, path) fetched →
         (path ∉ disk) ∧ path ∈ disk'
         ∧ ∃ f, f ∈ fnames ∧ url = urljoin DOWNLOAD_ROOT f
                ∧ path = path_join (data_dir self) f)
    ∧ download fuel urljoin self date_range (SBool false) disk'
      = Some (Ok (disk', [])).
Proof.
  unfold download.
  destruct (_parse_date_range date_range) as [dr | e] eqn:Hdr; [| done].
  destruct (_generate_filenames fuel dr) as [[fnames | e] |] eqn:Hgen; simpl;
    try done.
  intros [= Hrun].
  destruct (download_loop_fresh urljoin (data_dir self) fnames disk [])
    as (new & H2 & H1 & Hnew).
  rewrite Hrun in H1, H2. simpl in H1, H2. subst fetched.
  assert (Hall : ∀ f, f ∈ fnames → path_join (data_dir self) f ∈ disk').
  { intros f Hf. rewrite H1. apply elem_of_union_l, elem_of_list_to_set.
    apply list_elem_of_fmap. eauto. }
  exists dr, fnames. split; [done |]. split; [done |].
  split; [rewrite H1; set_solver |]. split; [exact Hall |]. split.
  - intros url path H. destruct (Hnew url path H) as (Hp & f & Hf & -> & ->).
    split; [done |]. split; [by apply Hall |]. eauto.
  - by rewrite download_loop_keep.
Qed.

Lemma download_skips_existing_witness :
  let disk : gset string := {["/data/2007/RC_2007-11.bz2"]} in
  let date_range := ATuple [SStr "2007-10"; SStr "2007-12"] in
  let disk' : gset string := {["/data/2007/RC_2007-10.bz2"]} ∪ disk in
  let fetched := [("2007/RC_2007-10.bz2", "/data/2007/RC_2007-10.bz2")] in
  download 3 (λ _ ref, ref) one_file date_range (SBool false) disk
  = Some (Ok (disk', fetched))
  ∧ ∃ dr fnames,
      _parse_date_range date_range = Ok dr
      ∧ _generate_filenames 3 dr = Some (Ok fnames)
      ∧ disk ⊆ disk'.
Proof.
  intros disk date_range disk' fetched.
  assert (H : download 3 (λ _ ref, ref) one_file date_range (SBool false) disk
              = Some (Ok (disk', fetched))) by (vm_compute; reflexivity).
  split; [exact H |].
  destruct (download_skips_existing 3 (λ _ ref, ref) one_file date_range
              disk disk' fetched H) as (dr & fnames & H1 & H2 & H3 & _).
  exists dr, fnames. split; [exact H1 |]. split; [exact H2 | exact H3].
Defined.

(** X15: with [force] anything but [False] itself, [True] as well as [1] or
    [None], [download] fetches every monthly file of the range, in order,
    whether it is on disk or not. *)
Theorem download_forced (fuel : nat) (urljoin : string → string → string)
    (self : dataset) (date_range : pyarg) (force : scalar)
    (disk : gset string) (dr : scalar * scalar) (fnames : list string) :
  is_False force = false →
  _parse_date_range date_range = Ok dr →
  _generate_filenames fuel dr = Some (Ok fnames) →
  ∃ disk',
    download fuel urljoin self date_range force disk
    = Some (Ok (disk',
                (λ f, (urljoin DOWNLOAD_ROOT f, path_join (data_dir self) f))
                  <$> fnames))
    ∧ ∀ f, f ∈ fnames → path_join (data_dir self) f ∈ disk'.
Proof.
  intros Hforce Hdr Hgen. unfold download. rewrite Hdr, Hgen. simpl.
  assert (Hloop : ∀ fs (d : gset string) fetched,
    download_loop urljoin (data_dir self) force fs d fetched
    = (list_to_set (path_join (data_dir self) <$> fs) ∪ d,
       fetched
       ++ ((λ f, (urljoin DOWNLOAD_ROOT f, path_join (data_dir self) f))
             <$> fs))).
  { induction fs as [| f fs IH]; intros d fetched; simpl.
    - rewrite app_nil_r. f_equal. set_solver.
    - rewrite Hforce, andb_false_r, IH, <- app_assoc. simpl.
      f_equal. set_solver. }
  rewrite Hloop. eexists. split; [reflexivity |].
  intros f Hf. apply elem_of_union_l, elem_of_list_to_set.
  apply list_elem_of_fmap. eauto.
Qed.

Lemma download_forced_witness :
  let disk : gset string := {["/data/2007/RC_2007-11.bz2"]} in
  let date_range := ATuple [SStr "2007-11"; SStr "2007-12"] in
  is_False SNone = false
  ∧ _parse_date_range date_range = Ok (SStr "2007-11", SStr "2007-12")
  ∧ _generate_filenames 2 (SStr "2007-11", SStr "2007-12")
    = Some (Ok ["2007/RC_2007-11.bz2"])
  ∧ ∃ disk',
      download 2 (λ _ ref, ref) one_file date_range SNone disk
      = Some (Ok (disk',
                  [("2007/RC_2007-11.bz2", "/data/2007/RC_2007-11.bz2")])).
Proof.
  intros disk date_range.
  assert (H1 : is_False SNone = false) by reflexivity.
  assert (H2 : _parse_date_range date_range
               = Ok (SStr "2007-11", SStr "2007-12")) by reflexivity.
  assert (H3 : _generate_filenames 2 (SStr "2007-11", SStr "2007-12")
               = Some (Ok ["2007/RC_2007-11.bz2"])) by (vm_compute; reflexivity).
  do 3 (split; [assumption |]).
  destruct (download_forced 2 (λ _ ref, ref) one_file date_range SNone disk
              _ _ H1 H2 H3) as (disk' & H & _).
  exists disk'. exact H.
Defined.

(** ** More on the monthly file names *)

Lemma new_datetime_inv (y m d hh mm ss : Z) (dt : datetime) :
  new_datetime y m d hh mm ss = Ok dt →
  1 <= y <= 9999 ∧ 1 <= m <= 12 ∧ dt = mk_datetime y m d hh mm ss.
Proof.
  unfold new_datetime. destruct (_ && _) eqn:E; [| done].
  intros [= <-]. repeat (apply andb_true_iff in E as [E ?]).
  rewrite Z.leb_le in *. repeat split; trivial.
Qed.

(** A year below 1000 is written with fewer than four digits, which [%Y]
    of [strptime] does not read. *)
Lemma parse_Y_short (y : Z) (rest : string) :
  1 <= y < 1000 → parse_Y (fmt_Y y +:+ String "-" rest) = None.
Proof.
  intros Hy. unfold fmt_Y, pad2.
  destruct (Z.ltb_spec y 10);
    [| destruct (Z.ltb_spec y 100); [| destruct (Z.ltb_spec y 1000); [| lia]]];
    rewrite ?str_app_cons, ?str_app_nil; unfold parse_Y.
  - destruct rest as [| c [| d rest]]; try done.
    change (is_digit "-") with false. by rewrite andb_false_r.
  - destruct rest as [| c rest]; try done.
    change (is_digit "-") with false. by rewrite andb_false_r.
  - change (is_digit "-") with false. by rewrite andb_false_r.
Qed.

Lemma generate_step_short (y m : Z) (fnames : list string) :
  1 <= y < 1000 →
  generate_step (SStr (strftime_Ym (mk_datetime y m 1 0 0 0))) fnames
  = Raise ValueError.
Proof.
  intros Hy. unfold generate_step, strptime_Ym, strptime_Ymd, strftime_Ym.
  cbn [year month].
  change ("-" +:+ pad2 m) with (String "-" (pad2 m)).
  by rewrite parse_Y_short.
Qed.

(** After a turn of the loop, [yrmo] is a month in the form YYYY-MM, or,
    for a year below 1000, a text on which the next turn raises. *)
Lemma generate_step_next (yrmo : scalar) (fnames fnames' : list string)
    (yrmo' : scalar) :
  generate_step yrmo fnames = Ok (fnames', yrmo') →
  (∃ i, first_month <= i <= last_month
        ∧ yrmo' = SStr (date_str (month_form i)))
  ∨ (∀ fnames, generate_step yrmo' fnames = Raise ValueError).
Proof.
  unfold generate_step. intros H.
  destruct (except_ValueError _ _) as [dt | e]; [| done].
  cbn -[new_datetime strftime_Ym strftime_fname] in H.
  destruct (if month dt + 1 >? 12 then (year dt + 1, 1)
            else (year dt, month dt + 1)) as [ny nm].
  destruct (new_datetime ny nm 1 0 0 0) as [nxt | e] eqn:Hn; [| done].
  cbn -[strftime_Ym strftime_fname] in H. injection H as _ <-.
  apply new_datetime_inv in Hn as (Hy & Hm & ->).
  destruct (Z.lt_ge_cases ny 1000) as [Hshort | Hlong].
  - right. intros fnames0. apply generate_step_short. lia.
  - left. exists (month_index ny nm). split.
    + unfold first_month, last_month, month_index. lia.
    + unfold month_form. rewrite month_of_index_index by done.
      unfold strftime_Ym. cbn [year month fst snd date_str].
      by rewrite fmt_Y_pad4.
Qed.

Lemma generate_step_last (fnames : list string) :
  generate_step (SStr (date_str (month_form last_month))) fnames
  = Raise ValueError.
Proof. reflexivity. Qed.

Lemma generate_loop_from_month (n : nat) :
  ∀ (fuel : nat) (i : Z) (end_ : scalar) (fnames : list string),
    first_month <= i <= last_month →
    n = Z.to_nat (last_month - i) →
    (n < fuel)%nat →
    is_Some (generate_loop fuel (SStr (date_str (month_form i))) end_ fnames).
Proof.
  induction n as [| n IH]; intros fuel i end_ fnames Hi Hn Hfuel;
    (destruct fuel as [| fuel]; [lia |]); cbn [generate_loop];
    (assert (12 <= i) by (unfold first_month, month_index in Hi; lia));
    (destruct (py_lt _ end_) as [[] |]; [| by eexists | by eexists]).
  - replace i with last_month by lia. rewrite generate_step_last. by eexists.
  - rewrite generate_step_form;
      [| apply valid_month_form; lia | rewrite form_month_month_form; lia].
    rewrite form_month_month_form. apply IH; lia.
Qed.

(** Below the year 1000 the loop stops after one name: [strftime] writes
    the next [yrmo] as ['999-12'], which does not sort below ['1000-02']. *)
Lemma generate_filenames_year_999 :
  _generate_filenames 3 (SStr "0999-11", SStr "1000-02")
  = Some (Ok ["999/RC_999-11.bz2"]).
Proof. vm_compute. reflexivity. Qed.

(** X16: the loop of [_generate_filenames] always ends.  Whatever the two
    ends are, 119999 turns of fuel are enough for it to return its list or
    to raise: each turn moves [yrmo] to the next month, and [datetime] has no
    month after December 9999; below the year 1000 the turn after the first
    raises or is not taken. *)
Theorem generate_filenames_terminates (fuel : nat) (dr : scalar * scalar) :
  (Z.to_nat last_month <= fuel)%nat →
  ∃ r, _generate_filenames fuel dr = Some r.
Proof.
  intros Hfuel. destruct dr as [yrmo end_]. unfold _generate_filenames.
  destruct fuel as [| fuel]; [unfold last_month, month_index in Hfuel; lia |].
  cbn [generate_loop].
  destruct (py_lt yrmo end_) as [[] |]; [| by eexists | by eexists].
  destruct (generate_step yrmo []) as [[fnames yrmo'] | e] eqn:Hstep;
    [| by eexists].
  apply generate_step_next in Hstep as [(i & Hi & ->) | Hraise].
  - apply (generate_loop_from_month (Z.to_nat (last_month - i))); try done.
    unfold first_month, last_month, month_index in *. lia.
  - destruct fuel as [| fuel];
      [unfold last_month, month_index in Hfuel; lia |].
    cbn [generate_loop].
    destruct (py_lt yrmo' end_) as [[] |]; [| by eexists | by eexists].
    rewrite Hraise. by eexists.
Qed.

Lemma generate_filenames_terminates_witness :
  (Z.to_nat last_month <= Z.to_nat last_month)%nat
  ∧ ∃ r, _generate_filenames (Z.to_nat last_month)
           (SStr "2007-10", SStr "zzzz") = Some r.
Proof.
  assert (H : (Z.to_nat last_month <= Z.to_nat last_month)%nat) by apply le_n.
  split; [exact H |].
  exact (generate_filenames_terminates _ (SStr "2007-10", SStr "zzzz") H).
Defined.

(** X17: the day of the start plays no part: a start YYYY-MM-DD in a month
    before that of the end gives the file names that its month YYYY-MM
    gives, for the years that [strftime] writes as YYYY, from 1000 on. *)
Theorem start_day_ignored (y m d : Z) (e : date_form) (fuel : nat) :
  valid_form (YMD y m d) →
  1000 <= y →
  valid_form e →
  month_index y m < form_month e →
  form_upper e <= last_month →
  (Z.to_nat (form_upper e - month_index y m) < fuel)%nat →
  _generate_filenames fuel (SStr (date_str (YMD y m d)), SStr (date_str e))
  = _generate_filenames fuel (SStr (date_str (YM y m)), SStr (date_str e))
  ∧ _generate_filenames fuel (SStr (date_str (YM y m)), SStr (date_str e))
    = Some (Ok (map monthly_filename
                  (months_between (month_index y m) (form_upper e)))).
Proof.
  intros Hs Hy He Hlt Hup Hfuel.
  assert (Hs2 : valid_form (YM y m)) by (destruct Hs as (? & ? & ?); by split).
  assert (Hf1 : first_month <= form_month (YMD y m d))
    by (apply first_month_year; [apply Hs2 | done]).
  assert (Hf2 : first_month <= form_month (YM y m)) by exact Hf1.
  assert (Hlt1 : form_lt (YMD y m d) e) by (left; exact Hlt).
  assert (Hlt2 : form_lt (YM y m) e) by (left; exact Hlt).
  rewrite (generate_filenames_forms (YMD y m d) e fuel Hs He Hf1 Hlt1 Hup Hfuel).
  by rewrite (generate_filenames_forms (YM y m) e fuel Hs2 He Hf2 Hlt2 Hup Hfuel).
Qed.

Lemma start_day_ignored_witness :
  valid_form (YMD 2007 11 30)
  ∧ 1000 <= 2007
  ∧ valid_form (YM 2008 1)
  ∧ month_index 2007 11 < form_month (YM 2008 1)
  ∧ form_upper (YM 2008 1) <= last_month
  ∧ (Z.to_nat (form_upper (YM 2008 1) - month_index 2007 11) < 3)%nat
  ∧ _generate_filenames 3 (SStr "2007-11-30", SStr "2008-01")
    = _generate_filenames 3 (SStr "2007-11", SStr "2008-01").
Proof.
  assert (H1 : valid_form (YMD 2007 11 30))
    by (vm_compute; intuition discriminate).
  assert (H0 : 1000 <= 2007) by lia.
  assert (H2 : valid_form (YM 2008 1)) by (vm_compute; intuition discriminate).
  assert (H3 : month_index 2007 11 < form_month (YM 2008 1))
    by (vm_compute; reflexivity).
  assert (H4 : form_upper (YM 2008 1) <= last_month)
    by (vm_compute; discriminate).
  assert (H5 : (Z.to_nat (form_upper (YM 2008 1) - month_index 2007 11)
                < 3)%nat) by (vm_compute; lia).
  do 6 (split; [assumption |]).
  exact (proj1 (start_day_ignored 2007 11 30 (YM 2008 1) 3 H1 H0 H2 H3 H4 H5)).
Defined.

Lemma months_between_snoc (a b : Z) :
  a <= b → months_between a (b + 1) = months_between a b ++ [month_of_index b].
Proof.
  intros H. unfold months_between.
  replace (Z.to_nat (b + 1 - a)) with (S (Z.to_nat (b - a))) by lia.
  rewrite seq_S, map_app. simpl. do 3 f_equal. lia.
Qed.

(** X18: an end with a day adds the month of the end: for a start in an
    earlier month, the file names for the end YYYY-MM-DD, whatever the day,
    the first included, are those for the end YYYY-MM followed by the file
    name of the month YYYY-MM itself.  The years are those that [strftime]
    writes as YYYY, from 1000 on. *)
Theorem end_day_adds_month (s : date_form) (y m d : Z) (fuel : nat) :
  valid_form s →
  first_month <= form_month s →
  valid_form (YMD y m d) →
  form_month s < month_index y m →
  month_index y m < last_month →
  (Z.to_nat (month_index y m + 1 - form_month s) < fuel)%nat →
  ∃ fnames,
    _generate_filenames fuel (SStr (date_str s), SStr (date_str (YM y m)))
    = Some (Ok fnames)
    ∧ _generate_filenames fuel
        (SStr (date_str s), SStr (date_str (YMD y m d)))
      = Some (Ok (fnames ++ [monthly_filename (y, m)])).
Proof.
  intros Hs Hfirst He Hlt Hlast Hfuel.
  assert (He2 : valid_form (YM y m)) by (destruct He as (? & ? & ?); by split).
  assert (Hlt1 : form_lt s (YM y m)) by (left; exact Hlt).
  assert (Hlt2 : form_lt s (YMD y m d)) by (left; exact Hlt).
  assert (Hup1 : form_upper (YM y m) <= last_month) by (simpl; lia).
  assert (Hup2 : form_upper (YMD y m d) <= last_month) by (simpl; lia).
  assert (Hf1 : (Z.to_nat (form_upper (YM y m) - form_month s) < fuel)%nat)
    by (simpl; lia).
  eexists. split.
  - exact (generate_filenames_forms s (YM y m) fuel Hs He2 Hfirst Hlt1 Hup1 Hf1).
  - rewrite (generate_filenames_forms s (YMD y m d) fuel Hs He Hfirst Hlt2 Hup2
               Hfuel).
    cbn [form_upper]. rewrite months_between_snoc by lia.
    destruct He2 as [_ Hm].
    by rewrite map_app, month_of_index_index by exact Hm.
Qed.

Lemma end_day_adds_month_witness :
  valid_form (YM 2015 4)
  ∧ first_month <= form_month (YM 2015 4)
  ∧ valid_form (YMD 2015 6 1)
  ∧ form_month (YM 2015 4) < month_index 2015 6
  ∧ month_index 2015 6 < last_month
  ∧ (Z.to_nat (month_index 2015 6 + 1 - form_month (YM 2015 4)) < 4)%nat
  ∧ ∃ fnames,
      _generate_filenames 4 (SStr "2015-04", SStr "2015-06") = Some (Ok fnames)
      ∧ _generate_filenames 4 (SStr "2015-04", SStr "2015-06-01")
        = Some (Ok (fnames ++ ["2015/RC_2015-06.bz2"])).
Proof.
  assert (H1 : valid_form (YM 2015 4)) by (vm_compute; intuition discriminate).
  assert (H0 : first_month <= form_month (YM 2015 4))
    by (vm_compute; discriminate).
  assert (H2 : valid_form (YMD 2015 6 1))
    by (vm_compute; intuition discriminate).
  assert (H3 : form_month (YM 2015 4) < month_index 2015 6)
    by (vm_compute; reflexivity).
  assert (H4 : month_index 2015 6 < last_month) by (vm_compute; reflexivity).
  assert (H5 : (Z.to_nat (month_index 2015 6 + 1 - form_month (YM 2015 4))
                < 4)%nat) by (vm_compute; lia).
  do 6 (split; [assumption |]).
  exact (end_day_adds_month (YM 2015 4) 2015 6 1 4 H1 H0 H2 H3 H4 H5).
Defined.

(** X19: the start is looked at only inside the loop.  A start that does not
    sort before the end gives the empty list without being parsed, whatever
    text it is; a start YYYY-MM-DD that sorts before the end and whose day is
    not a day of its month raises [ValueError], though only its month is
    used. *)
Theorem start_checked_in_loop (fuel : nat) :
  (∀ s e : string,
     String.ltb s e = false →
     _generate_filenames (S fuel) (SStr s, SStr e) = Some (Ok []))
  ∧ (∀ (y m d : Z) (e : string),
       1 <= y <= 9999 → 1 <= m <= 12 →
       days_in_month y m < d <= 31 →
       String.ltb (date_str (YMD y m d)) e = true →
       _generate_filenames (S fuel) (SStr (date_str (YMD y m d)), SStr e)
       = Some (Raise ValueError)).
Proof.
  split.
  - intros s e H. unfold _generate_filenames. cbn [generate_loop py_lt as_num].
    by rewrite H.
  - intros y m d e Hy Hm Hd H.
    unfold _generate_filenames. cbn [generate_loop py_lt as_num]. rewrite H.
    unfold generate_step. rewrite strptime_Ym_YMD by done.
    cbn [except_ValueError].
    assert (Hraise : strptime_Ymd (SStr (date_str (YMD y m d)))
                     = Raise ValueError).
    { unfold strptime_Ymd. rewrite date_str_YMD.
      rewrite parse_Y_pad4 by lia. parse_step.
      rewrite parse_m_pad2 by lia. parse_step.
      pose proof (days_in_month_bounds y m).
      rewrite pad2_app_nil, parse_d_pad2 by lia. parse_step.
      unfold new_datetime.
      replace (d <=? days_in_month y m) with false
        by (symmetry; apply Z.leb_gt; lia).
      by rewrite !andb_false_r. }
    by rewrite Hraise.
Qed.

Lemma start_checked_in_loop_witness :
  1 <= 2015 <= 9999 ∧ 1 <= 2 <= 12
  ∧ days_in_month 2015 2 < 30 <= 31
  ∧ String.ltb (date_str (YMD 2015 2 30)) "2015-06" = true
  ∧ _generate_filenames 1 (SStr "2015-02-30", SStr "2015-06")
    = Some (Raise ValueError).
Proof.
  assert (H1 : 1 <= 2015 <= 9999) by lia.
  assert (H2 : 1 <= 2 <= 12) by lia.
  assert (H3 : days_in_month 2015 2 < 30 <= 31) by (vm_compute; split; [reflexivity | discriminate]).
  assert (H4 : String.ltb (date_str (YMD 2015 2 30)) "2015-06" = true)
    by reflexivity.
  do 4 (split; [assumption |]).
  exact (proj2 (start_checked_in_loop 0) 2015 2 30 "2015-06" H1 H2 H3 H4).
Defined.

(** ** More on cleaning *)

Lemma take_until_length (stop : ascii) (s run after : string) :
  take_until stop s = Some (run, after) →
  String.length s = (String.length run + 1 + String.length after)%nat.
Proof.
  revert run. induction s as [| c s IH]; intros run; simpl; [done |].
  destruct (Ascii.eqb c stop); [by intros [= <- <-] |].
  destruct (take_until stop s) as [[run' after'] |]; simpl; [| done].
  intros [= <- <-]. simpl. rewrite (IH run') by done. lia.
Qed.

Lemma parse_lit_length (c : ascii) (s rest : string) :
  parse_lit c s = Some rest → String.length s = S (String.length rest).
Proof.
  destruct s as [| c' s]; simpl; [done |].
  destruct (Ascii.eqb c c'); [by intros [= <-] | done].
Qed.

Lemma substring_length_le (n m : nat) (s : string) :
  (String.length (String.substring n m s) <= m)%nat.
Proof.
  revert n m. induction s as [| c s IH]; intros [| n] [| m]; simpl;
    try lia.
  - specialize (IH 0%nat m). lia.
  - apply IH.
  - apply IH.
Qed.

Lemma strip_prefix_length (p s rest : string) :
  strip_prefix p s = Some rest → (String.length rest <= String.length s)%nat.
Proof.
  unfold strip_prefix. destruct (String.prefix p s); [| done].
  intros [= <-].
  pose proof (substring_length_le (String.length p)
                (String.length s - String.length p) s). lia.
Qed.

Lemma match_link_length (s label : string) (n : nat) :
  match_link s = Some (label, n) →
  (String.length label < n <= String.length s)%nat.
Proof.
  unfold match_link.
  destruct (parse_lit "[" s) as [s1 |] eqn:H1; simpl; [| done].
  destruct (take_until "]" s1) as [[label' s2] |] eqn:H2; simpl; [| done].
  destruct (String.eqb label' ""); [done |].
  destruct (parse_lit "(" s2) as [s3 |] eqn:H3; simpl; [| done].
  destruct (strip_prefix "http" s3) as [s4 |] eqn:H4; simpl; [| done].
  assert (H5 : (String.length (default s4 (parse_lit "s" s4))
                <= String.length s4)%nat).
  { destruct (parse_lit "s" s4) as [s5 |] eqn:E; simpl; [| lia].
    apply parse_lit_length in E. lia. }
  destruct (strip_prefix "://" _) as [s6 |] eqn:H6; simpl; [| done].
  destruct (take_until ")" s6) as [[url s7] |] eqn:H7; simpl; [| done].
  destruct (String.eqb url ""); [done |].
  intros [= <- <-].
  apply parse_lit_length in H1, H3. apply take_until_length in H2, H7.
  apply strip_prefix_length in H4, H6. lia.
Qed.

Lemma sub_link_from_length (s : string) :
  ∀ k, (String.length (sub_link_from k s) <= String.length s - k)%nat.
Proof.
  induction s as [| c s IH]; intros k; [simpl; lia |].
  cbn [sub_link_from]. destruct k as [| k].
  - destruct (match_link (String c s)) as [[label n] |] eqn:Hm.
    + apply match_link_length in Hm. rewrite str_length_app.
      specialize (IH (n - 1)%nat). simpl in *. lia.
    + specialize (IH 0%nat). simpl. lia.
  - specialize (IH k). simpl. lia.
Qed.

Lemma prefix_length (p s : string) :
  String.prefix p s = true → (String.length p <= String.length s)%nat.
Proof.
  revert s. induction p as [| a p IH]; intros [| b s]; simpl; try done;
    try lia.
  destruct (ascii_dec a b); [| done]. intros H. apply IH in H. lia.
Qed.

Lemma replace_from_length (old new s : string) :
  (String.length new <= String.length old)%nat →
  ∀ k, (String.length (replace_from k old new s) <= String.length s - k)%nat.
Proof.
  intros Hnew. induction s as [| c s IH]; intros k; [simpl; lia |].
  cbn [replace_from]. destruct k as [| k].
  - destruct (String.prefix old (String c s)) eqn:Hp.
    + apply prefix_length in Hp. rewrite str_length_app.
      specialize (IH (String.length old - 1)%nat). simpl in *. lia.
    + specialize (IH 0%nat). simpl. lia.
  - specialize (IH k). simpl. lia.
Qed.

Lemma str_replace_length (old new s : string) :
  (String.length new <= String.length old)%nat →
  (String.length (str_replace old new s) <= String.length s)%nat.
Proof.
  intros H. pose proof (replace_from_length old new s H 0). unfold str_replace.
  lia.
Qed.

Lemma collapse_space_length (b : bool) (s : string) :
  (String.length (collapse_space b s) <= String.length s)%nat.
Proof.
  revert b. induction s as [| c s IH]; intros b; simpl; [lia |].
  destruct (is_space c); [destruct b |]; simpl.
  - specialize (IH true). lia.
  - specialize (IH true). lia.
  - specialize (IH false). lia.
Qed.

Lemma lstrip_length (s : string) :
  (String.length (lstrip s) <= String.length s)%nat.
Proof.
  induction s as [| c s IH]; simpl; [lia |].
  destruct (is_space c); simpl; lia.
Qed.

Lemma rstrip_length (s : string) :
  (String.length (rstrip s) <= String.length s)%nat.
Proof.
  induction s as [| c s IH]; simpl; [lia |].
  destruct (rstrip s); [destruct (is_space c) |]; simpl in *; lia.
Qed.

(** X20: cleaning never makes a text longer; so a body that is shorter than
    [min_len] as it was read fails the length test after cleaning too. *)
Theorem clean_content_not_longer (content : string) :
  (String.length (_clean_content content) <= String.length content)%nat
  ∧ ∀ min_len : Z,
      min_len_test min_len (_clean_content content) = true →
      min_len_test min_len content = true.
Proof.
  assert (Hlen : (String.length (_clean_content content)
                  <= String.length content)%nat).
  { unfold _clean_content, normalize_whitespace.
    etrans; [apply rstrip_length |]. etrans; [apply lstrip_length |].
    etrans; [apply collapse_space_length |].
    etrans; [apply str_replace_length; simpl; lia |].
    etrans; [apply str_replace_length; simpl; lia |].
    etrans; [apply str_replace_length; simpl; lia |].
    etrans; [apply str_replace_length; simpl; lia |].
    etrans; [apply str_replace_length; simpl; lia |].
    pose proof (sub_link_from_length content 0). unfold sub_link. lia. }
  split; [exact Hlen |].
  intros min_len. unfold min_len_test, py_len.
  destruct (min_len =? 0); [done |]. simpl.
  rewrite !negb_true_iff, !Z.ltb_ge. lia.
Qed.

Lemma sub_link_plain (s : string) : ¬ has_char "[" s → sub_link s = s.
Proof.
  unfold sub_link, has_char. induction s as [| c s IH]; [done |].
  intros Hno. cbn [sub_link_from]. unfold match_link. cbn [parse_lit].
  destruct (Ascii.eqb_spec "[" c) as [<- | _]; [simpl in Hno; tauto |].
  cbn [mbind option_bind]. f_equal. apply IH. simpl in Hno. tauto.
Qed.

Lemma str_replace_absent (c : ascii) (old new s : string) :
  ¬ has_char c s → str_replace (String c old) new s = s.
Proof.
  unfold str_replace, has_char. induction s as [| a s IH]; [done |].
  intros Hno. cbn [replace_from String.prefix].
  destruct (ascii_dec c a) as [-> | _]; [simpl in Hno; tauto |].
  f_equal. apply IH. simpl in Hno. tauto.
Qed.

Lemma single_spaced_spaced (s : string) :
  single_spaced s = true → spaced s = true.
Proof.
  induction s as [| c s IH]; [done |]. simpl.
  rewrite !andb_true_iff, !orb_true_iff, !andb_true_iff.
  intros [[H | [[H1 H2] _]] Hs]; (split; [| by apply IH]); auto.
Qed.

Lemma collapse_space_id (b : bool) (s : string) :
  spaced s = true → (b = true → starts_blank s = false) →
  collapse_space b s = s.
Proof.
  revert b. induction s as [| c s IH]; intros b; [done |]. simpl.
  rewrite andb_true_iff, orb_true_iff, andb_true_iff.
  intros [Hc Hs] Hb. destruct (is_space c) eqn:Hsp.
  - destruct b; [by specialize (Hb eq_refl) |].
    destruct Hc as [Hc | [Hc Hn]]; [done |].
    apply Ascii.eqb_eq in Hc as ->. f_equal.
    apply IH; [done |]. intros _. by apply negb_true_iff.
  - f_equal. by apply IH.
Qed.

Lemma lstrip_id (s : string) : starts_blank s = false → lstrip s = s.
Proof. destruct s as [| c s]; simpl; [done |]. by intros ->. Qed.

Lemma rstrip_id (s : string) : single_spaced s = true → rstrip s = s.
Proof.
  induction s as [| c s IH]; [done |]. simpl.
  rewrite andb_true_iff, orb_true_iff, !andb_true_iff.
  intros [Hc Hs]. rewrite IH by done.
  destruct s as [| c' s']; [| done].
  destruct Hc as [Hc | [_ Hc]]; [| done].
  apply negb_true_iff in Hc. by rewrite Hc.
Qed.

(** X21: a text without markup is returned as it is: when it holds none of
    the characters [[], [&], [`], [*] and [~], does not start or end with a
    blank and has single spaces for blanks, [_clean_content] changes
    nothing. *)
Theorem clean_content_plain (content : string) :
  (∀ c : ascii,
     c = "["%char ∨ c = "&"%char ∨ c = "`"%char ∨ c = "*"%char ∨ c = "~"%char →
     ¬ has_char c content) →
  starts_blank content = false →
  single_spaced content = true →
  _clean_content content = content.
Proof.
  intros Hno Hb Hs. unfold _clean_content, normalize_whitespace.
  rewrite sub_link_plain by (apply Hno; auto).
  rewrite (str_replace_absent "&" "gt;") by (apply Hno; auto).
  rewrite (str_replace_absent "&" "lt;") by (apply Hno; auto).
  rewrite (str_replace_absent "`" "") by (apply Hno; auto).
  rewrite (str_replace_absent "*" "") by (apply Hno; auto 6).
  rewrite (str_replace_absent "~" "") by (apply Hno; auto 6).
  rewrite collapse_space_id by (by apply single_spaced_spaced || done).
  rewrite lstrip_id by done. by apply rstrip_id.
Qed.

Lemma clean_content_plain_witness :
  starts_blank "see here > bold code" = false
  ∧ single_spaced "see here > bold code" = true
  ∧ _clean_content "see here > bold code" = "see here > bold code".
Proof.
  assert (H1 : starts_blank "see here > bold code" = false) by reflexivity.
  assert (H2 : single_spaced "see here > bold code" = true) by reflexivity.
  do 2 (split; [assumption |]).
  apply clean_content_plain; [| exact H1 | exact H2].
  intros c Hc. vm_compute. intuition (subst; discriminate).
Defined.

(** ** More on timestamps *)

Ltac ts_step :=
  cbn -[Z.pow Z.div Z.modulo Z.leb Z.ltb Z.sub Z.opp civil_from_days
        new_datetime strftime_iso utcfromtimestamp].

Lemma fmt_Y_length (y : Z) : (1 <= String.length (fmt_Y y) <= 4)%nat.
Proof.
  unfold fmt_Y.
  destruct (y <? 10); [| destruct (y <? 100); [| destruct (y <? 1000)]];
    simpl; lia.
Qed.

Lemma strftime_iso_length (dt : datetime) :
  String.length (strftime_iso dt) = (String.length (fmt_Y (year dt)) + 15)%nat.
Proof. unfold strftime_iso. by rewrite str_length_app. Qed.

(** From 1970 on the year has four digits: a day number that is not
    negative lies in a year from 1600 on. *)
Lemma civil_from_days_year (days : Z) :
  0 <= days → 1600 <= (civil_from_days days).1.1.
Proof.
  intros Hd. unfold civil_from_days.
  set (z := days + 719468).
  set (era := z / 146097).
  set (doe := z - era * 146097).
  set (yoe := (doe - doe / 1460 + doe / 36524 - doe / 146096) / 365).
  assert (Hera : 4 <= era) by (apply Z.div_le_lower_bound; lia).
  assert (Hdoe : 0 <= doe).
  { unfold doe, era. pose proof (Z.mul_div_le z 146097). lia. }
  assert (Hyoe : 0 <= yoe).
  { apply Z.div_pos; [| lia].
    assert (doe / 1460 <= doe) by (apply Z.div_le_upper_bound; lia).
    assert (doe / 146096 <= doe / 36524)
      by (apply Z.div_le_compat_l; lia).
    lia. }
  cbn zeta.
  destruct ((if _ <? 10 then _ else _) <=? 2); simpl; lia.
Qed.

(** The first second of the year 1, and the blanks of [int]: the separator
    28 is none, the no-break space 160 is one. *)
Lemma convert_timestamp_year_1 :
  _convert_timestamp (SInt (-62135596800)) = Ok "1-01-01T00:00:00".
Proof. vm_compute. reflexivity. Qed.

Lemma py_int_blanks :
  py_int (SStr (String (ascii_of_nat 28) "12")) = Raise ValueError
  ∧ py_int (SStr (String (ascii_of_nat 160) "12 ")) = Ok 12.
Proof. split; vm_compute; reflexivity. Qed.

(** X22: [_convert_timestamp] returns the empty string or a text of 16 to
    19 characters, of 19 for a timestamp that is not negative (1970 or
    later).  It raises neither [ValueError] nor [TypeError]: the only
    exceptions that leave it are the [OverflowError] and [OSError] of
    [utcfromtimestamp], and an integer outside the 64 bits of [time_t] does
    raise [OverflowError]. *)
Theorem convert_timestamp_results (x : scalar) :
  (∀ s, _convert_timestamp x = Ok s →
        s = "" ∨ (16 <= String.length s <= 19)%nat)
  ∧ (∀ z s, py_int x = Ok z → 0 <= z → _convert_timestamp x = Ok s →
            s = "" ∨ String.length s = 19%nat)
  ∧ (∀ e, _convert_timestamp x = Raise e → e = OverflowError ∨ e = OSError)
  ∧ (∀ z, py_int x = Ok z → ¬ (- 2 ^ 63 <= z < 2 ^ 63) →
          _convert_timestamp x = Raise OverflowError).
Proof.
  unfold _convert_timestamp.
  destruct (py_int x) as [z | e] eqn:Hint; ts_step.
  - unfold utcfromtimestamp.
    destruct (negb ((- 2 ^ 63 <=? z) && (z <? 2 ^ 63))) eqn:Hr; ts_step.
    { split; [done |]. split; [done |].
      split; [intros e H; inversion H; by left | done]. }
    assert (Hz : ∀ z', Ok z = Ok z' → ¬ (- 2 ^ 63 <= z' < 2 ^ 63) → False).
    { intros z' H Hz. inversion H. subst z'.
      apply negb_false_iff, andb_true_iff in Hr as [H1 H2].
      apply Z.leb_le in H1. apply Z.ltb_lt in H2. lia. }
    pose proof (civil_from_days_year (z `div` 86400)) as Hyear.
    destruct (civil_from_days (z `div` 86400)) as [[y m] d].
    cbn [fst] in Hyear.
    destruct (negb ((- 2 ^ 31 <=? y - 1900) && (y - 1900 <? 2 ^ 31))); ts_step.
    { split; [done |]. split; [done |].
      split; [intros e H; inversion H; by right |].
      intros z' H1 H2. by destruct (Hz z' H1 H2). }
    destruct (new_datetime y m d _ _ _) as [dt | e] eqn:Hdt; ts_step.
    + split; [| split; [| split]].
      * intros s H. inversion H. right. rewrite strftime_iso_length.
        pose proof (fmt_Y_length (year dt)). lia.
      * intros z' s H Hpos Hs. inversion H. inversion Hs. subst z'. right.
        apply new_datetime_inv in Hdt as (_ & _ & ->).
        rewrite strftime_iso_length. cbn [year].
        rewrite fmt_Y_pad4; [reflexivity |].
        assert (0 <= z `div` 86400) by (apply Z.div_pos; lia). lia.
      * done.
      * intros z' H1 H2. by destruct (Hz z' H1 H2).
    + assert (e = ValueError) as ->.
      { unfold new_datetime in Hdt.
        destruct (andb _ _) in Hdt; by inversion Hdt. }
      split; [intros s H; inversion H; by left |].
      split; [intros z' s _ _ H; inversion H; by left |].
      split; [done |]. intros z' H1 H2. by destruct (Hz z' H1 H2).
  - destruct (py_int_raise_kind _ _ Hint); subst e;
      (split; [intros s H; inversion H; by left |]);
      (split; [done |]); (split; [done | done]).
Qed.

Lemma convert_timestamp_results_witness :
  py_int (SStr " 9223372036854775808 ") = Ok (2 ^ 63)
  ∧ ¬ (- 2 ^ 63 <= 2 ^ 63 < 2 ^ 63)
  ∧ _convert_timestamp (SStr " 9223372036854775808 ") = Raise OverflowError
  ∧ py_int (SInt 1195000000) = Ok 1195000000
  ∧ 0 <= 1195000000
  ∧ _convert_timestamp (SInt 1195000000) = Ok "2007-11-14T00:26:40"
  ∧ String.length "2007-11-14T00:26:40" = 19%nat.
Proof.
  assert (H1 : py_int (SStr " 9223372036854775808 ") = Ok (2 ^ 63))
    by reflexivity.
  assert (H2 : ¬ (- 2 ^ 63 <= 2 ^ 63 < 2 ^ 63)) by lia.
  assert (H3 : py_int (SInt 1195000000) = Ok 1195000000) by reflexivity.
  assert (H4 : 0 <= 1195000000) by lia.
  assert (H5 : _convert_timestamp (SInt 1195000000) = Ok "2007-11-14T00:26:40")
    by (vm_compute; reflexivity).
  split; [assumption |]. split; [assumption |].
  split; [exact (proj2 (proj2 (proj2 (convert_timestamp_results _))) _ H1 H2) |].
  split; [assumption |]. split; [assumption |]. split; [assumption |].
  destruct (proj1 (proj2 (convert_timestamp_results (SInt 1195000000)))
              _ _ H3 H4 H5) as [H | H]; [discriminate H | exact H].
Defined.

(** ** The date filter on converted timestamps *)

Lemma compare_ym_prefix (y m y' m' : Z) (t t' : string) :
  1 <= y <= 9999 → 1 <= m <= 12 → 1 <= y' <= 9999 → 1 <= m' <= 12 →
  String.compare (pad4 y +:+ String "-" (pad2 m +:+ t))
    (pad4 y' +:+ String "-" (pad2 m' +:+ t'))
  = match month_index y m ?= month_index y' m' with
    | Eq => String.compare t t'
    | c => c
    end.
Proof.
  intros Hy Hm Hy' Hm'.
  rewrite compare_pad4 by lia.
  change (String.compare (String "-" ?a) (String "-" ?b))
    with (String.compare a b).
  rewrite compare_pad2 by lia.
  unfold month_index.
  destruct (Z.compare_spec y y'); [destruct (Z.compare_spec m m') |..];
    destruct (Z.compare_spec (12 * y + (m - 1)) (12 * y' + (m' - 1)));
    try reflexivity; lia.
Qed.

Lemma strftime_iso_date (dt : datetime) :
  1000 <= year dt →
  strftime_iso dt
  = pad4 (year dt) +:+ String "-" (pad2 (month dt) +:+ String "-"
      (pad2 (day dt) +:+ String "T" (pad2 (hour dt) +:+ ":"
         +:+ pad2 (minute dt) +:+ ":" +:+ pad2 (second dt)))).
Proof. intros H. unfold strftime_iso. by rewrite fmt_Y_pad4. Qed.

(** A bound of a range against a converted timestamp: by month, then by
    day, the bound first when both agree. *)
Lemma compare_form_iso (f : date_form) (dt : datetime) :
  valid_form f →
  1000 <= year dt <= 9999 → 1 <= month dt <= 12 → 1 <= day dt <= 31 →
  String.compare (date_str f) (strftime_iso dt)
  = match day_key (form_month f) (form_day f)
          ?= day_key (month_index (year dt) (month dt)) (day dt) with
    | Gt => Gt
    | _ => Lt
    end.
Proof.
  intros Hf Hy Hm Hd. rewrite strftime_iso_date by lia. unfold day_key.
  destruct f as [y m | y m d]; simpl in Hf;
    rewrite ?date_str_YM, ?date_str_YMD, compare_ym_prefix by lia;
    cbn [form_month form_day];
    destruct (Z.compare_spec (month_index y m)
                (month_index (year dt) (month dt))) as [Heq | Hlt | Hgt].
  - rewrite Heq. simpl.
    destruct (Z.compare_spec (32 * month_index (year dt) (month dt) + 0)
                (32 * month_index (year dt) (month dt) + day dt));
      try reflexivity; lia.
  - destruct (Z.compare_spec (32 * month_index y m + 0)
                (32 * month_index (year dt) (month dt) + day dt));
      try reflexivity; lia.
  - destruct (Z.compare_spec (32 * month_index y m + 0)
                (32 * month_index (year dt) (month dt) + day dt));
      try reflexivity; lia.
  - rewrite Heq.
    change (String.compare (String "-" ?a) (String "-" ?b))
      with (String.compare a b).
    pose proof (days_in_month_bounds y m).
    rewrite compare_pad2 by lia. simpl.
    destruct (Z.compare_spec d (day dt));
      destruct (Z.compare_spec (32 * month_index (year dt) (month dt) + d)
                  (32 * month_index (year dt) (month dt) + day dt));
      try reflexivity; lia.
  - pose proof (days_in_month_bounds y m).
    destruct (Z.compare_spec (32 * month_index y m + d)
                (32 * month_index (year dt) (month dt) + day dt));
      try reflexivity; lia.
  - pose proof (days_in_month_bounds y m).
    destruct (Z.compare_spec (32 * month_index y m + d)
                (32 * month_index (year dt) (month dt) + day dt));
      try reflexivity; lia.
Qed.

(** X23: on a converted timestamp the date filter is the half-open interval
    of days.  With the two ends given as YYYY-MM or YYYY-MM-DD, a record
    posted on day [d] of a month, in a year from 1000 on, passes exactly when
    that day is at or after the start and before the end, a YYYY-MM end or
    start standing for the first day of its month; the time of day plays no
    part. *)
Theorem date_filter_is_day_interval (s e : date_form) (dt : datetime) :
  valid_form s → valid_form e →
  1000 <= year dt <= 9999 → 1 <= month dt <= 12 → 1 <= day dt <= 31 →
  let posted := day_key (month_index (year dt) (month dt)) (day dt) in
  date_test (Some (SStr (date_str s), SStr (date_str e))) (strftime_iso dt)
  = Ok (bool_decide
          (day_key (form_month s) (Z.max 1 (form_day s)) <= posted
           ∧ posted < day_key (form_month e) (Z.max 1 (form_day e)))).
Proof.
  intros Hs He Hy Hm Hd posted.
  unfold date_test, py_between, py_le, py_lt. cbn [as_num].
  unfold String.leb, String.ltb. cbn [mbind result_bind].
  rewrite (String.compare_antisym (strftime_iso dt) (date_str e)).
  rewrite !compare_form_iso by done. fold posted.
  assert (Hfs : 0 <= form_day s <= 31).
  { destruct s as [y m | y m d]; simpl in *; [lia |].
    pose proof (days_in_month_bounds y m). lia. }
  assert (Hfe : 0 <= form_day e <= 31).
  { destruct e as [y m | y m d]; simpl in *; [lia |].
    pose proof (days_in_month_bounds y m). lia. }
  unfold day_key in *.
  destruct (Z.compare_spec (32 * form_month s + form_day s) posted);
    destruct (Z.compare_spec (32 * form_month e + form_day e) posted);
    simpl; f_equal; symmetry;
    (apply bool_decide_eq_true_2 || apply bool_decide_eq_false_2); lia.
Qed.

Lemma date_filter_is_day_interval_witness :
  let dt := mk_datetime 2015 1 1 23 59 59 in
  valid_form (YMD 2015 1 1) ∧ valid_form (YMD 2015 1 2)
  ∧ 1000 <= year dt <= 9999 ∧ 1 <= month dt <= 12 ∧ 1 <= day dt <= 31
  ∧ date_test (Some (SStr "2015-01-01", SStr "2015-01-02"))
      "2015-01-01T23:59:59" = Ok true.
Proof.
  intros dt.
  assert (H1 : valid_form (YMD 2015 1 1)) by (vm_compute; intuition discriminate).
  assert (H2 : valid_form (YMD 2015 1 2)) by (vm_compute; intuition discriminate).
  assert (H3 : 1000 <= year dt <= 9999) by (simpl; lia).
  assert (H4 : 1 <= month dt <= 12) by (simpl; lia).
  assert (H5 : 1 <= day dt <= 31) by (simpl; lia).
  do 5 (split; [assumption |]).
  exact (date_filter_is_day_interval (YMD 2015 1 1) (YMD 2015 1 2) dt
           H1 H2 H3 H4 H5).
Defined.

(** ** Collections of subreddits *)

Lemma process_line_subreddit_ext text_only a b dr sr min_len line :
  subreddit_test a line = subreddit_test b line →
  process_line text_only a dr sr min_len line
  = process_line text_only b dr sr min_len line.
Proof.
  intros H. unfold process_line.
  line_step. rewrite check_subreddit_eq, H.
  symmetry. line_step. rewrite check_subreddit_eq. reflexivity.
Qed.

Lemma subreddit_test_members (l1 l2 : list scalar) (line : gmap string scalar) :
  (∀ x, In x l1 ↔ In x l2) →
  subreddit_test (ASet l1) line = subreddit_test (ASet l2) line.
Proof.
  intros Hsame. unfold subreddit_test, py_in.
  assert (Ht : truthy (ASet l1) = truthy (ASet l2)).
  { destruct l1 as [| x l1], l2 as [| y l2]; try done.
    - by destruct (proj2 (Hsame y) (or_introl eq_refl)).
    - by destruct (proj1 (Hsame x) (or_introl eq_refl)). }
  rewrite Ht. destruct (truthy (ASet l2)); [| done].
  destruct (line !! "subreddit") as [v |]; [| done]. f_equal.
  apply eq_true_iff_eq. rewrite !existsb_exists.
  split; intros (x & Hx & Hv); exists x; (split; [by apply Hsame | done]).
Qed.

(** X24: a collection of subreddits filters as the set of its members: two
    lists, tuples or sets with the same members, in any order and with any
    repetitions, make the loop body behave alike on every record. *)
Theorem subreddit_collection_as_set (l1 l2 : list scalar) (text_only : bool)
    (dr sr : option (scalar * scalar)) (min_len : Z)
    (line : gmap string scalar) :
  (∀ x, In x l1 ↔ In x l2) →
  let run c :=
    process_line text_only (normalize_subreddit c) dr sr min_len line in
  run (AList l1) = run (ASet l2)
  ∧ run (ATuple l1) = run (ASet l2)
  ∧ run (ASet l1) = run (ASet l2).
Proof.
  intros Hsame run. subst run. cbv beta.
  assert (Hset : ∀ l, normalize_subreddit (ASet l) = ASet l)
    by (intros l; unfold normalize_subreddit; by destruct (truthy _)).
  assert (Hlist : ∀ l,
    subreddit_test (normalize_subreddit (AList l)) line
    = subreddit_test (ASet l) line
    ∧ subreddit_test (normalize_subreddit (ATuple l)) line
      = subreddit_test (ASet l) line)
    by (intros [| x l]; done).
  rewrite !Hset.
  split; [| split]; apply process_line_subreddit_ext.
  - rewrite (proj1 (Hlist l1)). by apply subreddit_test_members.
  - rewrite (proj2 (Hlist l1)). by apply subreddit_test_members.
  - by apply subreddit_test_members.
Qed.

Lemma subreddit_collection_as_set_witness :
  let l1 := [SStr "news"; SStr "politics"; SStr "news"] in
  let l2 := [SStr "politics"; SStr "news"] in
  let line := sample_record "news" 5 (SInt 1195000000) "a  *b*" in
  (∀ x, In x l1 ↔ In x l2)
  ∧ process_line true (normalize_subreddit (AList l1)) None None 0 line
    = process_line true (normalize_subreddit (ASet l2)) None None 0 line.
Proof.
  intros l1 l2 line.
  assert (H : ∀ x, In x l1 ↔ In x l2) by (intros x; simpl; tauto).
  split; [exact H |].
  exact (proj1 (subreddit_collection_as_set l1 l2 true None None 0 line H)).
Defined.

Lemma filenames_sorted_witness :
  dir_exists two_files = true
  ∧ filenames two_files ≡ₚ get_filenames two_files.
Proof.
  assert (H : dir_exists two_files = true) by reflexivity.
  split; [exact H |].
  exact (proj1 (proj2 (filenames_sorted two_files)) H).
Defined.

Lemma clean_content_not_longer_witness :
  min_len_test 3 (_clean_content "*a*  [b](http://c)") = true
  ∧ min_len_test 3 "*a*  [b](http://c)" = true.
Proof.
  assert (H : min_len_test 3 (_clean_content "*a*  [b](http://c)") = true)
    by reflexivity.
  split; [exact H |].
  exact (proj2 (clean_content_not_longer "*a*  [b](http://c)") 3 H).
Defined.
